(** * Tapir cooperative: share-owner views

    A shallow embedding of [tapir/coop/views/shareowner.py]: the views are
    functions in a state-and-exception monad over a world made of the
    relational store, the mail outbox and the rendered documents.
    [transaction.atomic] restores the store when its body raises. *)

From Stdlib Require Import ZArith String Ascii List Bool Lia.
From stdpp Require Import base option list gmap strings.

Open Scope string_scope.
Open Scope Z_scope.

(** ** Values *)

Record date := Date { year : Z; month : Z; day : Z }.

#[global] Instance date_eq_dec : EqDecision date.
Proof. solve_decision. Defined.

(** Python values as they appear in a frozen snapshot. A [Decimal] with two
    places is counted in hundredths. *)
Inductive pyval :=
| PyNone
| PyBool (b : bool)
| PyInt (n : Z)
| PyStr (s : string)
| PyDate (d : date)
| PyDecimal (hundredths : Z).

#[global] Instance pyval_eq_dec : EqDecision pyval.
Proof. solve_decision. Defined.

(** A frozen snapshot is a dict from field names to values. *)
Notation Frozen := (gmap string pyval).

(** ** The monad of views *)

Inductive Exn :=
| Http404
| ValidationError (msg : string)
| ValueError (msg : string)
| AttributeError
| PermissionDenied
| DatabaseError
| SMTPException.

Section Monad.
Context {W : Type}.

Definition M (A : Type) : Type := W → (Exn + A) * W.

Definition ret {A} (a : A) : M A := λ w, (inr a, w).

Definition bind {A B} (m : M A) (k : A → M B) : M B :=
  λ w, match m w with
       | (inr a, w') => k a w'
       | (inl e, w') => (inl e, w')
       end.

Definition raise {A} (e : Exn) : M A := λ w, (inl e, w).

Definition gets {A} (f : W → A) : M A := λ w, (inr (f w), w).

Definition modify (f : W → W) : M unit := λ w, (inr tt, f w).
End Monad.

Arguments M : clear implicits.

Notation "x ← m ; k" := (bind m (λ x, k))
  (at level 20, m at level 100, k at level 200, only parsing).
Notation "m ;; k" := (bind m (λ _, k))
  (at level 100, k at level 200, right associativity, only parsing).

(** ** Data model *)

(** Modelled from the spec: [tapir.coop.models] is not part of the sources
    at hand. The identity fields (name, address, contact information) are the
    ones the roster table of the views reads through [get_info()]. *)
Record UserInfo := {
  first_name : string;
  last_name : string;
  email : string;
  phone_number : string;
  street : string;
  postcode : string;
  city : string;
  country : string;
  preferred_language : string;
}.

#[global] Instance UserInfo_eq_dec : EqDecision UserInfo.
Proof. solve_decision. Defined.

Definition blank_info : UserInfo :=
  {| first_name := EmptyString; last_name := EmptyString; email := EmptyString; phone_number := EmptyString;
     street := EmptyString; postcode := EmptyString; city := EmptyString; country := EmptyString;
     preferred_language := EmptyString |}.

(** Modelled from the spec: [TapirUser] of [tapir.accounts.models], a login
    account carrying the identity fields. *)
Record TapirUser := {
  username : string;
  tu_info : UserInfo;
}.

(** Modelled from the spec: [ShareOwner] of [tapir.coop.models]. [so_user]
    is the nullable link to the user account. *)
Record ShareOwner := {
  so_user : option Z;
  so_info : UserInfo;
  company_name : string;
  is_company : bool;
  is_investing : bool;
  attended_welcome_session : bool;
  ratenzahlung : bool;
  paid_membership_fee : bool;
  willing_to_gift_a_share : option date;
}.

#[global] Instance ShareOwner_eq_dec : EqDecision ShareOwner.
Proof. solve_decision. Defined.

(** Modelled from the spec: [ShareOwnership] of [tapir.coop.models]: the
    owning share owner, the amount paid, a start date and an optional end
    date. *)
Record ShareOwnership := {
  owner : Z;
  amount_paid : Z;
  start_date : date;
  end_date : option date;
}.

#[global] Instance ShareOwnership_eq_dec : EqDecision ShareOwnership.
Proof. solve_decision. Defined.

(** A model instance is a row together with its primary key. *)
Notation instance A := (Z * A)%type.

Inductive LogKind :=
| CreateShareOwnershipsLogEntry
| UpdateShareOwnershipLogEntry
| DeleteShareOwnershipLogEntry
| UpdateShareOwnerLogEntry.

(** Modelled from the spec: the audit log entry of [tapir.log.models]: actor,
    subject reference, before-snapshot, after-snapshot, operation kind. *)
Record LogEntry := {
  log_kind : LogKind;
  log_actor : Z;
  log_user : option Z;
  log_share_owner : option Z;
  log_before : option Frozen;
  log_after : option Frozen;
}.

Record ExtraSharesForAccountingRecap := {
  recap_member : Z;
  recap_number_of_shares : Z;
  recap_date : date;
}.

Record Database := {
  share_owners : gmap Z ShareOwner;
  share_ownerships : gmap Z ShareOwnership;
  tapir_users : gmap Z TapirUser;
  log_entries : list LogEntry;
  accounting_recaps : list ExtraSharesForAccountingRecap;
}.

Inductive EmailTemplate :=
| ExtraSharesConfirmationEmail (num_shares : Z) (share_owner : Z)
| TapirAccountCreatedEmail (tapir_user : Z).

Inductive Recipient :=
| ToShareOwner (pk : Z)
| ToTapirUser (pk : Z).

Record Email := {
  email_template : EmailTemplate;
  email_actor : Z;
  email_recipient : Recipient;
}.

Inductive DocumentKind :=
| MembershipConfirmation
| ExtraSharesConfirmation.

(** [num_shares] reaches the renderer either as the raw query-string value
    or as a count, hence a [pyval]. *)
Record Document := {
  doc_kind : DocumentKind;
  doc_owner : Z;
  doc_num_shares : pyval;
  doc_date : date;
}.

(** The world a request runs in. [faults] schedules the failures of the
    effects that can fail (a store write, a mail dispatch): each such effect
    consumes the head of the list and raises when it is [true]. *)
Record World := {
  db : Database;
  outbox : list Email;
  rendered : list Document;
  today : date;
  faults : list bool;
}.

Definition set_db (d : Database) (w : World) : World :=
  {| db := d; outbox := outbox w; rendered := rendered w; today := today w;
     faults := faults w |}.

Definition set_faults (fs : list bool) (w : World) : World :=
  {| db := db w; outbox := outbox w; rendered := rendered w; today := today w;
     faults := fs |}.

Definition set_outbox (o : list Email) (w : World) : World :=
  {| db := db w; outbox := o; rendered := rendered w; today := today w;
     faults := faults w |}.

Definition set_rendered (r : list Document) (w : World) : World :=
  {| db := db w; outbox := outbox w; rendered := r; today := today w;
     faults := faults w |}.

Definition set_share_owners (t : gmap Z ShareOwner) (d : Database) : Database :=
  {| share_owners := t; share_ownerships := share_ownerships d;
     tapir_users := tapir_users d; log_entries := log_entries d;
     accounting_recaps := accounting_recaps d |}.

Definition set_share_ownerships (t : gmap Z ShareOwnership) (d : Database) : Database :=
  {| share_owners := share_owners d; share_ownerships := t;
     tapir_users := tapir_users d; log_entries := log_entries d;
     accounting_recaps := accounting_recaps d |}.

Definition set_tapir_users (t : gmap Z TapirUser) (d : Database) : Database :=
  {| share_owners := share_owners d; share_ownerships := share_ownerships d;
     tapir_users := t; log_entries := log_entries d;
     accounting_recaps := accounting_recaps d |}.

Definition set_log_entries (l : list LogEntry) (d : Database) : Database :=
  {| share_owners := share_owners d; share_ownerships := share_ownerships d;
     tapir_users := tapir_users d; log_entries := l;
     accounting_recaps := accounting_recaps d |}.

Definition set_accounting_recaps (l : list ExtraSharesForAccountingRecap)
    (d : Database) : Database :=
  {| share_owners := share_owners d; share_ownerships := share_ownerships d;
     tapir_users := tapir_users d; log_entries := log_entries d;
     accounting_recaps := l |}.

(** ** Effects *)

Definition fallible (e : Exn) : M World unit := λ w,
  match faults w with
  | true :: fs => (inl e, set_faults fs w)
  | false :: fs => (inr tt, set_faults fs w)
  | [] => (inr tt, w)
  end.

Definition db_write (f : Database → Database) : M World unit :=
  fallible DatabaseError ;; modify (λ w, set_db (f (db w)) w).

(** [with transaction.atomic():] the store is restored when the body raises,
    and the exception propagates. What left the process (mail) stays out. *)
Definition atomic {A} (body : M World A) : M World A := λ w,
  match body w with
  | (inl e, w') => (inl e, set_db (db w) w')
  | (inr a, w') => (inr a, w')
  end.

Definition get_object_or_404 {A} (table : Database → gmap Z A) (pk : Z)
    : M World (instance A) := λ w,
  match table (db w) !! pk with
  | Some x => (inr (pk, x), w)
  | None => (inl Http404, w)
  end.

(** The key an auto-incremented insert receives. *)
Definition fresh_pk {A} (t : gmap Z A) : Z :=
  1 + map_fold (λ k _ acc, Z.max k acc) 0 t.

Definition LogEntry_save (e : LogEntry) : M World unit :=
  db_write (λ d, set_log_entries (log_entries d ++ [e]) d).

Definition ShareOwnership_delete (so : instance ShareOwnership) : M World unit :=
  db_write (λ d, set_share_ownerships (delete so.1 (share_ownerships d)) d).

Definition ShareOwnership_save (so : instance ShareOwnership) : M World unit :=
  db_write (λ d, set_share_ownerships (<[so.1 := so.2]> (share_ownerships d)) d).

Definition ShareOwnership_objects_create (so : ShareOwnership) : M World unit :=
  db_write (λ d, set_share_ownerships
                   (<[fresh_pk (share_ownerships d) := so]> (share_ownerships d)) d).

Definition ExtraSharesForAccountingRecap_objects_create
    (r : ExtraSharesForAccountingRecap) : M World unit :=
  db_write (λ d, set_accounting_recaps (accounting_recaps d ++ [r]) d).

Definition ShareOwner_save (o : instance ShareOwner) : M World unit :=
  db_write (λ d, set_share_owners (<[o.1 := o.2]> (share_owners d)) d).

(** Saving a new account inserts it under a fresh key, which is returned. *)
Definition TapirUser_save_new (u : TapirUser) : M World Z :=
  pk ← gets (λ w, fresh_pk (tapir_users (db w)));
  db_write (λ d, set_tapir_users (<[pk := u]> (tapir_users d)) d) ;;
  ret pk.

(** The mail service: dispatching can fail; a dispatched mail is out. *)
Definition send_mail (e : Email) : M World unit :=
  fallible SMTPException ;; modify (λ w, set_outbox (outbox w ++ [e]) w).

(** ** Requests and responses *)

Inductive HttpMethod := GET | POST.

Record User := {
  user_pk : Z;
  is_authenticated : bool;
  perms : gset string;
}.

Definition has_perm (u : User) (perm : string) : bool :=
  bool_decide (perm ∈ perms u).

(** [query] is [request.GET], the query-string parameters. *)
Record Request := {
  method : HttpMethod;
  user : User;
  query : gmap string string;
  csrf_ok : bool;
}.

(** The routes of [tapir/coop/urls.py] the views redirect to, and the login
    page. *)
Inductive Url :=
| url_login
| url_shareowner_detail (pk : Z)
| url_user_detail (pk : Z).

Inductive HttpResponse :=
| HttpResponseRedirect (to : Url)
| HttpResponseForbidden (content : string)
| HttpResponseNotAllowed
| HttpResponsePdf (filename : string) (pdf : Document)
| TemplateResponse (template : string) (object_list : list (instance ShareOwner))
| FormResponse (template : string).

Notation View := (Request → Z → M World HttpResponse).

Definition require_POST (view : View) : View := λ request pk,
  match method request with
  | POST => view request pk
  | _ => ret HttpResponseNotAllowed
  end.

Definition require_GET (view : View) : View := λ request pk,
  match method request with
  | GET => view request pk
  | _ => ret HttpResponseNotAllowed
  end.

Definition csrf_protect (view : View) : View := λ request pk,
  if csrf_ok request then view request pk
  else ret (HttpResponseForbidden "CSRF verification failed.").

(** [permission_required(perm)] without [raise_exception]: a user lacking
    the permission is sent to the login page. *)
Definition permission_required (perm : string) (view : View) : View :=
  λ request pk,
  if has_perm (user request) perm then view request pk
  else ret (HttpResponseRedirect url_login).

(** Modelled from the spec: [ShareOwner.get_absolute_url] of
    [tapir.coop.models], the owner's detail page ([shareowner_detail] in
    [urls.py]). *)
Definition get_absolute_url (owner_pk : Z) : Url := url_shareowner_detail owner_pk.

Definition redirect (owner_pk : Z) : M World HttpResponse :=
  ret (HttpResponseRedirect (get_absolute_url owner_pk)).

(** ** Audit log *)

Definition py_option_date (d : option date) : pyval :=
  match d with Some d => PyDate d | None => PyNone end.

(** Modelled from the spec: [freeze_for_log] of [tapir.log.util], the
    snapshot of every field of a share ownership. *)
Definition freeze_for_log (so : instance ShareOwnership) : Frozen :=
  <["id" := PyInt so.1]>
  (<["owner" := PyInt (owner so.2)]>
  (<["amount_paid" := PyDecimal (amount_paid so.2)]>
  (<["start_date" := PyDate (start_date so.2)]>
  (<["end_date" := py_option_date (end_date so.2)]> ∅)))).

(** Modelled from the spec: [DeleteShareOwnershipLogEntry().populate] of
    [tapir.coop.models]: the entry holds the snapshot of the model it is
    given. *)
Definition DeleteShareOwnershipLogEntry_populate (share_owner : Z) (actor : User)
    (model : instance ShareOwnership) : LogEntry :=
  {| log_kind := DeleteShareOwnershipLogEntry;
     log_actor := user_pk actor;
     log_user := None;
     log_share_owner := Some share_owner;
     log_before := Some (freeze_for_log model);
     log_after := None |}.

(** Modelled from the spec: [UpdateShareOwnershipLogEntry().populate] of
    [tapir.coop.models], holding both snapshots. *)
Definition UpdateShareOwnershipLogEntry_populate
    (share_ownership : instance ShareOwnership) (old_frozen new_frozen : Frozen)
    (share_owner : Z) (actor : User) : LogEntry :=
  {| log_kind := UpdateShareOwnershipLogEntry;
     log_actor := user_pk actor;
     log_user := None;
     log_share_owner := Some share_owner;
     log_before := Some old_frozen;
     log_after := Some new_frozen |}.

(** ** Deleting a share ownership *)

Definition share_ownership_delete : View :=
  require_POST (csrf_protect
  (* Higher permission requirement since this is a destructive operation
     only to correct mistakes *)
  (permission_required "coop.admin" (λ request pk,
    share_ownership ← get_object_or_404 share_ownerships pk;
    let owner := owner share_ownership.2 in
    atomic (
      LogEntry_save (DeleteShareOwnershipLogEntry_populate
                       owner (user request) share_ownership) ;;
      ShareOwnership_delete share_ownership) ;;
    redirect owner))).

(** ** Class-based views *)

(** [PermissionRequiredMixin.dispatch]: without the permission a logged-in
    user gets [PermissionDenied], an anonymous one the login page. *)
Definition PermissionRequiredMixin_dispatch (permission_required : string)
    (request : Request) (handler : M World HttpResponse) : M World HttpResponse :=
  if has_perm (user request) permission_required then handler
  else if is_authenticated (user request) then raise PermissionDenied
  else ret (HttpResponseRedirect url_login).

(** ** Editing a share ownership *)

Module ShareOwnershipUpdateView.

Definition permission_required : string := "coop.manage".

(** The bound [ShareOwnershipForm]. Modelled from the spec:
    [tapir.coop.forms] is not part of the sources at hand; the form edits
    the dates and the amount paid, and [is_valid] is the verdict of its
    validators. *)
Record Form := {
  is_valid : bool;
  cleaned_start_date : date;
  cleaned_end_date : option date;
  cleaned_amount_paid : Z;
}.

(** What the view object holds once [get_object] ran. Modelled from the
    spec: [UpdateViewLogMixin] of [tapir.log.views] keeps the snapshot of
    the object as it was loaded, the before-snapshot. *)
Record View := {
  self_request : Request;
  self_object : instance ShareOwnership;
  old_object_frozen : Frozen;
}.

Definition get_object (request : Request) (pk : Z) : M World View :=
  object ← get_object_or_404 share_ownerships pk;
  ret {| self_request := request; self_object := object;
         old_object_frozen := freeze_for_log object |}.

(** Validating a model form writes the cleaned fields onto
    [form.instance]. *)
Definition form_instance (self : View) (form : Form) : instance ShareOwnership :=
  ((self_object self).1,
   {| owner := owner (self_object self).2;
      amount_paid := cleaned_amount_paid form;
      start_date := cleaned_start_date form;
      end_date := cleaned_end_date form |}).

(** [UpdateView.form_valid]: save the instance, redirect to
    [get_success_url()], here the owner's page. *)
Definition super_form_valid (self : View) (form : Form) : M World HttpResponse :=
  ShareOwnership_save (form_instance self form) ;;
  ret (HttpResponseRedirect (get_absolute_url (owner (form_instance self form).2))).

Definition log_entry (self : View) (form : Form) : LogEntry :=
  UpdateShareOwnershipLogEntry_populate
    (form_instance self form)
    (old_object_frozen self)
    (freeze_for_log (form_instance self form))
    (owner (form_instance self form).2)
    (user (self_request self)).

Definition form_valid (self : View) (form : Form) : M World HttpResponse :=
  atomic (
    response ← super_form_valid self form;
    let new_frozen := freeze_for_log (form_instance self form) in
    (if bool_decide (old_object_frozen self ≠ new_frozen)
     then LogEntry_save (log_entry self form)
     else ret tt) ;;
    ret response).

(** [UpdateView.post] behind the permission check of [dispatch]. *)
Definition post (request : Request) (pk : Z) (form : Form) : M World HttpResponse :=
  PermissionRequiredMixin_dispatch permission_required request (
    self ← get_object request pk;
    if is_valid form then form_valid self form
    else ret (FormResponse "coop/shareownership_form.html")).

End ShareOwnershipUpdateView.

(** [fault_within n w]: one of the next [n] fallible effects is scheduled
    to fail. *)
Definition fault_within (n : nat) (w : World) : bool :=
  existsb id (take n (faults w)).

(** ** Adding shares in a batch *)

(** Modelled from the spec: [ShareOwner.get_info()] of [tapir.coop.models],
    the resolution of the identity source: the linked account when there is
    one, the owner's own fields otherwise. *)
Definition get_info (d : Database) (o : instance ShareOwner) : UserInfo :=
  match so_user o.2 ≫= (λ u, tapir_users d !! u) with
  | Some u => tu_info u
  | None => so_info o.2
  end.

(** [get_info().get_absolute_url()]: the page of whoever carries the
    identity. *)
Definition get_info_absolute_url (o : instance ShareOwner) : Url :=
  match so_user o.2 with
  | Some u => url_user_detail u
  | None => get_absolute_url o.1
  end.

(** [for _ in range(n): body] *)
Fixpoint for_range (n : nat) (body : M World unit) : M World unit :=
  match n with
  | O => ret tt
  | S n => body ;; for_range n body
  end.

(** Modelled from the spec: [CreateShareOwnershipsLogEntry().populate] of
    [tapir.coop.models]; the entry records the batch. *)
Definition CreateShareOwnershipsLogEntry_populate (num_shares : Z)
    (start_date : date) (end_date : option date) (actor : User)
    (user : option Z) (share_owner : Z) : LogEntry :=
  {| log_kind := CreateShareOwnershipsLogEntry;
     log_actor := user_pk actor;
     log_user := user;
     log_share_owner := Some share_owner;
     log_before := None;
     log_after := Some (<["num_shares" := PyInt num_shares]>
                        (<["start_date" := PyDate start_date]>
                        (<["end_date" := py_option_date end_date]> ∅))) |}.

Module ShareOwnershipCreateMultipleView.

Definition permission_required : string := "coop.manage".

(** The cleaned data of a valid [ShareOwnershipCreateMultipleForm]. *)
Record Form := {
  cleaned_num_shares : Z;
  cleaned_start_date : date;
  cleaned_end_date : option date;
}.

Definition get_share_owner (shareowner_pk : Z) : M World (instance ShareOwner) :=
  get_object_or_404 share_owners shareowner_pk.

Definition get_success_url (shareowner_pk : Z) : M World Url :=
  o ← get_share_owner shareowner_pk;
  ret (get_info_absolute_url o).

Definition form_valid (request : Request) (shareowner_pk : Z) (form : Form)
    : M World HttpResponse :=
  share_owner ← get_share_owner shareowner_pk;
  let num_shares := cleaned_num_shares form in
  atomic (
    LogEntry_save (CreateShareOwnershipsLogEntry_populate
                     num_shares (cleaned_start_date form) (cleaned_end_date form)
                     (user request) (so_user share_owner.2) share_owner.1) ;;
    for_range (Z.to_nat (cleaned_num_shares form))
      (ShareOwnership_objects_create
         {| owner := share_owner.1;
            amount_paid := 0;
            start_date := cleaned_start_date form;
            end_date := cleaned_end_date form |}) ;;
    now ← gets today;
    ExtraSharesForAccountingRecap_objects_create
      {| recap_member := share_owner.1;
         recap_number_of_shares := num_shares;
         recap_date := now |}) ;;
  send_mail {| email_template :=
                 ExtraSharesConfirmationEmail (cleaned_num_shares form) share_owner.1;
               email_actor := user_pk (user request);
               email_recipient := ToShareOwner share_owner.1 |} ;;
  (* FormView.form_valid *)
  url ← get_success_url shareowner_pk;
  ret (HttpResponseRedirect url).

End ShareOwnershipCreateMultipleView.

(** ** Granting a user account to a share owner *)

(** Modelled from the spec: [copy_user_info] of [tapir.utils.models] copies
    the identity fields from the source onto the target. *)
Definition copy_user_info (source : ShareOwner) (target : TapirUser) : TapirUser :=
  {| username := username target; tu_info := so_info source |}.

(** Modelled from the spec: [ShareOwner.blank_info_fields] of
    [tapir.coop.models] blanks the owner-side copies of the identity
    fields. *)
Definition blank_info_fields (o : ShareOwner) : ShareOwner :=
  {| so_user := so_user o; so_info := blank_info;
     company_name := company_name o; is_company := is_company o;
     is_investing := is_investing o;
     attended_welcome_session := attended_welcome_session o;
     ratenzahlung := ratenzahlung o;
     paid_membership_fee := paid_membership_fee o;
     willing_to_gift_a_share := willing_to_gift_a_share o |}.

Definition set_so_user (u : option Z) (o : ShareOwner) : ShareOwner :=
  {| so_user := u; so_info := so_info o;
     company_name := company_name o; is_company := is_company o;
     is_investing := is_investing o;
     attended_welcome_session := attended_welcome_session o;
     ratenzahlung := ratenzahlung o;
     paid_membership_fee := paid_membership_fee o;
     willing_to_gift_a_share := willing_to_gift_a_share o |}.

(** [LogEntry.objects.filter(share_owner=owner).update(user=..,
    share_owner=None)] *)
Definition relink_log_entry (owner_pk user_pk : Z) (e : LogEntry) : LogEntry :=
  if bool_decide (log_share_owner e = Some owner_pk)
  then {| log_kind := log_kind e; log_actor := log_actor e;
          log_user := Some user_pk; log_share_owner := None;
          log_before := log_before e; log_after := log_after e |}
  else e.

Definition LogEntry_objects_relink (owner_pk user_pk : Z) : M World unit :=
  db_write (λ d, set_log_entries
                   (map (relink_log_entry owner_pk user_pk) (log_entries d)) d).

Module CreateUserFromShareOwnerView.

Definition permission_required : string := "coop.manage".

(** The bound form, [fields = ["first_name", "last_name", "username"]];
    [is_valid] is the verdict of the validators of the model form. *)
Record Form := {
  is_valid : bool;
  cleaned_first_name : string;
  cleaned_last_name : string;
  cleaned_username : string;
}.

Definition get_shareowner (shareowner_pk : Z) : M World (instance ShareOwner) :=
  get_object_or_404 share_owners shareowner_pk.

Definition TapirUser_new : TapirUser :=
  {| username := EmptyString; tu_info := blank_info |}.

(** The instance handed to the form: a new account with the owner's
    identity fields copied onto it. *)
Definition get_form_kwargs (shareowner_pk : Z) : M World TapirUser :=
  owner ← get_shareowner shareowner_pk;
  let user := TapirUser_new in
  ret (copy_user_info owner.2 user).

(** Validating the model form writes its three cleaned fields onto the
    instance and leaves the other fields of the instance alone. *)
Definition form_instance (form : Form) (instance : TapirUser) : TapirUser :=
  {| username := cleaned_username form;
     tu_info :=
       {| first_name := cleaned_first_name form;
          last_name := cleaned_last_name form;
          email := email (tu_info instance);
          phone_number := phone_number (tu_info instance);
          street := street (tu_info instance);
          postcode := postcode (tu_info instance);
          city := city (tu_info instance);
          country := country (tu_info instance);
          preferred_language := preferred_language (tu_info instance) |} |}.

(** [form_valid], given [form.instance]. [CreateView.form_valid] saves
    the new account and redirects to its page. *)
Definition form_valid (request : Request) (shareowner_pk : Z)
    (instance : TapirUser) : M World HttpResponse :=
  atomic (
    new_pk ← TapirUser_save_new instance;
    let response := HttpResponseRedirect (url_user_detail new_pk) in
    owner ← get_shareowner shareowner_pk;
    let owner := (owner.1, set_so_user (Some new_pk) owner.2) in
    let owner := (owner.1, blank_info_fields owner.2) in
    ShareOwner_save owner ;;
    LogEntry_objects_relink owner.1 new_pk ;;
    send_mail {| email_template := TapirAccountCreatedEmail new_pk;
                 email_actor := user_pk (user request);
                 email_recipient := ToTapirUser new_pk |} ;;
    ret response).

Definition template_name : string := "coop/create_user_from_shareowner_form.html".

(** [dispatch], with the form the request carries. *)
Definition dispatch (request : Request) (shareowner_pk : Z) (form : Form)
    : M World HttpResponse :=
  owner ← get_shareowner shareowner_pk;
  (* Not sure if 403 is the right error code here... *)
  if bool_decide (so_user owner.2 ≠ None)
  then ret (HttpResponseForbidden "This ShareOwner already has a User")
  else if is_company owner.2
  then ret (HttpResponseForbidden "This ShareOwner is a company")
  else
    PermissionRequiredMixin_dispatch permission_required request (
      instance ← get_form_kwargs shareowner_pk;
      match method request with
      | GET => ret (FormResponse template_name)
      | POST =>
          if is_valid form
          then form_valid request shareowner_pk (form_instance form instance)
          else ret (FormResponse template_name)
      end).

End CreateUserFromShareOwnerView.

(** ** Strings and dates

    A Python [str] is a sequence of code points. The model keeps the code
    points below 256, one per character of a [string]. *)

Definition code (c : ascii) : Z := Z.of_N (N_of_ascii c).

(** The decimal digits [0]..[9]. *)
Definition is_decimal (c : ascii) : bool := (48 <=? code c) && (code c <=? 57).

(** [str.isdigit] holds of the decimal digits and of the characters that
    are digits without being decimal: below 256 these are the superscripts
    two, three and one (U+00B2, U+00B3, U+00B9). *)
Definition char_isdigit (c : ascii) : bool :=
  is_decimal c || (code c =? 178) || (code c =? 179) || (code c =? 185).

Definition chars (s : string) : list ascii := list_ascii_of_string s.

Definition isdigit (s : string) : bool :=
  negb (bool_decide (s = EmptyString)) && forallb char_isdigit (chars s).

Definition digit_value (c : ascii) : Z := code c - 48.

Definition decimal_value (s : string) : Z :=
  fold_left (λ acc c, 10 * acc + digit_value c) (chars s) 0.

(** [int(s)] on a string without sign, blank or underscore, the only ones
    the views convert: the decimal value when every character is a decimal
    digit, [ValueError] otherwise. *)
Definition int (s : string) : Exn + Z :=
  if negb (bool_decide (s = EmptyString)) && forallb is_decimal (chars s)
  then inr (decimal_value s)
  else inl (ValueError "invalid literal for int() with base 10").

(** [str.lower] on the letters below 256. *)
Definition lower_char (c : ascii) : ascii :=
  let n := code c in
  if ((65 <=? n) && (n <=? 90)) || ((192 <=? n) && (n <=? 222) && negb (n =? 215))
  then ascii_of_N (Z.to_N (n + 32))
  else c.

Fixpoint lower (s : string) : string :=
  match s with
  | EmptyString => EmptyString
  | String c s => String (lower_char c) (lower s)
  end.

Fixpoint contains (hay needle : string) : bool :=
  String.prefix needle hay ||
  match hay with
  | EmptyString => false
  | String _ hay' => contains hay' needle
  end.

(** Case-insensitive containment, the [icontains] lookup. *)
Definition icontains (hay needle : string) : bool :=
  contains (lower hay) (lower needle).

Fixpoint split_on (sep : ascii) (s : string) : list string :=
  match s with
  | EmptyString => [EmptyString]
  | String c s' =>
      if bool_decide (c = sep) then EmptyString :: split_on sep s'
      else match split_on sep s' with
           | h :: t => String c h :: t
           | [] => [String c EmptyString]
           end
  end.

Definition is_leap (y : Z) : bool :=
  ((y mod 4 =? 0) && negb (y mod 100 =? 0)) || (y mod 400 =? 0).

Definition days_in_month (y m : Z) : Z :=
  if m =? 2 then (if is_leap y then 29 else 28)
  else if (m =? 4) || (m =? 6) || (m =? 9) || (m =? 11) then 30
  else 31.

(** The day directive [%d]: one or two digits, or a blank and a digit,
    from 1 to 31. *)
Definition parse_day (tok : string) : option Z :=
  match tok with
  | String a EmptyString =>
      if is_decimal a && (1 <=? digit_value a) then Some (digit_value a) else None
  | String a (String b EmptyString) =>
      if is_decimal a && is_decimal b then
        let v := 10 * digit_value a + digit_value b in
        if (1 <=? v) && (v <=? 31) then Some v else None
      else if (code a =? 32) && is_decimal b && (1 <=? digit_value b)
      then Some (digit_value b) else None
  | _ => None
  end.

(** The month directive [%m]: one or two digits, from 1 to 12. *)
Definition parse_month (tok : string) : option Z :=
  match tok with
  | String a EmptyString =>
      if is_decimal a && (1 <=? digit_value a) then Some (digit_value a) else None
  | String a (String b EmptyString) =>
      if is_decimal a && is_decimal b then
        let v := 10 * digit_value a + digit_value b in
        if (1 <=? v) && (v <=? 12) then Some v else None
      else None
  | _ => None
  end.

(** The year directive [%Y]: exactly four digits. *)
Definition parse_year (tok : string) : option Z :=
  if (String.length tok =? 4)%nat && forallb is_decimal (chars tok)
  then Some (decimal_value tok) else None.

(** [datetime.datetime.strptime(s, "%d.%m.%Y").date()]: the three
    directives separated by dots and nothing else, then the calendar check
    of the [date] constructor. *)
Definition strptime_dmY (s : string) : Exn + date :=
  match split_on "." s with
  | [d; m; y] =>
      match parse_day d, parse_month m, parse_year y with
      | Some d, Some m, Some y =>
          if y <? 1 then inl (ValueError "year 0 is out of range")
          else if days_in_month y m <? d
          then inl (ValueError "day is out of range for month")
          else inr (Date y m d)
      | _, _, _ => inl (ValueError "time data does not match format")
      end
  | _ => inl (ValueError "time data does not match format")
  end.

Definition date_leb (a b : date) : bool :=
  (year a <? year b) ||
  ((year a =? year b) &&
   ((month a <? month b) || ((month a =? month b) && (day a <=? day b)))).

(** Lift a computation that may raise into the monad. *)
Definition lift {A} (r : Exn + A) : M World A := λ w, (r, w).

(** ** Confirmation documents *)

(** Modelled from the spec: a share ownership is active as of [d] when it
    started on or before [d] and has no end date or one on or after [d]. *)
Definition is_active (d : date) (so : ShareOwnership) : bool :=
  date_leb (start_date so) d &&
  match end_date so with
  | None => true
  | Some e => date_leb d e
  end.

(** Modelled from the spec: [ShareOwner.get_active_share_ownerships] of
    [tapir.coop.models], the owner's share ownerships active today. *)
Definition get_active_share_ownerships (d : Database) (now : date)
    (owner_pk : Z) : list (instance ShareOwnership) :=
  List.filter (λ so, (owner so.2 =? owner_pk) && is_active now so.2)
              (map_to_list (share_ownerships d)).

Definition count {A} (l : list A) : Z := Z.of_nat (length l).

(** Modelled from the spec: [get_display_name()] of the identity source,
    the company name of a company, first and last name otherwise. *)
Definition get_display_name (d : Database) (o : instance ShareOwner) : string :=
  if is_company o.2 then company_name o.2
  else first_name (get_info d o) ++ " " ++ last_name (get_info d o).

(** Modelled from the spec: the renderers of [tapir.coop.pdfs] lay out a
    document from the owner, the share count and the date. [rendered]
    keeps what was generated. *)
Definition render_pdf (kind : DocumentKind) (o : instance ShareOwner)
    (num_shares : pyval) (d : date) : M World Document :=
  let doc := {| doc_kind := kind; doc_owner := o.1;
                doc_num_shares := num_shares; doc_date := d |} in
  modify (λ w, set_rendered (rendered w ++ [doc]) w) ;;
  ret doc.

Definition get_shareowner_membership_confirmation_pdf :=
  render_pdf MembershipConfirmation.

Definition get_confirmation_extra_shares_pdf :=
  render_pdf ExtraSharesConfirmation.

Definition a_umlaut : string := String (ascii_of_N 228) EmptyString.

Definition shareowner_membership_confirmation : View :=
  require_GET (permission_required "coop.manage" (λ request pk,
    owner ← get_object_or_404 share_owners pk;
    name ← gets (λ w, get_display_name (db w) owner);
    let filename :=
      "Mitgliedschaftsbest" ++ a_umlaut ++ "tigung " ++ name ++ ".pdf" in
    num_shares ←
      match query request !! "num_shares" with
      | Some v => ret (PyStr v)
      | None =>
          gets (λ w, PyInt (count (get_active_share_ownerships
                                     (db w) (today w) owner.1)))
      end;
    date ←
      match query request !! "date" with
      | Some v => lift (strptime_dmY v)
      | None => gets today
      end;
    pdf ← get_shareowner_membership_confirmation_pdf owner num_shares date;
    ret (HttpResponsePdf filename pdf))).

Definition shareowner_extra_shares_confirmation : View :=
  require_GET (permission_required "coop.manage" (λ request pk,
    share_owner ← get_object_or_404 share_owners pk;
    name ← gets (λ w, get_display_name (db w) share_owner);
    let filename := "Best" ++ a_umlaut ++ "tigung Erwerb Anteile " ++ name ++ ".pdf" in
    num_shares ←
      match query request !! "num_shares" with
      | None => raise (ValidationError "Missing parameter : num_shares")
      | Some v => ret (PyStr v)
      end;
    date ←
      match query request !! "date" with
      | None => raise (ValidationError "Missing parameter : date")
      | Some v => lift (strptime_dmY v)
      end;
    pdf ← get_confirmation_extra_shares_pdf share_owner num_shares date;
    ret (HttpResponsePdf filename pdf))).

(** ** Roster filters *)

(** A queryset of share owners, as the rows it yields. A join can yield a
    row twice; [distinct] removes the repetitions. *)
Notation QuerySet := (list (instance ShareOwner)).

Definition objects_all (d : Database) : QuerySet := map_to_list (share_owners d).

Definition distinct (qs : QuerySet) : QuerySet := remove_dups qs.

Definition none (qs : QuerySet) : QuerySet := [].

(** [queryset.filter(id=n)] *)
Definition filter_id (n : Z) (qs : QuerySet) : QuerySet :=
  List.filter (λ o, o.1 =? n) qs.

(** Modelled from the spec: [ShareOwnerQuerySet.with_name] of
    [tapir.coop.models], the owners whose name contains the term as a
    case-insensitive substring. *)
Definition with_name (d : Database) (search_string : string) (qs : QuerySet)
    : QuerySet :=
  List.filter (λ o, icontains (get_display_name d o) search_string) qs.

(** A filter method: the candidate set and the value in, the narrowed set
    out, unless it raises. The store is the one the queryset reads. *)
Notation FilterMethod := (Database → QuerySet → string → Exn + QuerySet).

Module ShareOwnerFilter.

Definition display_name_filter : FilterMethod := λ d queryset value,
  (* This is an ugly hack to enable searching by Mitgliedsnummer from the
     one-stop search box in the top right *)
  if isdigit value then
    match int value with
    | inr n => inr (filter_id n queryset)
    | inl e => inl e
    end
  else inr (distinct (with_name d value queryset)).

End ShareOwnerFilter.

Module ShareOwnerFilterWelcomeDesk.

Definition display_name_filter : FilterMethod := λ d queryset value,
  if bool_decide (value = EmptyString) then inr (none queryset)
  else if isdigit value then
    match int value with
    | inr n => inr (filter_id n queryset)
    | inl e => inl e
    end
  else inr (with_name d value queryset).

End ShareOwnerFilterWelcomeDesk.

(** The declared filters of a filter set, by parameter name. *)
Notation FilterSet := (list (string * FilterMethod)).

(** [FilterSet.qs]: the declared filters applied in turn to the request
    parameters. The filter library does not call the method of a filter
    whose value is absent or empty. *)
Fixpoint FilterSet_qs (filters : FilterSet) (d : Database)
    (data : gmap string string) (qs : QuerySet) : Exn + QuerySet :=
  match filters with
  | [] => inr qs
  | (name, method) :: rest =>
      match data !! name with
      | None => FilterSet_qs rest d data qs
      | Some value =>
          if bool_decide (value = EmptyString) then FilterSet_qs rest d data qs
          else match method d qs value with
               | inr qs' => FilterSet_qs rest d data qs'
               | inl e => inl e
               end
      end
  end.

(** ** The roster list *)

Module ShareOwnerListView.

Definition template_name : string := "coop/shareowner_list.html".

Definition get_queryset (d : Database) : QuerySet := objects_all d.

(** [get], for the filter set class the view is configured with.
    [FilterView.get] sets [object_list] to the filtered queryset and
    renders it; [get_table_data()] is that [object_list]. *)
Definition get (filterset_class : FilterSet) (request : Request)
    : M World HttpResponse :=
  d ← gets db;
  object_list ← lift (FilterSet_qs filterset_class d (query request)
                        (get_queryset d));
  let response := TemplateResponse template_name object_list in
  if count object_list =? 1 then
    match head object_list with
    | Some first => ret (HttpResponseRedirect (get_absolute_url first.1))
    | None => raise AttributeError
    end
  else ret response.

(** The filters of [ShareOwnerFilter] whose predicate is in this file's
    scope. *)
Definition filterset_class : FilterSet :=
  [("display_name", ShareOwnerFilter.display_name_filter)].

End ShareOwnerListView.

(** ** Sample data *)

Module Sample.

Definition info (first last mail : string) : UserInfo :=
  {| first_name := first; last_name := last; email := mail;
     phone_number := "030 1234"; street := "Oranienstr. 1";
     postcode := "10999"; city := "Berlin"; country := "DE";
     preferred_language := "de" |}.

Definition person (first last mail : string) : ShareOwner :=
  {| so_user := None; so_info := info first last mail; company_name := EmptyString;
     is_company := false; is_investing := false;
     attended_welcome_session := false; ratenzahlung := false;
     paid_membership_fee := true; willing_to_gift_a_share := None |}.

Definition company : ShareOwner :=
  {| so_user := None; so_info := blank_info; company_name := "Smith & Co";
     is_company := true; is_investing := true;
     attended_welcome_session := false; ratenzahlung := false;
     paid_membership_fee := true; willing_to_gift_a_share := None |}.

Definition linked : ShareOwner :=
  {| so_user := Some 5; so_info := blank_info; company_name := EmptyString;
     is_company := false; is_investing := false;
     attended_welcome_session := true; ratenzahlung := false;
     paid_membership_fee := true; willing_to_gift_a_share := None |}.

Definition share (o : Z) (paid : Z) : ShareOwnership :=
  {| owner := o; amount_paid := paid;
     start_date := Date 2023 1 1; end_date := None |}.

Definition database : Database :=
  {| share_owners :=
       <[2 := person "Ada" "Smith" "ada@example.org"]>
       (<[3 := company]>
       (<[4 := linked]>
       (<[42 := person "Bo" "Lind" "bo@example.org"]> ∅)));
     share_ownerships :=
       <[7 := share 2 10000]> (<[8 := share 2 0]> (<[9 := share 42 10000]> ∅));
     tapir_users :=
       <[5 := {| username := "cleo";
                 tu_info := info "Cleo" "Blacksmith" "cleo@example.org" |}]> ∅;
     log_entries := [];
     accounting_recaps := [] |}.

Definition world (fs : list bool) : World :=
  {| db := database; outbox := []; rendered := [];
     today := Date 2023 6 1; faults := fs |}.

Definition staff (ps : list string) : User :=
  {| user_pk := 5; is_authenticated := true; perms := list_to_set ps |}.

Definition request (m : HttpMethod) (ps : list string)
    (params : list (string * string)) : Request :=
  {| method := m; user := staff ps; query := list_to_map params;
     csrf_ok := true |}.

Definition superscript_two : string := String (ascii_of_N 178) EmptyString.

End Sample.

Module SampleForms.

Definition edit_amount : ShareOwnershipUpdateView.Form :=
  {| ShareOwnershipUpdateView.is_valid := true;
     ShareOwnershipUpdateView.cleaned_start_date := Date 2023 1 1;
     ShareOwnershipUpdateView.cleaned_end_date := None;
     ShareOwnershipUpdateView.cleaned_amount_paid := 10000 |}.

Definition new_account : CreateUserFromShareOwnerView.Form :=
  {| CreateUserFromShareOwnerView.is_valid := true;
     CreateUserFromShareOwnerView.cleaned_first_name := "Ada";
     CreateUserFromShareOwnerView.cleaned_last_name := "Smith";
     CreateUserFromShareOwnerView.cleaned_username := "ada" |}.

End SampleForms.

(** ** Printing a date *)

Definition digit_char (k : Z) : ascii := ascii_of_N (Z.to_N (48 + k)).

Definition two_digits (n : Z) : string :=
  String (digit_char (n / 10)) (String (digit_char (n mod 10)) EmptyString).

Definition four_digits (n : Z) : string :=
  String (digit_char (n / 1000))
    (String (digit_char (n / 100 mod 10)) (two_digits (n mod 100))).

(** [d.strftime("%d.%m.%Y")], as the matching-program table prints a
    date. *)
Definition strftime_dmY (d : date) : string :=
  two_digits (day d) ++ "." ++ two_digits (month d) ++ "." ++ four_digits (year d).

Definition valid_date (d : date) : bool :=
  (1 <=? year d) && (year d <=? 9999) &&
  (1 <=? month d) && (month d <=? 12) &&
  (1 <=? day d) && (day d <=? days_in_month (year d) (month d)).

(** * Further views *)

(** [n] rows inserted one after the other, each under the key that is
    fresh at its turn: what [n] calls of [objects.create] leave in a
    table. *)
Fixpoint insert_fresh {A} (n : nat) (x : A) (t : gmap Z A) : gmap Z A :=
  match n with
  | O => t
  | S n => insert_fresh n x (<[fresh_pk t := x]> t)
  end.

(** The faults scheduled after the next [n] fallible effects. *)
Definition after_effects (n : nat) (w : World) : World :=
  set_faults (drop n (faults w)) w.

(** The store a committed batch of [n] shares leaves behind. *)
Definition batch_committed (request : Request) (o : instance ShareOwner)
    (form : ShareOwnershipCreateMultipleView.Form) (now : date)
    (d : Database) : Database :=
  set_accounting_recaps
    (accounting_recaps d ++
       [{| recap_member := o.1;
           recap_number_of_shares :=
             ShareOwnershipCreateMultipleView.cleaned_num_shares form;
           recap_date := now |}])
    (set_share_ownerships
       (insert_fresh
          (Z.to_nat (ShareOwnershipCreateMultipleView.cleaned_num_shares form))
          {| owner := o.1; amount_paid := 0;
             start_date := ShareOwnershipCreateMultipleView.cleaned_start_date form;
             end_date := ShareOwnershipCreateMultipleView.cleaned_end_date form |}
          (share_ownerships d))
       (set_log_entries
          (log_entries d ++
             [CreateShareOwnershipsLogEntry_populate
                (ShareOwnershipCreateMultipleView.cleaned_num_shares form)
                (ShareOwnershipCreateMultipleView.cleaned_start_date form)
                (ShareOwnershipCreateMultipleView.cleaned_end_date form)
                (user request) (so_user o.2) o.1])
          d)).

Definition two_shares : ShareOwnershipCreateMultipleView.Form :=
  {| ShareOwnershipCreateMultipleView.cleaned_num_shares := 2;
     ShareOwnershipCreateMultipleView.cleaned_start_date := Date 2023 6 1;
     ShareOwnershipCreateMultipleView.cleaned_end_date := None |}.

(** ** Editing a share owner and marking the welcome session *)

Definition py_option_int (n : option Z) : pyval :=
  match n with Some n => PyInt n | None => PyNone end.

(** Modelled from the spec: [freeze_for_log] of [tapir.log.util] on a share
    owner, the snapshot of every field. *)
Definition freeze_share_owner (o : instance ShareOwner) : Frozen :=
  <["id" := PyInt o.1]>
  (<["user" := py_option_int (so_user o.2)]>
  (<["first_name" := PyStr (first_name (so_info o.2))]>
  (<["last_name" := PyStr (last_name (so_info o.2))]>
  (<["email" := PyStr (email (so_info o.2))]>
  (<["phone_number" := PyStr (phone_number (so_info o.2))]>
  (<["street" := PyStr (street (so_info o.2))]>
  (<["postcode" := PyStr (postcode (so_info o.2))]>
  (<["city" := PyStr (city (so_info o.2))]>
  (<["country" := PyStr (country (so_info o.2))]>
  (<["preferred_language" := PyStr (preferred_language (so_info o.2))]>
  (<["company_name" := PyStr (company_name o.2)]>
  (<["is_company" := PyBool (is_company o.2)]>
  (<["is_investing" := PyBool (is_investing o.2)]>
  (<["attended_welcome_session" := PyBool (attended_welcome_session o.2)]>
  (<["ratenzahlung" := PyBool (ratenzahlung o.2)]>
  (<["paid_membership_fee" := PyBool (paid_membership_fee o.2)]>
  (<["willing_to_gift_a_share" := py_option_date (willing_to_gift_a_share o.2)]>
     ∅))))))))))))))))).

(** Modelled from the spec: [UpdateShareOwnerLogEntry().populate] of
    [tapir.coop.models], holding both snapshots; given [new_model] it
    freezes it. *)
Definition UpdateShareOwnerLogEntry_populate (old_frozen new_frozen : Frozen)
    (share_owner : Z) (actor : User) : LogEntry :=
  {| log_kind := UpdateShareOwnerLogEntry;
     log_actor := user_pk actor;
     log_user := None;
     log_share_owner := Some share_owner;
     log_before := Some old_frozen;
     log_after := Some new_frozen |}.

Definition set_attended_welcome_session (b : bool) (o : ShareOwner) : ShareOwner :=
  {| so_user := so_user o; so_info := so_info o;
     company_name := company_name o; is_company := is_company o;
     is_investing := is_investing o;
     attended_welcome_session := b;
     ratenzahlung := ratenzahlung o;
     paid_membership_fee := paid_membership_fee o;
     willing_to_gift_a_share := willing_to_gift_a_share o |}.

Definition mark_shareowner_attended_welcome_session : View :=
  require_POST (csrf_protect (permission_required "coop.manage" (λ request pk,
    share_owner ← get_object_or_404 share_owners pk;
    let old_share_owner_dict := freeze_share_owner share_owner in
    share_owner ← atomic (
      let share_owner :=
        (share_owner.1, set_attended_welcome_session true share_owner.2) in
      ShareOwner_save share_owner ;;
      LogEntry_save (UpdateShareOwnerLogEntry_populate
                       old_share_owner_dict (freeze_share_owner share_owner)
                       share_owner.1 (user request)) ;;
      ret share_owner);
    ret (HttpResponseRedirect (get_absolute_url share_owner.1))))).

Module ShareOwnerUpdateView.

Definition permission_required : string := "accounts.manage".

(** The bound [ShareOwnerForm]: [is_valid] is the verdict of its
    validators, [instance] the fields of [form.instance] once the cleaned
    data is written onto the object. Modelled from the spec:
    [tapir.coop.forms] is not part of the sources at hand. *)
Record Form := {
  is_valid : bool;
  instance : ShareOwner;
}.

Record View := {
  self_request : Request;
  self_object : Z * ShareOwner;
  old_object_frozen : Frozen;
}.

Definition get_object (request : Request) (pk : Z) : M World View :=
  object ← get_object_or_404 share_owners pk;
  ret {| self_request := request; self_object := object;
         old_object_frozen := freeze_share_owner object |}.

Definition form_instance (self : View) (form : Form) : Z * ShareOwner :=
  ((self_object self).1, instance form).

(** [UpdateView.form_valid]: save the instance and redirect to its page. *)
Definition super_form_valid (self : View) (form : Form) : M World HttpResponse :=
  ShareOwner_save (form_instance self form) ;;
  ret (HttpResponseRedirect (get_absolute_url (form_instance self form).1)).

Definition form_valid (self : View) (form : Form) : M World HttpResponse :=
  atomic (
    response ← super_form_valid self form;
    let new_frozen := freeze_share_owner (form_instance self form) in
    (if bool_decide (old_object_frozen self ≠ new_frozen)
     then LogEntry_save (UpdateShareOwnerLogEntry_populate
                           (old_object_frozen self) new_frozen
                           (form_instance self form).1
                           (user (self_request self)))
     else ret tt) ;;
    ret response).

Definition post (request : Request) (pk : Z) (form : Form) : M World HttpResponse :=
  PermissionRequiredMixin_dispatch permission_required request (
    self ← get_object request pk;
    if is_valid form then form_valid self form
    else ret (FormResponse "coop/shareowner_form.html")).

End ShareOwnerUpdateView.

Module ShareOwnerDetailView.

Definition permission_required : string := "coop.manage".

Definition get (request : Request) (pk : Z) : M World HttpResponse :=
  PermissionRequiredMixin_dispatch permission_required request (
    object ← get_object_or_404 share_owners pk;
    match so_user object.2 with
    | Some u => ret (HttpResponseRedirect (url_user_detail u))
    | None => ret (TemplateResponse "coop/shareowner_detail.html" [object])
    end).

End ShareOwnerDetailView.

(** ** More roster filters *)

From stdpp Require Import sorting.

Open Scope string_scope.
Open Scope Z_scope.

(** The rows a queryset yields once joined with the share ownerships in
    [shares]: an owner comes once for each of its shares in there. *)
Definition join_share_ownerships (shares : list (Z * ShareOwnership))
    (qs : QuerySet) : QuerySet :=
  flat_map (λ o, map (λ _, o) (List.filter (λ s, owner s.2 =? o.1) shares)) qs.

(** [queryset.exclude(share_ownerships__in=shares)]: the owners none of
    whose shares is in [shares]. *)
Definition exclude_share_ownerships (shares : list (Z * ShareOwnership))
    (qs : QuerySet) : QuerySet :=
  List.filter (λ o, negb (existsb (λ s, owner s.2 =? o.1) shares)) qs.

(** [queryset.exclude(user__isnull=value).distinct()] *)
Definition has_tapir_account_filter (queryset : QuerySet) (value : bool)
    : QuerySet :=
  distinct (List.filter
              (λ o, negb (eqb (bool_decide (so_user o.2 = None)) value))
              queryset).

(** [COOP_SHARE_PRICE] of [tapir.coop.config] is not part of the sources at
    hand and is taken as an argument, in hundredths like [amount_paid]. *)
Definition has_unpaid_shares_filter (COOP_SHARE_PRICE : Z) (d : Database)
    (queryset : QuerySet) (value : bool) : QuerySet :=
  let unpaid_shares :=
    List.filter
      (λ s, (amount_paid s.2 <? COOP_SHARE_PRICE) &&
            existsb (λ o, o.1 =? owner s.2) queryset)
      (map_to_list (share_ownerships d)) in
  if value
  then distinct (join_share_ownerships unpaid_shares queryset)
  else distinct (exclude_share_ownerships unpaid_shares queryset).

(** A filter method narrows: what it returns comes from the candidates,
    and without repetition when the candidates have none. *)
Definition narrows (method : FilterMethod) : Prop :=
  ∀ d qs value qs', method d qs value = inr qs' →
    qs' ⊆ qs ∧ (NoDup qs → NoDup qs').

(** [ShareOwnerListView.get_context_data]: the two counts shown above the
    table. *)
Definition ShareOwnerListView_get_context_data (d : Database)
    (object_list : QuerySet) : gmap string Z :=
  <["filtered_member_count" := count object_list]>
  (<["total_member_count" := count (objects_all d)]> ∅).

(** ** The mailing list export *)

Module ShareOwnerExportMailchimpView.

(** Modelled from the spec: [ShareOwnership.objects.active_temporal()] of
    [tapir.coop.models], the share ownerships active today. *)
Definition active_temporal (d : Database) (now : date) : list (Z * ShareOwnership) :=
  List.filter (λ s, is_active now s.2) (map_to_list (share_ownerships d)).

(** [CurrentShareOwnerMixin.get_queryset] *)
Definition CurrentShareOwnerMixin_get_queryset (d : Database) (now : date)
    : QuerySet :=
  distinct (join_share_ownerships (active_temporal d now) (objects_all d)).

Definition get_queryset (d : Database) (now : date) : QuerySet :=
  (* Only active members should be on our mailing lists *)
  List.filter (λ o, negb (is_investing o.2))
              (CurrentShareOwnerMixin_get_queryset d now).

Definition quote : string := String (ascii_of_N 34) EmptyString.

Definition header : list string :=
  ["Email Address"; "First Name"; "Last Name"; "Address"; "Tags"].

(** For some weird reason the tags are in quotes *)
Definition lang_tag (preferred_language : string) : string :=
  let lang_tag := EmptyString in
  let lang_tag :=
    if bool_decide (preferred_language = "de")
    then quote ++ "Deutsch" ++ quote else lang_tag in
  let lang_tag :=
    if bool_decide (preferred_language = "en")
    then quote ++ "English" ++ quote else lang_tag in
  lang_tag.

Definition row (d : Database) (o : Z * ShareOwner) : list string :=
  [email (get_info d o); first_name (get_info d o); last_name (get_info d o);
   street (get_info d o); lang_tag (preferred_language (get_info d o))].

(** The loop over [context["object_list"]], an owner without email being
    skipped. *)
Fixpoint rows (d : Database) (object_list : QuerySet) : list (list string) :=
  match object_list with
  | [] => []
  | o :: rest =>
      if bool_decide (email (get_info d o) = EmptyString) then rows d rest
      else row d o :: rows d rest
  end.

(** The rows [render_to_response] writes to the CSV writer. *)
Definition render_to_response (d : Database) (object_list : QuerySet)
    : list (list string) :=
  header :: rows d object_list.

End ShareOwnerExportMailchimpView.

(** ** The matching program *)

Module MatchingProgram.

(** The order of [order_by("willing_to_gift_a_share")], on the dates. *)
Definition gift_le (a b : Z * ShareOwner) : Prop :=
  match willing_to_gift_a_share a.2, willing_to_gift_a_share b.2 with
  | Some x, Some y => date_leb x y = true
  | None, _ => True
  | Some _, None => False
  end.

#[global] Instance gift_le_dec a b : Decision (gift_le a b).
Proof.
  unfold gift_le.
  destruct (willing_to_gift_a_share a.2), (willing_to_gift_a_share b.2);
    apply _.
Defined.

(** [MatchingProgramListView.get_queryset]: the owners willing to gift a
    share, by the date since which they are. *)
Definition get_queryset (d : Database) : QuerySet :=
  merge_sort gift_le
    (List.filter (λ o, negb (bool_decide (willing_to_gift_a_share o.2 = None)))
                 (objects_all d)).

(** [MatchingProgramTable.render_willing_to_gift_a_share]. The date is
    printed with [strftime_dmY], which is what [strftime] gives from the
    year 1000 on. *)
Definition render_willing_to_gift_a_share (record : Z * ShareOwner) : string :=
  match willing_to_gift_a_share record.2 with
  | None => "No"
  | Some d => strftime_dmY d
  end.

End MatchingProgram.

(** A store whose log already holds an entry about owner 2: the sample
    store after the welcome session of owner 2 was marked. *)
Definition world_with_log : World :=
  (mark_shareowner_attended_welcome_session
     (Sample.request POST ["coop.manage"] []) 2 (Sample.world [])).2.

(** ** Routes

    [tapir/coop/urls.py]. A route is matched against the path that is left
    once the prefix under which the application is included is taken off. *)

Inductive Segment :=
| Lit (s : string)
| IntParam (name : string).

Record UrlPattern := {
  route : list Segment;
  url_name : string;
}.

(** One segment of a route: [<int:name>] is a parameter, anything else is
    matched literally. *)
Definition parse_segment (s : string) : Segment :=
  if String.prefix "<int:" s &&
     String.eqb (String.substring (String.length s - 1) 1 s) ">"
  then IntParam (String.substring 5 (String.length s - 6) s)
  else Lit s.

(** [path(route, view, name=name)] *)
Definition path (r : string) (name : string) : UrlPattern :=
  {| route := map parse_segment (split_on "/" r); url_name := name |}.

Definition urlpatterns : list UrlPattern :=
  [ path "share/<int:pk>/edit" "share_update";
    path "share/<int:pk>/delete" "shareownership_delete";
    path "user/draft/" "draftuser_list";
    path "user/draft/create" "draftuser_create";
    path "user/draft/register" "draftuser_register";
    path "user/draft/register/confirm" "draftuser_confirm_registration";
    path "user/draft/<int:pk>/edit" "draftuser_update";
    path "user/draft/<int:pk>" "draftuser_detail";
    path "user/draft/<int:pk>/delete" "draftuser_delete";
    path "user/draft/<int:pk>/signed_membership_agreement"
         "mark_draftuser_signed_membership_agreement";
    path "user/draft/<int:pk>/attended_welcome_session"
         "mark_draftuser_attended_welcome_session";
    path "member/<int:pk>/attended_welcome_session"
         "mark_shareowner_attended_welcome_session";
    path "user/draft/<int:pk>/membership_agreement"
         "draftuser_membership_agreement";
    path "membership_agreement" "empty_membership_agreement";
    path "member/<int:shareowner_pk>/create_shareownership" "share_create";
    path "member/<int:shareowner_pk>/create_user" "create_user_from_shareowner";
    path "user/draft/<int:pk>/draftuser_create_share_owner"
         "draftuser_create_share_owner";
    path "member/" "shareowner_list";
    path "member/export/mailchimp" "shareowner_export_mailchimp";
    path "member/<int:pk>/membership_confirmation"
         "shareowner_membership_confirmation";
    path "member/<int:pk>/membership_agreement"
         "shareowner_membership_agreement";
    path "member/<int:pk>/membership_confirmation/send"
         "send_shareowner_membership_confirmation_welcome_email";
    path "user/draft/<int:pk>/register_payment" "register_draftuser_payment";
    path "member/<int:pk>/" "shareowner_detail";
    path "member/<int:pk>/edit" "shareowner_update" ].

(** The [int] converter: the segment matches [[0-9]+] and is read by
    [int]. *)
Definition is_int_literal (s : string) : bool :=
  negb (bool_decide (s = EmptyString)) && forallb is_decimal (chars s).

Definition int_converter (s : string) : option Z :=
  if is_int_literal s then Some (decimal_value s) else None.

(** A route against the segments of a path: the keyword arguments when it
    matches. *)
Fixpoint match_route (r : list Segment) (segs : list string)
    : option (list (string * Z)) :=
  match r, segs with
  | [], [] => Some []
  | Lit s :: r', x :: segs' =>
      if String.eqb s x then match_route r' segs' else None
  | IntParam name :: r', x :: segs' =>
      match int_converter x with
      | Some v =>
          match match_route r' segs' with
          | Some kwargs => Some ((name, v) :: kwargs)
          | None => None
          end
      | None => None
      end
  | _, _ => None
  end.

(** The resolver tries the patterns in order; the first that matches
    wins. *)
Fixpoint resolve_segments (patterns : list UrlPattern) (segs : list string)
    : option (string * list (string * Z)) :=
  match patterns with
  | [] => None
  | p :: rest =>
      match match_route (route p) segs with
      | Some kwargs => Some (url_name p, kwargs)
      | None => resolve_segments rest segs
      end
  end.

Definition resolve (url : string) : option (string * list (string * Z)) :=
  resolve_segments urlpatterns (split_on "/" url).

(** [str(n)] of an integer, in decimal. *)
Fixpoint digits_of (fuel : nat) (n : Z) (acc : string) : string :=
  match fuel with
  | O => acc
  | S fuel =>
      let acc := String (digit_char (n mod 10)) acc in
      if n <? 10 then acc else digits_of fuel (n / 10) acc
  end.

Definition str (n : Z) : string :=
  if n <? 0 then String "-" (digits_of (S (Z.to_nat (- n))) (- n) EmptyString)
  else digits_of (S (Z.to_nat n)) n EmptyString.

(** A route with its parameters replaced by the arguments, in order. *)
Fixpoint fill (r : list Segment) (args : list Z) : option (list string) :=
  match r with
  | [] => match args with [] => Some [] | _ => None end
  | Lit s :: r' => option_map (cons s) (fill r' args)
  | IntParam _ :: r' =>
      match args with
      | a :: args' => option_map (cons (str a)) (fill r' args')
      | [] => None
      end
  end.

Fixpoint join (segs : list string) : string :=
  match segs with
  | [] => EmptyString
  | [s] => s
  | s :: rest => s ++ "/" ++ join rest
  end.

(** [reverse(name, args=args)]: the first pattern of that name whose
    parameters the arguments fill and which matches the path so built;
    [None] stands for [NoReverseMatch]. *)
Fixpoint reverse_in (patterns : list UrlPattern) (name : string)
    (args : list Z) : option string :=
  match patterns with
  | [] => None
  | p :: rest =>
      if String.eqb (url_name p) name then
        match fill (route p) args with
        | Some segs =>
            match match_route (route p) segs with
            | Some _ => Some (join segs)
            | None => reverse_in rest name args
            end
        | None => reverse_in rest name args
        end
      else reverse_in rest name args
  end.

Definition reverse (name : string) (args : list Z) : option string :=
  reverse_in urlpatterns name args.

(** Whether a route could match a path built from another route: decided
    segment by segment, a literal against a parameter counting as a possible
    match only when the literal is itself a number. *)
Fixpoint may_match (q r : list Segment) : bool :=
  match q, r with
  | [], [] => true
  | Lit a :: q', Lit b :: r' => String.eqb a b && may_match q' r'
  | Lit a :: q', IntParam _ :: r' => is_int_literal a && may_match q' r'
  | IntParam _ :: q', Lit b :: r' => is_int_literal b && may_match q' r'
  | IntParam _ :: q', IntParam _ :: r' => may_match q' r'
  | _, _ => false
  end.

(** No pattern can match a path built from a later pattern, no two
    patterns share a name, and no literal segment holds a slash. *)
Fixpoint unambiguous (patterns : list UrlPattern) : bool :=
  match patterns with
  | [] => true
  | p :: rest =>
      forallb (λ q, negb (may_match (route p) (route q)) &&
                    negb (String.eqb (url_name p) (url_name q))) rest &&
      forallb (λ seg, match seg with
                      | Lit s => negb (existsb (λ c, bool_decide (c = "/"%char))
                                               (chars s))
                      | IntParam _ => true
                      end) (route p) &&
      negb (bool_decide (route p = [])) &&
      unambiguous rest
  end.

(** A segment that holds no slash. *)
Definition slash_free (s : string) : Prop := "/"%char ∉ chars s.

(** The number of parameters of a route. *)
Definition count_params (r : list Segment) : nat :=
  length (List.filter (λ seg, match seg with IntParam _ => true | Lit _ => false end) r).

(** The literal segments of a route hold no slash. *)
Definition literals_slash_free (r : list Segment) : bool :=
  forallb (λ seg, match seg with
                  | Lit s => negb (existsb (λ c, bool_decide (c = "/"%char))
                                           (chars s))
                  | IntParam _ => true
                  end) r.

(** * Properties *)

(** ** The monad and the store *)

Ltac run :=
  repeat (cbn [fst snd db outbox rendered today faults] in * ||
          unfold bind, ret, raise, gets, modify, db_write, fallible, atomic in * ).

Lemma fresh_pk_bound {A} (t : gmap Z A) k :
  is_Some (t !! k) → k < fresh_pk t.
Proof.
  unfold fresh_pk.
  revert k. apply (map_fold_weak_ind (λ r m, ∀ k, is_Some (m !! k) → k < 1 + r)).
  - intros k [x Hx]. by rewrite lookup_empty in Hx.
  - intros i x m r Hi IH k Hk.
    destruct (decide (i = k)) as [->|Hne].
    + lia.
    + rewrite lookup_insert_ne in Hk by done. specialize (IH k Hk). lia.
Qed.

Lemma fresh_pk_fresh {A} (t : gmap Z A) : t !! fresh_pk t = None.
Proof.
  destruct (t !! fresh_pk t) eqn:E; [|done].
  assert (fresh_pk t < fresh_pk t) by (apply fresh_pk_bound; eauto). lia.
Qed.

Lemma freeze_for_log_inj a b : freeze_for_log a = freeze_for_log b → a = b.
Proof.
  intros H. destruct a as [i [o p s e]], b as [i' [o' p' s' e']].
  unfold freeze_for_log in H. cbn in H.
  pose proof (f_equal (.!! "id") H) as H1.
  pose proof (f_equal (.!! "owner") H) as H2.
  pose proof (f_equal (.!! "amount_paid") H) as H3.
  pose proof (f_equal (.!! "start_date") H) as H4.
  pose proof (f_equal (.!! "end_date") H) as H5.
  simplify_map_eq.
  destruct e, e'; simplify_eq/=; done.
Qed.

Lemma fault_within_nil n w : faults w = [] → fault_within n w = false.
Proof. unfold fault_within. intros ->. by destruct n. Qed.

(** ** Deleting a share ownership *)

(** C1. Deleting needs [coop.admin], a permission other than the
    [coop.manage] of the edit view: without it nothing is written. A delete
    request that passes the guards on an existing share ownership either
    commits both the removal and exactly one log entry holding the full
    snapshot taken before the removal, or raises and leaves the store as it
    was; which of the two depends only on whether one of the two writes
    fails. *)
Theorem share_ownership_delete_audited_atomically
    (request : Request) (pk : Z) (so : ShareOwnership) (w : World) :
  share_ownerships (db w) !! pk = Some so →
  let r := share_ownership_delete request pk w in
  let entry :=
    DeleteShareOwnershipLogEntry_populate (owner so) (user request) (pk, so) in
  ShareOwnershipUpdateView.permission_required = "coop.manage" ∧
  (has_perm (user request) "coop.admin" = false →
     db r.2 = db w ∧
     r.1 ≠ inr (HttpResponseRedirect (get_absolute_url (owner so)))) ∧
  (method request = POST → csrf_ok request = true →
   has_perm (user request) "coop.admin" = true →
     log_before entry = Some (freeze_for_log (pk, so)) ∧
     if fault_within 2 w
     then r.1 = inl DatabaseError ∧ db r.2 = db w
     else r.1 = inr (HttpResponseRedirect (get_absolute_url (owner so))) ∧
          db r.2 = set_share_ownerships (delete pk (share_ownerships (db w)))
                     (set_log_entries (log_entries (db w) ++ [entry]) (db w))).
Proof.
  intros Hso r entry. subst r entry.
  unfold share_ownership_delete, require_POST, csrf_protect,
    permission_required, get_object_or_404, LogEntry_save,
    ShareOwnership_delete, redirect, fault_within.
  split; [reflexivity|]. split.
  - intros Hp. rewrite Hp.
    unfold get_absolute_url.
    destruct (method request), (csrf_ok request); run; split; congruence.
  - intros -> -> ->. split; [reflexivity|].
    run. rewrite Hso.
    destruct w as [d o rd t fs].
    destruct fs as [|[] [|[] fs]]; cbn; rewrite ?Hso; cbn; split; try reflexivity.
    all: try (destruct d; reflexivity).
Qed.

(** ** Editing a share ownership *)

Lemma form_valid_spec (self : ShareOwnershipUpdateView.View)
    (form : ShareOwnershipUpdateView.Form) (w : World) :
  let r := ShareOwnershipUpdateView.form_valid self form w in
  let inst := ShareOwnershipUpdateView.form_instance self form in
  let same := bool_decide
    (ShareOwnershipUpdateView.old_object_frozen self = freeze_for_log inst) in
  if fault_within (if same then 1 else 2) w
  then r.1 = inl DatabaseError ∧ db r.2 = db w
  else r.1 = inr (HttpResponseRedirect (get_absolute_url (owner inst.2))) ∧
       db r.2 = set_log_entries
                  (log_entries (db w) ++
                     (if same then []
                      else [ShareOwnershipUpdateView.log_entry self form]))
                  (set_share_ownerships
                     (<[inst.1 := inst.2]> (share_ownerships (db w))) (db w)).
Proof.
  intros r inst same. subst r same.
  unfold ShareOwnershipUpdateView.form_valid,
    ShareOwnershipUpdateView.super_form_valid, ShareOwnership_save,
    LogEntry_save, fault_within.
  fold inst.
  destruct w as [d o rd t fs].
  destruct (decide (ShareOwnershipUpdateView.old_object_frozen self
                    = freeze_for_log inst)) as [Heq|Hne].
  - rewrite (bool_decide_eq_true_2 _ Heq).
    rewrite (bool_decide_eq_false_2 (_ ≠ _)) by (intros ?; done).
    run. destruct fs as [|[] fs]; cbn; split; try reflexivity.
    all: destruct d; cbn; by rewrite ?app_nil_r.
  - rewrite (bool_decide_eq_false_2 _ Hne).
    rewrite (bool_decide_eq_true_2 (_ ≠ _)) by done.
    run. destruct fs as [|[] [|[] fs]]; cbn; split; try reflexivity.
Qed.

(** C2. A valid edit of an existing share ownership writes a log entry
    exactly when the snapshot frozen before the edit differs from the one
    frozen after it, which is exactly when the form changes a field: with
    every field identical the log grows by nothing, with any field changed
    by exactly one entry holding both snapshots. An edit whose writes fail
    leaves the store as it was. *)
Theorem share_ownership_update_logged_iff_changed
    (request : Request) (pk : Z) (so : ShareOwnership)
    (form : ShareOwnershipUpdateView.Form) (w : World) :
  share_ownerships (db w) !! pk = Some so →
  has_perm (user request) "coop.manage" = true →
  ShareOwnershipUpdateView.is_valid form = true →
  let r := ShareOwnershipUpdateView.post request pk form w in
  let self := {| ShareOwnershipUpdateView.self_request := request;
                 ShareOwnershipUpdateView.self_object := (pk, so);
                 ShareOwnershipUpdateView.old_object_frozen :=
                   freeze_for_log (pk, so) |} in
  let after := ShareOwnershipUpdateView.form_instance self form in
  let identical := bool_decide
    (ShareOwnershipUpdateView.cleaned_start_date form = start_date so ∧
     ShareOwnershipUpdateView.cleaned_end_date form = end_date so ∧
     ShareOwnershipUpdateView.cleaned_amount_paid form = amount_paid so) in
  (freeze_for_log (pk, so) = freeze_for_log after ↔ identical = true) ∧
  if fault_within (if identical then 1 else 2) w
  then r.1 = inl DatabaseError ∧ db r.2 = db w
  else r.1 = inr (HttpResponseRedirect (get_absolute_url (owner so))) ∧
       share_ownerships (db r.2) = <[pk := after.2]> (share_ownerships (db w)) ∧
       log_entries (db r.2) =
         (log_entries (db w) ++
            (if identical then []
             else [UpdateShareOwnershipLogEntry_populate after
                     (freeze_for_log (pk, so)) (freeze_for_log after)
                     (owner so) (user request)]))%list.
Proof.
  intros Hso Hperm Hvalid r self after identical.
  assert (Hiff : freeze_for_log (pk, so) = freeze_for_log after ↔ identical = true).
  { subst identical after. rewrite bool_decide_eq_true. split.
    - intros H%freeze_for_log_inj. injection H as H.
      by rewrite H.
    - intros (H1 & H2 & H3). unfold ShareOwnershipUpdateView.form_instance.
      cbn. rewrite H1, H2, H3. by destruct so. }
  split; [exact Hiff|].
  subst r. unfold ShareOwnershipUpdateView.post,
    PermissionRequiredMixin_dispatch, ShareOwnershipUpdateView.get_object,
    get_object_or_404, ShareOwnershipUpdateView.permission_required.
  rewrite Hperm, Hvalid. run. rewrite Hso. fold self.
  pose proof (form_valid_spec self form w) as Hfv. cbn zeta in Hfv.
  fold after in Hfv.
  change (ShareOwnershipUpdateView.old_object_frozen self)
    with (freeze_for_log (pk, so)) in Hfv.
  assert (Hsame : bool_decide (freeze_for_log (pk, so) = freeze_for_log after)
                  = identical).
  { destruct identical eqn:E.
    - apply bool_decide_eq_true_2, Hiff. done.
    - apply bool_decide_eq_false_2. intros H%Hiff. done. }
  rewrite Hsame in Hfv.
  destruct (fault_within _ w); [exact Hfv|].
  destruct Hfv as [-> ->]. cbn. done.
Qed.

(** ** Dates *)

Lemma code_digit_char (k : Z) : 0 ≤ k ≤ 9 → code (digit_char k) = 48 + k.
Proof.
  intros H.
  assert (k = 0 ∨ k = 1 ∨ k = 2 ∨ k = 3 ∨ k = 4 ∨ k = 5 ∨ k = 6 ∨ k = 7 ∨
          k = 8 ∨ k = 9) as Hk by lia.
  repeat destruct Hk as [->|Hk]; try subst k; reflexivity.
Qed.

Lemma is_decimal_digit_char (k : Z) : 0 ≤ k ≤ 9 → is_decimal (digit_char k) = true.
Proof.
  intros H. unfold is_decimal. rewrite (code_digit_char k H).
  apply andb_true_iff. split; apply Z.leb_le; lia.
Qed.

Lemma digit_value_digit_char (k : Z) : 0 ≤ k ≤ 9 → digit_value (digit_char k) = k.
Proof. intros H. unfold digit_value. rewrite (code_digit_char k H). lia. Qed.

Lemma digit_char_not_dot (k : Z) : 0 ≤ k ≤ 9 → digit_char k ≠ "."%char.
Proof.
  intros H Heq. pose proof (code_digit_char k H) as Hc.
  rewrite Heq in Hc. change (code "."%char) with 46 in Hc. lia.
Qed.

Lemma split_on_digit (k : Z) (s : string) :
  0 ≤ k ≤ 9 →
  split_on "." (String (digit_char k) s) =
  match split_on "." s with
  | h :: t => String (digit_char k) h :: t
  | [] => [String (digit_char k) EmptyString]
  end.
Proof.
  intros H. cbn [split_on].
  by rewrite (bool_decide_eq_false_2 _ (digit_char_not_dot k H)).
Qed.

Lemma split_on_dot (s : string) :
  split_on "." (String "." s) = EmptyString :: split_on "." s.
Proof. reflexivity. Qed.

Lemma parse_day_two_digits (n : Z) : 1 ≤ n ≤ 31 → parse_day (two_digits n) = Some n.
Proof.
  intros H. unfold parse_day, two_digits.
  assert (0 ≤ n / 10 ≤ 9) as Ha by (Z.to_euclidean_division_equations; lia).
  assert (0 ≤ n mod 10 ≤ 9) as Hb by (Z.to_euclidean_division_equations; lia).
  rewrite !is_decimal_digit_char, !digit_value_digit_char by done. cbn [andb].
  replace (10 * (n / 10) + n mod 10) with n
    by (Z.to_euclidean_division_equations; lia).
  destruct (Z.leb_spec 1 n); [|lia]. destruct (Z.leb_spec n 31); [|lia]. done.
Qed.

Lemma parse_month_two_digits (n : Z) : 1 ≤ n ≤ 12 → parse_month (two_digits n) = Some n.
Proof.
  intros H. unfold parse_month, two_digits.
  assert (0 ≤ n / 10 ≤ 9) as Ha by (Z.to_euclidean_division_equations; lia).
  assert (0 ≤ n mod 10 ≤ 9) as Hb by (Z.to_euclidean_division_equations; lia).
  rewrite !is_decimal_digit_char, !digit_value_digit_char by done. cbn [andb].
  replace (10 * (n / 10) + n mod 10) with n
    by (Z.to_euclidean_division_equations; lia).
  destruct (Z.leb_spec 1 n); [|lia]. destruct (Z.leb_spec n 12); [|lia]. done.
Qed.

Lemma parse_year_four_digits (n : Z) : 0 ≤ n ≤ 9999 → parse_year (four_digits n) = Some n.
Proof.
  intros H. unfold parse_year, four_digits, two_digits.
  assert (0 ≤ n / 1000 ≤ 9) as Ha
    by (Z.to_euclidean_division_equations; lia).
  assert (0 ≤ n / 100 mod 10 ≤ 9) as Hb
    by (Z.to_euclidean_division_equations; lia).
  assert (0 ≤ n mod 100 / 10 ≤ 9) as Hc
    by (Z.to_euclidean_division_equations; lia).
  assert (0 ≤ n mod 100 mod 10 ≤ 9) as Hd
    by (Z.to_euclidean_division_equations; lia).
  cbn [String.length Nat.eqb andb chars list_ascii_of_string forallb].
  rewrite !is_decimal_digit_char by done. cbn [andb].
  unfold decimal_value. cbn [chars list_ascii_of_string fold_left].
  rewrite !digit_value_digit_char by done. f_equal.
  Z.to_euclidean_division_equations; lia.
Qed.

(** Parsing what [strftime] prints gives the date back: the override is
    read as day, month, year. *)
Lemma strptime_strftime (d : date) :
  valid_date d = true → strptime_dmY (strftime_dmY d) = inr d.
Proof.
  unfold valid_date. rewrite !andb_true_iff, !Z.leb_le.
  intros [[[[[Hy1 Hy2] Hm1] Hm2] Hd1] Hd2].
  assert (day d ≤ 31) as Hd3.
  { revert Hd2. unfold days_in_month.
    repeat match goal with |- context [if ?b then _ else _] => destruct b end; lia. }
  pose proof (parse_day_two_digits (day d) ltac:(lia)) as Pd.
  pose proof (parse_month_two_digits (month d) ltac:(lia)) as Pm.
  pose proof (parse_year_four_digits (year d) ltac:(lia)) as Py.
  unfold strptime_dmY, strftime_dmY.
  assert (Hsplit : split_on "." (two_digits (day d) ++ "." ++ two_digits (month d)
                                 ++ "." ++ four_digits (year d))
                   = [two_digits (day d); two_digits (month d); four_digits (year d)]).
  { unfold four_digits, two_digits.
    assert (Happ : ∀ c s t, String c s ++ t = String c (s ++ t)) by done.
    assert (Hnil : ∀ t : string, EmptyString ++ t = t) by done.
    rewrite !Happ, !Hnil.
    assert (∀ n, 0 ≤ n mod 10 ≤ 9) as Hmod
      by (intros n; Z.to_euclidean_division_equations; lia).
    assert (0 ≤ day d / 10 ≤ 9)
      by (Z.to_euclidean_division_equations; lia).
    assert (0 ≤ month d / 10 ≤ 9)
      by (Z.to_euclidean_division_equations; lia).
    assert (0 ≤ year d / 1000 ≤ 9)
      by (Z.to_euclidean_division_equations; lia).
    assert (0 ≤ year d mod 100 / 10 ≤ 9)
      by (Z.to_euclidean_division_equations; lia).
    repeat (rewrite split_on_digit by auto).
    repeat (rewrite split_on_dot || rewrite split_on_digit by auto).
    reflexivity. }
  rewrite Hsplit, Pd, Pm, Py.
  destruct (Z.ltb_spec (year d) 1); [lia|].
  destruct (Z.ltb_spec (days_in_month (year d) (month d)) (day d)); [lia|].
  by destruct d.
Qed.

Example strptime_day_month_year : strptime_dmY "24.12.2023" = inr (Date 2023 12 24).
Proof. reflexivity. Qed.

Example strptime_rejects_month_first : strptime_dmY "12.24.2023"
  = inl (ValueError "time data does not match format").
Proof. reflexivity. Qed.

(** The boundary dates of a share ownership count as active. *)
Example is_active_boundaries :
  let so := {| owner := 1; amount_paid := 0; start_date := Date 2024 1 1;
               end_date := Some (Date 2024 6 30) |} in
  is_active (Date 2024 1 1) so = true ∧ is_active (Date 2023 12 31) so = false ∧
  is_active (Date 2024 6 30) so = true ∧ is_active (Date 2024 7 1) so = false.
Proof. by cbv. Qed.

(** ** Confirmation documents *)

(** C3. A request for the extra-shares confirmation that lacks [num_shares]
    or [date] generates no document and changes nothing, whatever else the
    request holds; when it reaches the view (a permitted GET for an existing
    owner) it fails with the validation error naming the missing parameter.
    No default is substituted. *)
Theorem extra_shares_confirmation_requires_parameters
    (request : Request) (pk : Z) (w : World) :
  query request !! "num_shares" = None ∨ query request !! "date" = None →
  let r := shareowner_extra_shares_confirmation request pk w in
  r.2 = w ∧
  (∀ filename pdf, r.1 ≠ inr (HttpResponsePdf filename pdf)) ∧
  (method request = GET → has_perm (user request) "coop.manage" = true →
   is_Some (share_owners (db w) !! pk) →
   r.1 = inl (ValidationError
                (match query request !! "num_shares" with
                 | None => "Missing parameter : num_shares"
                 | Some _ => "Missing parameter : date"
                 end))).
Proof.
  intros Hmiss r. subst r.
  unfold shareowner_extra_shares_confirmation, require_GET,
    permission_required, get_object_or_404.
  destruct (method request) eqn:Hm; run;
    [|by repeat split; intros; try discriminate].
  destruct (has_perm (user request) "coop.manage") eqn:Hp; run;
    [|by repeat split; intros; try discriminate].
  destruct (share_owners (db w) !! pk) as [o|] eqn:Ho; run;
    [|repeat split; intros; try discriminate;
      match goal with H : is_Some None |- _ => by destruct H end].
  destruct (query request !! "num_shares") as [n|] eqn:Hn; run;
    [|by repeat split; intros; try discriminate].
  destruct Hmiss as [|Hd]; [discriminate|]. rewrite Hd. run.
  by repeat split; intros; try discriminate.
Qed.

(** C8. The membership confirmation of an existing owner, on a permitted
    GET: [num_shares] is the override when the request gives one and the
    count of the owner's share ownerships active today otherwise; the date
    is the override parsed as day.month.year when the request gives one and
    today otherwise. The document generated carries these two values; an
    override that does not parse raises and generates nothing. *)
Theorem membership_confirmation_parameters
    (request : Request) (pk : Z) (o : ShareOwner) (w : World) :
  method request = GET →
  has_perm (user request) "coop.manage" = true →
  share_owners (db w) !! pk = Some o →
  let r := shareowner_membership_confirmation request pk w in
  let num_shares :=
    match query request !! "num_shares" with
    | Some v => PyStr v
    | None => PyInt (count (get_active_share_ownerships (db w) (today w) pk))
    end in
  let date :=
    match query request !! "date" with
    | Some v => strptime_dmY v
    | None => inr (today w)
    end in
  match date with
  | inr d =>
      let doc := {| doc_kind := MembershipConfirmation; doc_owner := pk;
                    doc_num_shares := num_shares; doc_date := d |} in
      (∃ filename, r.1 = inr (HttpResponsePdf filename doc)) ∧
      r.2 = set_rendered (rendered w ++ [doc]) w
  | inl e => r.1 = inl e ∧ r.2 = w
  end.
Proof.
  intros Hm Hp Ho r num_shares date. subst r num_shares date.
  unfold shareowner_membership_confirmation, require_GET,
    permission_required, get_object_or_404,
    get_shareowner_membership_confirmation_pdf, render_pdf, lift.
  rewrite Hm, Hp. run. rewrite Ho. run.
  destruct (query request !! "num_shares") as [n|];
    destruct (query request !! "date") as [v|]; run;
    try destruct (strptime_dmY v) as [e|d]; cbn; eauto.
Qed.

(** ** Granting a user account *)

(** C5. A request to grant a user account to an existing owner that
    already has a linked account, or that is a company, is answered with a
    refusal and leaves the whole world as it was: no account is created and
    the owner is not touched. *)
Theorem create_user_rejected_when_linked_or_company
    (request : Request) (pk : Z) (o : ShareOwner)
    (form : CreateUserFromShareOwnerView.Form) (w : World) :
  share_owners (db w) !! pk = Some o →
  so_user o ≠ None ∨ is_company o = true →
  let r := CreateUserFromShareOwnerView.dispatch request pk form w in
  (∃ content, r.1 = inr (HttpResponseForbidden content)) ∧ r.2 = w.
Proof.
  intros Ho Hrej r. subst r.
  unfold CreateUserFromShareOwnerView.dispatch,
    CreateUserFromShareOwnerView.get_shareowner, get_object_or_404.
  run. rewrite Ho. cbn.
  destruct (decide (so_user o ≠ None)) as [Hu|Hu].
  - rewrite (bool_decide_eq_true_2 _ Hu). eauto.
  - rewrite (bool_decide_eq_false_2 _ Hu).
    destruct Hrej as [|Hc]; [done|]. rewrite Hc. eauto.
Qed.

(** ** The roster list *)

(** C10. A roster list request never changes the world. When its filter
    result holds exactly one owner the answer is a redirect to that owner's
    page and not the list; with no owner or with more than one it is the
    rendered list of the filter result. *)
Theorem list_view_redirects_on_single_result
    (filterset_class : FilterSet) (request : Request) (w : World)
    (object_list : QuerySet) :
  FilterSet_qs filterset_class (db w) (query request)
    (ShareOwnerListView.get_queryset (db w)) = inr object_list →
  let r := ShareOwnerListView.get filterset_class request w in
  r.2 = w ∧
  match object_list with
  | [single] => r.1 = inr (HttpResponseRedirect (get_absolute_url single.1))
  | _ => r.1 = inr (TemplateResponse ShareOwnerListView.template_name object_list)
  end.
Proof.
  intros Hqs r. subst r. unfold ShareOwnerListView.get, lift. run.
  rewrite Hqs. cbn.
  destruct object_list as [|single [|second rest]]; cbn; [done|done|].
  unfold count. cbn [length].
  destruct (Z.eqb_spec (Z.of_nat (S (S (length rest)))) 1) as [H|H]; [lia|done].
Qed.

Lemma no_fault_within_4 (fs : list bool) :
  existsb id (take 4 fs) = false →
  fs = [] ∨ fs = [false] ∨ fs = [false; false] ∨ fs = [false; false; false] ∨
  ∃ rest, fs = false :: false :: false :: false :: rest.
Proof.
  destruct fs as [|[] [|[] [|[] [|[] rest]]]]; cbn; try discriminate; eauto 10.
Qed.

Lemma grant_commits (request : Request) (pk : Z) (o : ShareOwner)
    (account : TapirUser) (w : World) :
  share_owners (db w) !! pk = Some o →
  fault_within 4 w = false →
  let r := CreateUserFromShareOwnerView.form_valid request pk account w in
  let new_pk := fresh_pk (tapir_users (db w)) in
  r.1 = inr (HttpResponseRedirect (url_user_detail new_pk)) ∧
  db r.2 =
    set_log_entries (map (relink_log_entry pk new_pk) (log_entries (db w)))
      (set_share_owners
         (<[pk := blank_info_fields (set_so_user (Some new_pk) o)]>
            (share_owners (db w)))
         (set_tapir_users (<[new_pk := account]> (tapir_users (db w))) (db w))) ∧
  outbox r.2 =
    (outbox w ++ [{| email_template := TapirAccountCreatedEmail new_pk;
                     email_actor := user_pk (user request);
                     email_recipient := ToTapirUser new_pk |}])%list.
Proof.
  intros Ho Hf r new_pk. subst r new_pk.
  unfold CreateUserFromShareOwnerView.form_valid, TapirUser_save_new,
    CreateUserFromShareOwnerView.get_shareowner, get_object_or_404,
    ShareOwner_save, LogEntry_objects_relink, send_mail.
  unfold fault_within in Hf. destruct w as [d ob rd t fs]. cbn in Hf, Ho.
  destruct (no_fault_within_4 fs Hf) as [->|[->|[->|[->|[rest ->]]]]];
    run; cbn; rewrite ?Ho; cbn; done.
Qed.

(** C9. A successful grant of a user account: the instance the form starts
    from carries the owner's identity fields, copied while the owner still
    holds them; the account saved under a fresh key keeps them, but for the
    names and the user name the form posts; the owner is then saved linked
    to that account with its own identity fields blank. Afterwards the
    identity of the owner resolves to the account, the single source. *)
Theorem create_user_copies_then_blanks
    (request : Request) (pk : Z) (o : ShareOwner)
    (form : CreateUserFromShareOwnerView.Form) (w : World) :
  share_owners (db w) !! pk = Some o →
  so_user o = None →
  is_company o = false →
  method request = POST →
  has_perm (user request) "coop.manage" = true →
  CreateUserFromShareOwnerView.is_valid form = true →
  fault_within 4 w = false →
  let r := CreateUserFromShareOwnerView.dispatch request pk form w in
  let new_pk := fresh_pk (tapir_users (db w)) in
  let initial :=
    copy_user_info o CreateUserFromShareOwnerView.TapirUser_new in
  let account := CreateUserFromShareOwnerView.form_instance form initial in
  let linked := blank_info_fields (set_so_user (Some new_pk) o) in
  CreateUserFromShareOwnerView.get_form_kwargs pk w = (inr initial, w) ∧
  tu_info initial = so_info o ∧
  r.1 = inr (HttpResponseRedirect (url_user_detail new_pk)) ∧
  tapir_users (db w) !! new_pk = None ∧
  tapir_users (db r.2) !! new_pk = Some account ∧
  (email (tu_info account), phone_number (tu_info account),
   street (tu_info account), postcode (tu_info account),
   city (tu_info account), country (tu_info account),
   preferred_language (tu_info account)) =
  (email (so_info o), phone_number (so_info o), street (so_info o),
   postcode (so_info o), city (so_info o), country (so_info o),
   preferred_language (so_info o)) ∧
  (first_name (tu_info account), last_name (tu_info account)) =
  (CreateUserFromShareOwnerView.cleaned_first_name form,
   CreateUserFromShareOwnerView.cleaned_last_name form) ∧
  share_owners (db r.2) !! pk = Some linked ∧
  so_user linked = Some new_pk ∧
  so_info linked = blank_info ∧
  get_info (db r.2) (pk, linked) = tu_info account.
Proof.
  intros Ho Hu Hc Hm Hp Hv Hf r new_pk initial account linked.
  pose proof (grant_commits request pk o account w Ho Hf) as (Hr & Hdb & _).
  assert (Hrun : r = CreateUserFromShareOwnerView.form_valid request pk account w).
  { subst r. unfold CreateUserFromShareOwnerView.dispatch,
      CreateUserFromShareOwnerView.get_form_kwargs,
      CreateUserFromShareOwnerView.get_shareowner, get_object_or_404,
      PermissionRequiredMixin_dispatch,
      CreateUserFromShareOwnerView.permission_required.
    run. rewrite Ho. cbn. rewrite Hu, Hc, Hp, Hm, Hv. cbn. rewrite Ho.
    reflexivity. }
  rewrite Hrun. fold new_pk in Hr, Hdb. fold linked in Hdb.
  split.
  { unfold CreateUserFromShareOwnerView.get_form_kwargs,
      CreateUserFromShareOwnerView.get_shareowner, get_object_or_404.
    run. by rewrite Ho. }
  split; [reflexivity|]. split; [exact Hr|].
  split; [apply fresh_pk_fresh|].
  rewrite Hdb. cbn.
  split; [apply lookup_insert_eq|]. split; [reflexivity|].
  split; [reflexivity|]. split; [apply lookup_insert_eq|].
  split; [reflexivity|]. split; [reflexivity|].
  unfold get_info. cbn. by rewrite lookup_insert_eq.
Qed.

(** ** Notification mails and the transaction *)

Lemma set_share_ownerships_id (d : Database) :
  set_share_ownerships (share_ownerships d) d = d.
Proof. by destruct d. Qed.

Lemma objects_create_ok (so : ShareOwnership) (d : Database)
    (ob : list Email) (rd : list Document) (t : date) (fs : list bool) :
  ShareOwnership_objects_create so
    {| db := d; outbox := ob; rendered := rd; today := t; faults := false :: fs |}
  = (inr tt,
     {| db := set_share_ownerships
                (<[fresh_pk (share_ownerships d) := so]> (share_ownerships d)) d;
        outbox := ob; rendered := rd; today := t; faults := fs |}).
Proof. reflexivity. Qed.

Lemma for_range_create_ok (n : nat) (so : ShareOwnership) (d : Database)
    (ob : list Email) (rd : list Document) (t : date) (fs : list bool) :
  ∃ tbl,
    for_range n (ShareOwnership_objects_create so)
      {| db := d; outbox := ob; rendered := rd; today := t;
         faults := replicate n false ++ fs |}
    = (inr tt, {| db := set_share_ownerships tbl d; outbox := ob;
                  rendered := rd; today := t; faults := fs |}).
Proof.
  revert d. induction n as [|n IH]; intros d.
  - exists (share_ownerships d). cbn. unfold ret.
    by rewrite set_share_ownerships_id.
  - cbn [for_range replicate app]. unfold bind at 1.
    rewrite objects_create_ok.
    destruct (IH (set_share_ownerships
                    (<[fresh_pk (share_ownerships d) := so]> (share_ownerships d))
                    d)) as [tbl Htbl].
    exists tbl. rewrite Htbl. reflexivity.
Qed.

(** The batch creation dispatches its mail after the [atomic] block: when
    every write succeeds and the dispatch fails, the request raises and the
    batch stays committed. *)
Lemma batch_mail_failure_keeps_commit (request : Request) (pk : Z)
    (o : ShareOwner) (form : ShareOwnershipCreateMultipleView.Form)
    (w : World) (rest : list bool) :
  share_owners (db w) !! pk = Some o →
  let n := Z.to_nat (ShareOwnershipCreateMultipleView.cleaned_num_shares form) in
  faults w = (false :: replicate n false ++ false :: true :: rest)%list →
  let r := ShareOwnershipCreateMultipleView.form_valid request pk form w in
  r.1 = inl SMTPException ∧
  outbox r.2 = outbox w ∧
  log_entries (db r.2) =
    (log_entries (db w) ++
       [CreateShareOwnershipsLogEntry_populate
          (ShareOwnershipCreateMultipleView.cleaned_num_shares form)
          (ShareOwnershipCreateMultipleView.cleaned_start_date form)
          (ShareOwnershipCreateMultipleView.cleaned_end_date form)
          (user request) (so_user o) pk])%list ∧
  accounting_recaps (db r.2) =
    (accounting_recaps (db w) ++
       [{| recap_member := pk;
           recap_number_of_shares :=
             ShareOwnershipCreateMultipleView.cleaned_num_shares form;
           recap_date := today w |}])%list.
Proof.
  intros Ho n Hf r. subst r.
  unfold ShareOwnershipCreateMultipleView.form_valid,
    ShareOwnershipCreateMultipleView.get_share_owner, get_object_or_404,
    LogEntry_save, ExtraSharesForAccountingRecap_objects_create, send_mail.
  fold n. destruct w as [d ob rd t fs]. cbn in Hf, Ho. subst fs.
  run. rewrite Ho. cbn. unfold set_db. cbn.
  match goal with
  | |- context [for_range n ?body
                  {| db := ?d'; outbox := _; rendered := _; today := _;
                     faults := _ |}] =>
      destruct (for_range_create_ok n
                  {| owner := pk; amount_paid := 0;
                     start_date :=
                       ShareOwnershipCreateMultipleView.cleaned_start_date form;
                     end_date :=
                       ShareOwnershipCreateMultipleView.cleaned_end_date form |}
                  d' ob rd t (false :: true :: rest)) as [tbl Htbl]
  end.
  rewrite Htbl. cbn. done.
Qed.

(** The grant dispatches its mail inside the [atomic] block: when every
    write succeeds and the dispatch fails, the request raises and the store
    is back to what it was, the new account and the link are gone. *)
Lemma grant_mail_failure_rolls_back (request : Request) (pk : Z)
    (o : ShareOwner) (account : TapirUser) (w : World) (rest : list bool) :
  share_owners (db w) !! pk = Some o →
  faults w = false :: false :: false :: true :: rest →
  let r := CreateUserFromShareOwnerView.form_valid request pk account w in
  r.1 = inl SMTPException ∧ db r.2 = db w ∧ outbox r.2 = outbox w.
Proof.
  intros Ho Hf r. subst r.
  unfold CreateUserFromShareOwnerView.form_valid, TapirUser_save_new,
    CreateUserFromShareOwnerView.get_shareowner, get_object_or_404,
    ShareOwner_save, LogEntry_objects_relink, send_mail.
  destruct w as [d ob rd t fs]. cbn in Hf, Ho. subst fs.
  run. cbn. rewrite Ho. cbn. done.
Qed.

(** C4. The grant of a user account on the sample store, with the three
    writes succeeding and the mail dispatch failing: the request raises the
    mail error and the store is rolled back, so the account that was saved
    and the link on owner 2 are lost. The mail is dispatched inside the
    transaction, not after its commit. *)
Theorem grant_mail_failure_undoes_account :
  let w := Sample.world [false; false; false; true] in
  let r := CreateUserFromShareOwnerView.dispatch
             (Sample.request POST ["coop.manage"] []) 2
             SampleForms.new_account w in
  r.1 = inl SMTPException ∧
  db r.2 = db w ∧
  tapir_users (db r.2) !! fresh_pk (tapir_users (db w)) = None ∧
  (so_user <$> share_owners (db r.2) !! 2) = Some None.
Proof. vm_compute. done. Qed.

(** ** Roster search *)






(** A term that is not made of digits is searched as a name: the result
    holds the candidates whose name contains it, case ignored, once each. *)
Lemma display_name_filter_name (d : Database) (qs : QuerySet) (value : string) :
  isdigit value = false →
  ∃ result,
    ShareOwnerFilter.display_name_filter d qs value = inr result ∧
    NoDup result ∧
    ∀ o, o ∈ result ↔ o ∈ qs ∧ icontains (get_display_name d o) value = true.
Proof.
  intros Hnd. unfold ShareOwnerFilter.display_name_filter. rewrite Hnd.
  eexists. split; [reflexivity|]. split; [apply NoDup_remove_dups|].
  intros o. unfold distinct, with_name.
  rewrite elem_of_remove_dups, !list_elem_of_In, filter_In. tauto.
Qed.

(** C6. The search term made of the single character superscript two
    passes [isdigit] and is not a decimal literal: on every store and
    candidate set the roster search raises [ValueError], returning neither
    an owner by id nor the owners matched by name. *)
Theorem display_name_filter_superscript_raises (d : Database) (qs : QuerySet) :
  isdigit Sample.superscript_two = true ∧
  ShareOwnerFilter.display_name_filter d qs Sample.superscript_two
  = inl (ValueError "invalid literal for int() with base 10").
Proof. split; reflexivity. Qed.

(** ** Absent filter values *)

Lemma icontains_empty (hay : string) : icontains hay EmptyString = true.
Proof. unfold icontains. cbn. by destruct (lower hay). Qed.

Lemma with_name_empty (d : Database) (qs : QuerySet) : with_name d EmptyString qs = qs.
Proof.
  unfold with_name. induction qs as [|o qs IH]; [done|].
  cbn. rewrite icontains_empty. by rewrite IH.
Qed.

Lemma FilterSet_qs_skips_empty (filters : FilterSet) (d : Database)
    (data : gmap string string) (qs : QuerySet) :
  (∀ name method, (name, method) ∈ filters →
     data !! name = None ∨ data !! name = Some EmptyString) →
  FilterSet_qs filters d data qs = inr qs.
Proof.
  induction filters as [|[name method] filters IH]; intros H; [done|].
  cbn. destruct (H name method) as [->| ->]; [left| |].
  - apply IH. intros n m ?. apply (H n m). by right.
  - cbn. apply IH. intros n m ?. apply (H n m). by right.
Qed.

(** C7, amended. With every filter value absent or empty the filter set
    calls no predicate and hands the candidate set on unchanged. Called with
    the empty value, the roster name search narrows nothing (it returns the
    candidates, once each) and the welcome-desk name search returns the
    empty set; neither raises. *)
Theorem empty_filter_value_behaviour (d : Database) (qs : QuerySet) :
  (∀ (filters : FilterSet) (data : gmap string string),
     (∀ name method, (name, method) ∈ filters →
        data !! name = None ∨ data !! name = Some EmptyString) →
     FilterSet_qs filters d data qs = inr qs) ∧
  ShareOwnerFilter.display_name_filter d qs EmptyString = inr (distinct qs) ∧
  (NoDup qs → ShareOwnerFilter.display_name_filter d qs EmptyString = inr qs) ∧
  ShareOwnerFilterWelcomeDesk.display_name_filter d qs EmptyString = inr [].
Proof.
  split; [intros; by apply FilterSet_qs_skips_empty|].
  assert (H : ShareOwnerFilter.display_name_filter d qs EmptyString = inr (distinct qs)).
  { unfold ShareOwnerFilter.display_name_filter. cbn.
    by rewrite with_name_empty. }
  split; [exact H|]. split; [|reflexivity].
  intros Hnd. rewrite H. unfold distinct. f_equal.
  clear H. induction Hnd as [|o l Ho Hnd IH]; [done|].
  cbn. destruct (decide_rel elem_of o l); [done|]. by rewrite IH.
Qed.

(** C7, as stated, fails on the welcome-desk search: on the sample roster
    the empty value yields the empty set, not the candidates. *)
Lemma welcome_desk_empty_value_not_noop :
  ShareOwnerFilterWelcomeDesk.display_name_filter
    Sample.database (objects_all Sample.database) EmptyString
  ≠ inr (objects_all Sample.database).
Proof. vm_compute. discriminate. Qed.

(** ** The theorems at work on the sample store *)

Lemma share_ownership_delete_audited_atomically_witness :
  share_ownerships (db (Sample.world [])) !! 7 = Some (Sample.share 2 10000) ∧
  let request := Sample.request POST ["coop.admin"] [] in
  let r := share_ownership_delete request 7 (Sample.world []) in
  r.1 = inr (HttpResponseRedirect (url_shareowner_detail 2)) ∧
  db r.2 =
    set_share_ownerships (delete 7 (share_ownerships Sample.database))
      (set_log_entries
         [DeleteShareOwnershipLogEntry_populate 2 (user request)
            (7, Sample.share 2 10000)]
         Sample.database).
Proof.
  split; [reflexivity|].
  destruct (share_ownership_delete_audited_atomically
              (Sample.request POST ["coop.admin"] []) 7 (Sample.share 2 10000)
              (Sample.world []) eq_refl) as (_ & _ & H).
  destruct (H eq_refl eq_refl eq_refl) as [_ H']. exact H'.
Defined.

Lemma share_ownership_update_logged_iff_changed_witness :
  share_ownerships (db (Sample.world [])) !! 8 = Some (Sample.share 2 0) ∧
  let request := Sample.request POST ["coop.manage"] [] in
  let r := ShareOwnershipUpdateView.post request 8 SampleForms.edit_amount
             (Sample.world []) in
  r.1 = inr (HttpResponseRedirect (url_shareowner_detail 2)) ∧
  share_ownerships (db r.2) !! 8 = Some (Sample.share 2 10000) ∧
  length (log_entries (db r.2)) = 1%nat.
Proof.
  split; [reflexivity|].
  destruct (share_ownership_update_logged_iff_changed
              (Sample.request POST ["coop.manage"] []) 8 (Sample.share 2 0)
              SampleForms.edit_amount (Sample.world [])
              eq_refl eq_refl eq_refl) as [_ (H1 & H2 & H3)].
  split; [exact H1|]. split.
  - exact (eq_trans (f_equal (λ t, t !! 8) H2) eq_refl).
  - exact (eq_trans (f_equal length H3) eq_refl).
Defined.

Lemma extra_shares_confirmation_requires_parameters_witness :
  let request := Sample.request GET ["coop.manage"] [("date", "1.1.2023")] in
  query request !! "num_shares" = None ∧
  let r := shareowner_extra_shares_confirmation request 2 (Sample.world []) in
  r.2 = Sample.world [] ∧
  r.1 = inl (ValidationError "Missing parameter : num_shares").
Proof.
  split; [reflexivity|].
  destruct (extra_shares_confirmation_requires_parameters
              (Sample.request GET ["coop.manage"] [("date", "1.1.2023")]) 2
              (Sample.world []) (or_introl eq_refl)) as (H1 & _ & H3).
  split; [exact H1|].
  exact (H3 eq_refl eq_refl (ex_intro _ _ eq_refl)).
Defined.

Lemma membership_confirmation_parameters_witness :
  let request := Sample.request GET ["coop.manage"]
                   [("num_shares", "3"); ("date", "01.05.2023")] in
  share_owners (db (Sample.world [])) !! 2
    = Some (Sample.person "Ada" "Smith" "ada@example.org") ∧
  let r := shareowner_membership_confirmation request 2 (Sample.world []) in
  let doc := {| doc_kind := MembershipConfirmation; doc_owner := 2;
                doc_num_shares := PyStr "3"; doc_date := Date 2023 5 1 |} in
  (∃ filename, r.1 = inr (HttpResponsePdf filename doc)) ∧
  r.2 = set_rendered [doc] (Sample.world []).
Proof.
  split; [reflexivity|].
  exact (membership_confirmation_parameters
           (Sample.request GET ["coop.manage"]
              [("num_shares", "3"); ("date", "01.05.2023")]) 2
           (Sample.person "Ada" "Smith" "ada@example.org") (Sample.world [])
           eq_refl eq_refl eq_refl).
Defined.

Lemma create_user_rejected_when_linked_or_company_witness :
  share_owners (db (Sample.world [])) !! 3 = Some Sample.company ∧
  is_company Sample.company = true ∧
  let r := CreateUserFromShareOwnerView.dispatch
             (Sample.request POST ["coop.manage"] []) 3
             SampleForms.new_account (Sample.world []) in
  (∃ content, r.1 = inr (HttpResponseForbidden content)) ∧
  r.2 = Sample.world [].
Proof.
  split; [reflexivity|]. split; [reflexivity|].
  exact (create_user_rejected_when_linked_or_company
           (Sample.request POST ["coop.manage"] []) 3 Sample.company
           SampleForms.new_account (Sample.world [])
           eq_refl (or_intror eq_refl)).
Defined.

Lemma create_user_copies_then_blanks_witness :
  let o := Sample.person "Ada" "Smith" "ada@example.org" in
  share_owners (db (Sample.world [])) !! 2 = Some o ∧
  let r := CreateUserFromShareOwnerView.dispatch
             (Sample.request POST ["coop.manage"] []) 2
             SampleForms.new_account (Sample.world []) in
  r.1 = inr (HttpResponseRedirect (url_user_detail 6)) ∧
  (tu_info <$> tapir_users (db r.2) !! 6) = Some (so_info o) ∧
  share_owners (db r.2) !! 2
    = Some (blank_info_fields (set_so_user (Some 6) o)).
Proof.
  split; [reflexivity|].
  destruct (create_user_copies_then_blanks
              (Sample.request POST ["coop.manage"] []) 2
              (Sample.person "Ada" "Smith" "ada@example.org")
              SampleForms.new_account (Sample.world [])
              eq_refl eq_refl eq_refl eq_refl eq_refl eq_refl eq_refl)
    as (_ & _ & H1 & _ & H2 & _ & _ & H3 & _).
  split; [exact H1|]. split.
  - exact (eq_trans (f_equal (fmap tu_info) H2) eq_refl).
  - exact H3.
Defined.

Lemma empty_filter_value_behaviour_witness :
  let qs := objects_all Sample.database in
  NoDup qs ∧
  FilterSet_qs ShareOwnerListView.filterset_class Sample.database
    {["display_name" := EmptyString]} qs = inr qs ∧
  ShareOwnerFilter.display_name_filter Sample.database qs EmptyString = inr qs ∧
  ShareOwnerFilterWelcomeDesk.display_name_filter Sample.database qs EmptyString = inr [].
Proof.
  assert (Hnd : NoDup (objects_all Sample.database))
    by apply NoDup_map_to_list.
  split; [exact Hnd|].
  destruct (empty_filter_value_behaviour Sample.database
              (objects_all Sample.database)) as (H1 & _ & H3 & H4).
  split; [|split; [exact (H3 Hnd) | exact H4]].
  apply H1. intros name method Hin.
  apply list_elem_of_singleton in Hin. injection Hin as -> _.
  right. reflexivity.
Defined.

Lemma list_view_redirects_on_single_result_witness :
  let request := Sample.request GET ["coop.manage"] [("display_name", "Lind")] in
  let single := (42, Sample.person "Bo" "Lind" "bo@example.org") in
  FilterSet_qs ShareOwnerListView.filterset_class Sample.database
    (query request) (ShareOwnerListView.get_queryset Sample.database)
    = inr [single] ∧
  let r := ShareOwnerListView.get ShareOwnerListView.filterset_class request
             (Sample.world []) in
  r.2 = Sample.world [] ∧
  r.1 = inr (HttpResponseRedirect (url_shareowner_detail 42)).
Proof.
  split; [vm_compute; reflexivity|].
  exact (list_view_redirects_on_single_result
           ShareOwnerListView.filterset_class
           (Sample.request GET ["coop.manage"] [("display_name", "Lind")])
           (Sample.world [])
           [(42, Sample.person "Bo" "Lind" "bo@example.org")]
           ltac:(vm_compute; reflexivity)).
Defined.

(** * Further properties *)

(** ** Fault schedules *)

Lemma no_fault_S (n : nat) (fs : list bool) :
  existsb id (take (S n) fs) = false →
  (fs = [] ∨ ∃ fs', fs = false :: fs') ∧ existsb id (take n (drop 1 fs)) = false.
Proof.
  destruct fs as [|[] fs]; cbn; try discriminate.
  - intros _. split; [by left|]. by destruct n.
  - intros H. split; [right; eauto|]. by rewrite drop_0.
Qed.

Lemma fault_S (n : nat) (fs : list bool) :
  existsb id (take (S n) fs) = true →
  (∃ fs', fs = true :: fs') ∨
  (∃ fs', fs = false :: fs' ∧ existsb id (take n fs') = true).
Proof.
  destruct fs as [|[] fs]; cbn; try discriminate; eauto.
Qed.

Lemma no_fault_le (n m : nat) (fs : list bool) :
  (n ≤ m)%nat → existsb id (take m fs) = false → existsb id (take n fs) = false.
Proof.
  intros Hle H. apply not_true_iff_false. intros Ht.
  apply existsb_exists in Ht as (b & Hin & Hb).
  rewrite <- not_true_iff_false in H. apply H.
  apply existsb_exists. exists b. split; [|done].
  apply list_elem_of_In. apply list_elem_of_In in Hin.
  apply list_elem_of_lookup in Hin as [i Hi].
  apply list_elem_of_lookup. exists i.
  apply lookup_take_Some in Hi as [Hi Hlt].
  apply lookup_take_Some. split; [done|lia].
Qed.

Lemma no_fault_drop (n m : nat) (fs : list bool) :
  existsb id (take (n + m) fs) = false → existsb id (take m (drop n fs)) = false.
Proof.
  revert fs. induction n as [|n IH]; intros fs H; [by rewrite drop_0|].
  destruct fs as [|b fs]; [by rewrite drop_nil, take_nil|].
  cbn in H. apply orb_false_iff in H as [_ H]. cbn. by apply IH.
Qed.

(** ** Tables *)

Lemma insert_fresh_lookup_old {A} (n : nat) (x : A) (t : gmap Z A) k y :
  t !! k = Some y → insert_fresh n x t !! k = Some y.
Proof.
  revert t. induction n as [|n IH]; intros t Hk; [done|].
  cbn. apply IH. rewrite lookup_insert_ne; [done|].
  intros <-. by rewrite fresh_pk_fresh in Hk.
Qed.

Lemma insert_fresh_lookup {A} (n : nat) (x : A) (t : gmap Z A) k y :
  insert_fresh n x t !! k = Some y → t !! k = Some y ∨ (t !! k = None ∧ y = x).
Proof.
  revert t. induction n as [|n IH]; intros t Hk; [by left|].
  cbn in Hk. apply IH in Hk as [Hk|[Hk ->]].
  - destruct (decide (fresh_pk t = k)) as [<-|Hne].
    + rewrite lookup_insert_eq in Hk. injection Hk as <-.
      right. split; [apply fresh_pk_fresh|done].
    + rewrite lookup_insert_ne in Hk by done. by left.
  - destruct (decide (fresh_pk t = k)) as [<-|Hne].
    + by rewrite lookup_insert_eq in Hk.
    + rewrite lookup_insert_ne in Hk by done. by right.
Qed.

Lemma insert_fresh_size {A} (n : nat) (x : A) (t : gmap Z A) :
  size (insert_fresh n x t) = (size t + n)%nat.
Proof.
  revert t. induction n as [|n IH]; intros t; [cbn; lia|].
  cbn. rewrite IH, map_size_insert_None by apply fresh_pk_fresh. lia.
Qed.

(** ** Adding shares in a batch *)

Lemma for_range_create_run (n : nat) (so : ShareOwnership) (d : Database)
    (ob : list Email) (rd : list Document) (t : date) (fs : list bool) :
  let w := {| db := d; outbox := ob; rendered := rd; today := t; faults := fs |} in
  if existsb id (take n fs)
  then ∃ d' fs',
         for_range n (ShareOwnership_objects_create so) w
         = (inl DatabaseError,
            {| db := d'; outbox := ob; rendered := rd; today := t; faults := fs' |})
  else for_range n (ShareOwnership_objects_create so) w
       = (inr tt,
          {| db := set_share_ownerships
                     (insert_fresh n so (share_ownerships d)) d;
             outbox := ob; rendered := rd; today := t; faults := drop n fs |}).
Proof.
  revert d fs. induction n as [|n IH]; intros d fs; cbn zeta.
  - rewrite take_0, drop_0. cbn. unfold ret.
    by rewrite set_share_ownerships_id.
  - destruct fs as [|[] fs].
    + cbn [take existsb]. cbn [for_range]. unfold bind at 1.
      assert (Hstep : ShareOwnership_objects_create so
                {| db := d; outbox := ob; rendered := rd; today := t; faults := [] |}
              = (inr tt,
                 {| db := set_share_ownerships
                            (<[fresh_pk (share_ownerships d) := so]>
                               (share_ownerships d)) d;
                    outbox := ob; rendered := rd; today := t; faults := [] |}))
        by reflexivity.
      rewrite Hstep. cbv beta iota.
      specialize (IH (set_share_ownerships
                        (<[fresh_pk (share_ownerships d) := so]> (share_ownerships d)) d)
                     []).
      cbn zeta in IH. rewrite take_nil in IH. cbn [existsb] in IH.
      rewrite IH. by rewrite !drop_nil.
    + cbn [take existsb id orb]. eexists _, _. reflexivity.
    + cbn [take existsb id orb drop].
      specialize (IH (set_share_ownerships
                        (<[fresh_pk (share_ownerships d) := so]> (share_ownerships d)) d)
                     fs).
      cbn zeta in IH. cbn [for_range]. unfold bind.
      rewrite objects_create_ok. cbv beta iota.
      destruct (existsb id (take n fs)).
      * destruct IH as (d' & fs' & IH). rewrite IH. eauto.
      * by rewrite IH.
Qed.

(** X1. A batch of [n] shares whose writes and mail all go through: the
    store holds one more log entry and one more accounting recap, the share
    table keeps every row it had and has exactly [n] more, each new row
    belonging to the owner with nothing paid and the dates of the form; one
    confirmation mail is out, and the answer is the redirect to the page of
    whoever carries the owner's identity. *)
Theorem batch_creates_exactly_n_shares (request : Request) (pk : Z)
    (o : ShareOwner) (form : ShareOwnershipCreateMultipleView.Form) (w : World) :
  share_owners (db w) !! pk = Some o →
  let n := Z.to_nat (ShareOwnershipCreateMultipleView.cleaned_num_shares form) in
  fault_within (n + 3) w = false →
  let r := ShareOwnershipCreateMultipleView.form_valid request pk form w in
  r.1 = inr (HttpResponseRedirect (get_info_absolute_url (pk, o))) ∧
  db r.2 = batch_committed request (pk, o) form (today w) (db w) ∧
  outbox r.2 =
    (outbox w ++
       [{| email_template :=
             ExtraSharesConfirmationEmail
               (ShareOwnershipCreateMultipleView.cleaned_num_shares form) pk;
           email_actor := user_pk (user request);
           email_recipient := ToShareOwner pk |}])%list ∧
  size (share_ownerships (db r.2)) = (size (share_ownerships (db w)) + n)%nat ∧
  (∀ k so, share_ownerships (db w) !! k = Some so →
           share_ownerships (db r.2) !! k = Some so) ∧
  (∀ k so, share_ownerships (db r.2) !! k = Some so →
           share_ownerships (db w) !! k = None →
           so = {| owner := pk; amount_paid := 0;
                   start_date :=
                     ShareOwnershipCreateMultipleView.cleaned_start_date form;
                   end_date :=
                     ShareOwnershipCreateMultipleView.cleaned_end_date form |}).
Proof.
  intros Ho n Hf r.
  assert (Hrun : r.1 = inr (HttpResponseRedirect (get_info_absolute_url (pk, o))) ∧
                 db r.2 = batch_committed request (pk, o) form (today w) (db w) ∧
                 outbox r.2 =
                   (outbox w ++
                      [{| email_template :=
                            ExtraSharesConfirmationEmail
                              (ShareOwnershipCreateMultipleView.cleaned_num_shares form) pk;
                          email_actor := user_pk (user request);
                          email_recipient := ToShareOwner pk |}])%list).
  { subst r. unfold fault_within in Hf.
    unfold ShareOwnershipCreateMultipleView.form_valid,
      ShareOwnershipCreateMultipleView.get_success_url,
      ShareOwnershipCreateMultipleView.get_share_owner, get_object_or_404,
      LogEntry_save, ExtraSharesForAccountingRecap_objects_create, send_mail,
      batch_committed.
    fold n. destruct w as [d ob rd t fs]. cbn in Hf, Ho.
    replace (n + 3)%nat with (S (n + 2)) in Hf by lia.
    apply no_fault_S in Hf as [Hfs Hf].
    apply no_fault_drop in Hf as Hf2.
    apply (no_fault_le n) in Hf; [|lia].
    assert (Hfor : ∀ d' fs', existsb id (take n fs') = false →
              for_range n
                (ShareOwnership_objects_create
                   {| owner := pk; amount_paid := 0;
                      start_date :=
                        ShareOwnershipCreateMultipleView.cleaned_start_date form;
                      end_date :=
                        ShareOwnershipCreateMultipleView.cleaned_end_date form |})
                {| db := d'; outbox := ob; rendered := rd; today := t;
                   faults := fs' |}
              = (inr tt,
                 {| db := set_share_ownerships
                            (insert_fresh n
                               {| owner := pk; amount_paid := 0;
                                  start_date :=
                                    ShareOwnershipCreateMultipleView.cleaned_start_date form;
                                  end_date :=
                                    ShareOwnershipCreateMultipleView.cleaned_end_date form |}
                               (share_ownerships d')) d';
                    outbox := ob; rendered := rd; today := t;
                    faults := drop n fs' |})).
    { intros d' fs' Hno.
      pose proof (for_range_create_run n
                    {| owner := pk; amount_paid := 0;
                       start_date :=
                         ShareOwnershipCreateMultipleView.cleaned_start_date form;
                       end_date :=
                         ShareOwnershipCreateMultipleView.cleaned_end_date form |}
                    d' ob rd t fs') as H.
      cbn zeta in H. by rewrite Hno in H. }
    destruct Hfs as [->|[fs' ->]].
    - run. rewrite Ho. cbn. unfold set_db. cbn.
      rewrite Hfor by (by rewrite take_nil).
      cbn. rewrite drop_nil. cbn. rewrite Ho. done.
    - cbn in Hf, Hf2. rewrite drop_0 in Hf. rewrite drop_0 in Hf2.
      run. rewrite Ho. cbn. unfold set_db. cbn.
      rewrite Hfor by done. cbn.
      destruct (drop n fs') as [|b1 [|b2 rest]] eqn:Hd; cbn in Hf2.
      + cbn. rewrite Ho. done.
      + destruct b1; cbn in Hf2; [discriminate|]. cbn. rewrite Ho. done.
      + destruct b1, b2; cbn in Hf2; try discriminate.
        cbn. rewrite Ho. done. }
  destruct Hrun as (H1 & H2 & H3).
  split; [done|]. split; [done|]. split; [done|].
  rewrite H2. unfold batch_committed. cbn. fold n.
  split; [apply insert_fresh_size|]. split.
  - intros k so Hk. by apply insert_fresh_lookup_old.
  - intros k so Hk Hnone. apply insert_fresh_lookup in Hk as [Hk|[_ ->]]; [|done].
    congruence.
Qed.

Lemma fault_at (n : nat) (fs : list bool) :
  existsb id (take (n + 1) fs) = true → existsb id (take n fs) = false →
  ∃ rest, drop n fs = true :: rest.
Proof.
  revert fs. induction n as [|n IH]; intros fs Ht Hf.
  - destruct fs as [|[] fs]; cbn in Ht; try discriminate. eauto.
  - destruct fs as [|[] fs]; cbn in Ht, Hf; try discriminate.
    cbn. by apply IH.
Qed.

(** X2. A batch in which one of the writes fails (the log entry, one of the
    [n] shares or the accounting recap): the request raises the store error,
    the store is what it was before the request and no mail is out. *)
Theorem batch_write_failure_leaves_nothing (request : Request) (pk : Z)
    (o : ShareOwner) (form : ShareOwnershipCreateMultipleView.Form) (w : World) :
  share_owners (db w) !! pk = Some o →
  let n := Z.to_nat (ShareOwnershipCreateMultipleView.cleaned_num_shares form) in
  fault_within (n + 2) w = true →
  let r := ShareOwnershipCreateMultipleView.form_valid request pk form w in
  r.1 = inl DatabaseError ∧ db r.2 = db w ∧ outbox r.2 = outbox w.
Proof.
  intros Ho n Hf r. subst r. unfold fault_within in Hf.
  unfold ShareOwnershipCreateMultipleView.form_valid,
    ShareOwnershipCreateMultipleView.get_success_url,
    ShareOwnershipCreateMultipleView.get_share_owner, get_object_or_404,
    LogEntry_save, ExtraSharesForAccountingRecap_objects_create, send_mail.
  fold n. destruct w as [d ob rd t fs]. cbn in Hf, Ho.
  replace (n + 2)%nat with (S (n + 1)) in Hf by lia.
  apply fault_S in Hf as [[fs' ->]|(fs' & -> & Hf)].
  - run. rewrite Ho. cbn. done.
  - run. rewrite Ho. cbn. unfold set_db. cbn.
    match goal with
    | |- context [for_range n (ShareOwnership_objects_create ?so)
                    {| db := ?d'; outbox := _; rendered := _; today := _;
                       faults := _ |}] =>
        pose proof (for_range_create_run n so d' ob rd t fs') as Hfor
    end.
    cbn zeta in Hfor.
    destruct (existsb id (take n fs')) eqn:Hn.
    + destruct Hfor as (d' & fs'' & ->). cbn. done.
    + rewrite Hfor. cbn.
      destruct (fault_at n fs' Hf Hn) as [rest ->]. cbn. done.
Qed.

(** ** More of the theorems at work on the sample store *)

Lemma batch_creates_exactly_n_shares_witness :
  let o := Sample.person "Ada" "Smith" "ada@example.org" in
  let request := Sample.request POST ["coop.manage"] [] in
  share_owners (db (Sample.world [])) !! 2 = Some o ∧
  let r := ShareOwnershipCreateMultipleView.form_valid request 2 two_shares
             (Sample.world []) in
  r.1 = inr (HttpResponseRedirect (url_shareowner_detail 2)) ∧
  size (share_ownerships (db r.2)) = 5%nat.
Proof.
  split; [reflexivity|].
  destruct (batch_creates_exactly_n_shares
              (Sample.request POST ["coop.manage"] []) 2
              (Sample.person "Ada" "Smith" "ada@example.org") two_shares
              (Sample.world []) eq_refl eq_refl) as (H1 & _ & _ & H4 & _).
  split; [exact H1 | exact H4].
Defined.

Lemma batch_write_failure_leaves_nothing_witness :
  let w := Sample.world [false; false; true] in
  fault_within 4 w = true ∧
  let r := ShareOwnershipCreateMultipleView.form_valid
             (Sample.request POST ["coop.manage"] []) 2 two_shares w in
  r.1 = inl DatabaseError ∧ db r.2 = db w ∧ outbox r.2 = outbox w.
Proof.
  split; [reflexivity|].
  exact (batch_write_failure_leaves_nothing
           (Sample.request POST ["coop.manage"] []) 2
           (Sample.person "Ada" "Smith" "ada@example.org") two_shares
           (Sample.world [false; false; true]) eq_refl eq_refl).
Defined.

(** X23. A batch whose writes all go through and whose mail dispatch
    fails: the request raises the mail error and no mail is out, yet the
    batch stays in the store, with its log entry and its accounting recap.
    The mail is dispatched after the transaction is over. *)
Theorem batch_mail_failure_after_commit (request : Request) (pk : Z)
    (o : ShareOwner) (form : ShareOwnershipCreateMultipleView.Form)
    (w : World) (rest : list bool) :
  share_owners (db w) !! pk = Some o →
  let n := Z.to_nat (ShareOwnershipCreateMultipleView.cleaned_num_shares form) in
  faults w = (false :: replicate n false ++ false :: true :: rest)%list →
  let r := ShareOwnershipCreateMultipleView.form_valid request pk form w in
  r.1 = inl SMTPException ∧
  outbox r.2 = outbox w ∧
  log_entries (db r.2) =
    (log_entries (db w) ++
       [CreateShareOwnershipsLogEntry_populate
          (ShareOwnershipCreateMultipleView.cleaned_num_shares form)
          (ShareOwnershipCreateMultipleView.cleaned_start_date form)
          (ShareOwnershipCreateMultipleView.cleaned_end_date form)
          (user request) (so_user o) pk])%list ∧
  accounting_recaps (db r.2) =
    (accounting_recaps (db w) ++
       [{| recap_member := pk;
           recap_number_of_shares :=
             ShareOwnershipCreateMultipleView.cleaned_num_shares form;
           recap_date := today w |}])%list.
Proof. apply batch_mail_failure_keeps_commit. Qed.

Lemma batch_mail_failure_after_commit_witness :
  let w := Sample.world [false; false; false; false; true] in
  let r := ShareOwnershipCreateMultipleView.form_valid
             (Sample.request POST ["coop.manage"] []) 2 two_shares w in
  r.1 = inl SMTPException ∧ outbox r.2 = [] ∧
  length (log_entries (db r.2)) = 1%nat ∧
  length (accounting_recaps (db r.2)) = 1%nat.
Proof.
  destruct (batch_mail_failure_after_commit
              (Sample.request POST ["coop.manage"] []) 2
              (Sample.person "Ada" "Smith" "ada@example.org") two_shares
              (Sample.world [false; false; false; false; true]) []
              eq_refl eq_refl) as (H1 & H2 & H3 & H4).
  split; [exact H1|]. split; [exact H2|]. split.
  - exact (eq_trans (f_equal length H3) eq_refl).
  - exact (eq_trans (f_equal length H4) eq_refl).
Defined.

(** ** Share owners *)

Lemma freeze_share_owner_inj a b :
  freeze_share_owner a = freeze_share_owner b → a = b.
Proof.
  intros H. destruct a as [i [u [f l e p s pc c co pl] cn ic ii aw rz pf wg]].
  destruct b as [i' [u' [f' l' e' p' s' pc' c' co' pl'] cn' ic' ii' aw' rz' pf' wg']].
  unfold freeze_share_owner in H. cbn in H.
  pose proof (f_equal (.!! "id") H) as H1.
  pose proof (f_equal (.!! "user") H) as H2.
  pose proof (f_equal (.!! "first_name") H) as H3.
  pose proof (f_equal (.!! "last_name") H) as H4.
  pose proof (f_equal (.!! "email") H) as H5.
  pose proof (f_equal (.!! "phone_number") H) as H6.
  pose proof (f_equal (.!! "street") H) as H7.
  pose proof (f_equal (.!! "postcode") H) as H8.
  pose proof (f_equal (.!! "city") H) as H9.
  pose proof (f_equal (.!! "country") H) as H10.
  pose proof (f_equal (.!! "preferred_language") H) as H11.
  pose proof (f_equal (.!! "company_name") H) as H12.
  pose proof (f_equal (.!! "is_company") H) as H13.
  pose proof (f_equal (.!! "is_investing") H) as H14.
  pose proof (f_equal (.!! "attended_welcome_session") H) as H15.
  pose proof (f_equal (.!! "ratenzahlung") H) as H16.
  pose proof (f_equal (.!! "paid_membership_fee") H) as H17.
  pose proof (f_equal (.!! "willing_to_gift_a_share") H) as H18.
  clear H. vm_compute in H1, H2, H3, H4, H5, H6, H7, H8, H9, H10, H11, H12,
    H13, H14, H15, H16, H17, H18.
  destruct u, u', wg, wg'; simplify_eq; done.
Qed.

(** X3. Marking the welcome session of an existing owner that is not yet
    marked, past the guards: either both writes go through, and then the
    owner is stored with the flag set and every other field as before while
    the log grows by exactly one entry holding the snapshots before and
    after, which differ, or the request raises and the store is what it
    was. *)
Theorem mark_attended_sets_flag_and_logs (request : Request) (pk : Z)
    (o : ShareOwner) (w : World) :
  share_owners (db w) !! pk = Some o →
  attended_welcome_session o = false →
  method request = POST → csrf_ok request = true →
  has_perm (user request) "coop.manage" = true →
  let r := mark_shareowner_attended_welcome_session request pk w in
  let marked := set_attended_welcome_session true o in
  freeze_share_owner (pk, o) ≠ freeze_share_owner (pk, marked) ∧
  if fault_within 2 w
  then r.1 = inl DatabaseError ∧ db r.2 = db w
  else r.1 = inr (HttpResponseRedirect (get_absolute_url pk)) ∧
       share_owners (db r.2) = <[pk := marked]> (share_owners (db w)) ∧
       log_entries (db r.2) =
         (log_entries (db w) ++
            [UpdateShareOwnerLogEntry_populate
               (freeze_share_owner (pk, o)) (freeze_share_owner (pk, marked))
               pk (user request)])%list ∧
       share_ownerships (db r.2) = share_ownerships (db w) ∧
       tapir_users (db r.2) = tapir_users (db w).
Proof.
  intros Ho Ha Hm Hc Hp r marked. split.
  { intros H%freeze_share_owner_inj. injection H as H.
    apply (f_equal attended_welcome_session) in H. cbn in H. congruence. }
  subst r. unfold mark_shareowner_attended_welcome_session, require_POST,
    csrf_protect, permission_required, get_object_or_404, ShareOwner_save,
    LogEntry_save, fault_within.
  rewrite Hm, Hc, Hp. run. rewrite Ho.
  destruct w as [d ob rd t fs]. cbn in Ho.
  destruct fs as [|[] [|[] fs]]; cbn; rewrite ?Ho; cbn; done.
Qed.

Lemma share_owner_form_valid_spec (self : ShareOwnerUpdateView.View)
    (form : ShareOwnerUpdateView.Form) (w : World) :
  let r := ShareOwnerUpdateView.form_valid self form w in
  let inst := ShareOwnerUpdateView.form_instance self form in
  let same := bool_decide
    (ShareOwnerUpdateView.old_object_frozen self = freeze_share_owner inst) in
  if fault_within (if same then 1 else 2) w
  then r.1 = inl DatabaseError ∧ db r.2 = db w
  else r.1 = inr (HttpResponseRedirect (get_absolute_url inst.1)) ∧
       db r.2 = set_log_entries
                  (log_entries (db w) ++
                     (if same then []
                      else [UpdateShareOwnerLogEntry_populate
                              (ShareOwnerUpdateView.old_object_frozen self)
                              (freeze_share_owner inst) inst.1
                              (user (ShareOwnerUpdateView.self_request self))]))
                  (set_share_owners
                     (<[inst.1 := inst.2]> (share_owners (db w))) (db w)).
Proof.
  intros r inst same. subst r same.
  unfold ShareOwnerUpdateView.form_valid, ShareOwnerUpdateView.super_form_valid,
    ShareOwner_save, LogEntry_save, fault_within.
  fold inst.
  destruct w as [d o rd t fs].
  destruct (decide (ShareOwnerUpdateView.old_object_frozen self
                    = freeze_share_owner inst)) as [Heq|Hne].
  - rewrite (bool_decide_eq_true_2 _ Heq).
    rewrite (bool_decide_eq_false_2 (_ ≠ _)) by (intros ?; done).
    run. destruct fs as [|[] fs]; cbn; split; try reflexivity.
    all: destruct d; cbn; by rewrite ?app_nil_r.
  - rewrite (bool_decide_eq_false_2 _ Hne).
    rewrite (bool_decide_eq_true_2 (_ ≠ _)) by done.
    run. destruct fs as [|[] [|[] fs]]; cbn; split; try reflexivity.
Qed.

(** X4. A valid edit of an existing share owner by a user with
    [accounts.manage]: the instance of the form replaces the stored row, and
    the log grows by one entry holding both snapshots exactly when the
    instance differs from the stored row, by nothing when it is the same.
    When a write fails the request raises and the store is what it was. *)
Theorem share_owner_update_logged_iff_changed (request : Request) (pk : Z)
    (o : ShareOwner) (form : ShareOwnerUpdateView.Form) (w : World) :
  share_owners (db w) !! pk = Some o →
  has_perm (user request) "accounts.manage" = true →
  ShareOwnerUpdateView.is_valid form = true →
  let r := ShareOwnerUpdateView.post request pk form w in
  let after := ShareOwnerUpdateView.instance form in
  let identical := bool_decide (after = o) in
  if fault_within (if identical then 1 else 2) w
  then r.1 = inl DatabaseError ∧ db r.2 = db w
  else r.1 = inr (HttpResponseRedirect (get_absolute_url pk)) ∧
       share_owners (db r.2) = <[pk := after]> (share_owners (db w)) ∧
       log_entries (db r.2) =
         (log_entries (db w) ++
            (if identical then []
             else [UpdateShareOwnerLogEntry_populate
                     (freeze_share_owner (pk, o)) (freeze_share_owner (pk, after))
                     pk (user request)]))%list.
Proof.
  intros Ho Hperm Hvalid r after identical. subst r.
  unfold ShareOwnerUpdateView.post, PermissionRequiredMixin_dispatch,
    ShareOwnerUpdateView.get_object, get_object_or_404,
    ShareOwnerUpdateView.permission_required.
  rewrite Hperm, Hvalid. run. rewrite Ho.
  set (self := {| ShareOwnerUpdateView.self_request := request;
                  ShareOwnerUpdateView.self_object := (pk, o);
                  ShareOwnerUpdateView.old_object_frozen :=
                    freeze_share_owner (pk, o) |}).
  pose proof (share_owner_form_valid_spec self form w) as Hfv. cbn zeta in Hfv.
  change (ShareOwnerUpdateView.form_instance self form) with (pk, after) in Hfv.
  change (ShareOwnerUpdateView.old_object_frozen self)
    with (freeze_share_owner (pk, o)) in Hfv.
  change (ShareOwnerUpdateView.self_request self) with request in Hfv.
  assert (Hsame : bool_decide (freeze_share_owner (pk, o) = freeze_share_owner (pk, after))
                  = identical).
  { subst identical. destruct (decide (after = o)) as [->|Hne].
    - rewrite !bool_decide_eq_true_2; done.
    - rewrite (bool_decide_eq_false_2 (after = o)) by done.
      apply bool_decide_eq_false_2. intros H%freeze_share_owner_inj.
      apply Hne. by injection H. }
  rewrite Hsame in Hfv.
  destruct (fault_within _ w); [exact Hfv|].
  destruct Hfv as [-> ->]. cbn. done.
Qed.

Lemma mark_attended_sets_flag_and_logs_witness :
  let o := Sample.person "Ada" "Smith" "ada@example.org" in
  share_owners (db (Sample.world [])) !! 2 = Some o ∧
  attended_welcome_session o = false ∧
  let request := Sample.request POST ["coop.manage"] [] in
  let r := mark_shareowner_attended_welcome_session request 2 (Sample.world []) in
  r.1 = inr (HttpResponseRedirect (url_shareowner_detail 2)) ∧
  (attended_welcome_session <$> share_owners (db r.2) !! 2) = Some true ∧
  length (log_entries (db r.2)) = 1%nat.
Proof.
  split; [reflexivity|]. split; [reflexivity|].
  destruct (mark_attended_sets_flag_and_logs
              (Sample.request POST ["coop.manage"] []) 2
              (Sample.person "Ada" "Smith" "ada@example.org")
              (Sample.world []) eq_refl eq_refl eq_refl eq_refl eq_refl)
    as [_ (H1 & H2 & H3 & _)].
  split; [exact H1|]. split.
  - exact (eq_trans
             (f_equal (λ t, attended_welcome_session <$> t !! 2) H2) eq_refl).
  - exact (eq_trans (f_equal length H3) eq_refl).
Defined.

Lemma share_owner_update_logged_iff_changed_witness :
  share_owners (db (Sample.world [])) !! 3 = Some Sample.company ∧
  let request := Sample.request POST ["accounts.manage"] [] in
  let form := {| ShareOwnerUpdateView.is_valid := true;
                 ShareOwnerUpdateView.instance := Sample.company |} in
  let r := ShareOwnerUpdateView.post request 3 form (Sample.world []) in
  r.1 = inr (HttpResponseRedirect (url_shareowner_detail 3)) ∧
  log_entries (db r.2) = [].
Proof.
  split; [reflexivity|].
  destruct (share_owner_update_logged_iff_changed
              (Sample.request POST ["accounts.manage"] []) 3 Sample.company
              {| ShareOwnerUpdateView.is_valid := true;
                 ShareOwnerUpdateView.instance := Sample.company |}
              (Sample.world []) eq_refl eq_refl eq_refl) as (H1 & _ & H3).
  split; [exact H1 | exact H3].
Defined.

(** ** Granting a user account, continued *)

(** X5. The grant is all or nothing. With the owner in the store,
    [form_valid] either performs its three writes and dispatches the mail,
    leaving the new account, the linked and blanked owner, the relinked log
    and one mail in the outbox, or it raises and leaves both the store and
    the outbox as they were. Which of the two happens depends only on
    whether one of these four effects fails. *)
Theorem grant_all_or_nothing (request : Request) (pk : Z) (o : ShareOwner)
    (account : TapirUser) (w : World) :
  share_owners (db w) !! pk = Some o →
  let r := CreateUserFromShareOwnerView.form_valid request pk account w in
  let new_pk := fresh_pk (tapir_users (db w)) in
  if fault_within 4 w
  then (r.1 = inl DatabaseError ∨ r.1 = inl SMTPException) ∧
       db r.2 = db w ∧ outbox r.2 = outbox w
  else r.1 = inr (HttpResponseRedirect (url_user_detail new_pk)) ∧
       db r.2 =
         set_log_entries (map (relink_log_entry pk new_pk) (log_entries (db w)))
           (set_share_owners
              (<[pk := blank_info_fields (set_so_user (Some new_pk) o)]>
                 (share_owners (db w)))
              (set_tapir_users (<[new_pk := account]> (tapir_users (db w)))
                 (db w))) ∧
       outbox r.2 =
         (outbox w ++ [{| email_template := TapirAccountCreatedEmail new_pk;
                          email_actor := user_pk (user request);
                          email_recipient := ToTapirUser new_pk |}])%list.
Proof.
  intros Ho r new_pk. destruct (fault_within 4 w) eqn:Hf.
  - subst r new_pk.
    unfold CreateUserFromShareOwnerView.form_valid, TapirUser_save_new,
      CreateUserFromShareOwnerView.get_shareowner, get_object_or_404,
      ShareOwner_save, LogEntry_objects_relink, send_mail.
    unfold fault_within in Hf. destruct w as [d ob rd t fs]. cbn in Hf, Ho.
    destruct fs as [|[] [|[] [|[] [|[] fs]]]]; cbn in Hf; try discriminate;
      run; cbn; rewrite ?Ho; cbn; auto.
  - exact (grant_commits request pk o account w Ho Hf).
Qed.

Lemma relink_log_entry_spec (pk new_pk : Z) (e : LogEntry) :
  let e' := relink_log_entry pk new_pk e in
  log_share_owner e' ≠ Some pk ∧
  log_kind e' = log_kind e ∧ log_actor e' = log_actor e ∧
  log_before e' = log_before e ∧ log_after e' = log_after e ∧
  (log_share_owner e ≠ Some pk → e' = e) ∧
  (log_share_owner e = Some pk →
     log_user e' = Some new_pk ∧ log_share_owner e' = None).
Proof.
  unfold relink_log_entry. cbn zeta.
  destruct (decide (log_share_owner e = Some pk)) as [Heq|Hne].
  - rewrite (bool_decide_eq_true_2 _ Heq). cbn. repeat split; try done.
  - rewrite (bool_decide_eq_false_2 _ Hne). repeat split; try done.
Qed.

(** X6. A committed grant hands the owner's past over to the account: the
    log keeps its length and its order, no entry refers to the owner any
    more, an entry that referred to the owner now refers to the new account
    with its kind, actor and snapshots untouched, and every other entry is
    as it was. *)
Theorem grant_relinks_log_entries (request : Request) (pk : Z)
    (o : ShareOwner) (account : TapirUser) (w : World) :
  share_owners (db w) !! pk = Some o →
  fault_within 4 w = false →
  let r := CreateUserFromShareOwnerView.form_valid request pk account w in
  let new_pk := fresh_pk (tapir_users (db w)) in
  let old := log_entries (db w) in
  let new := log_entries (db r.2) in
  length new = length old ∧
  Forall (λ e, log_share_owner e ≠ Some pk) new ∧
  (∀ i e, old !! i = Some e → log_share_owner e ≠ Some pk → new !! i = Some e) ∧
  (∀ i e, old !! i = Some e → log_share_owner e = Some pk →
     ∃ e', new !! i = Some e' ∧
           log_user e' = Some new_pk ∧ log_share_owner e' = None ∧
           log_kind e' = log_kind e ∧ log_actor e' = log_actor e ∧
           log_before e' = log_before e ∧ log_after e' = log_after e).
Proof.
  intros Ho Hf r new_pk old new.
  pose proof (grant_commits request pk o account w Ho Hf) as (_ & Hdb & _).
  fold r new_pk in Hdb. subst new old. rewrite Hdb. cbn.
  split; [apply length_map|]. split.
  { apply Forall_forall. intros e He.
    apply list_elem_of_In, in_map_iff in He as (e0 & <- & _).
    apply relink_log_entry_spec. }
  split.
  - intros i e Hi Hne. rewrite list_lookup_fmap_Some. exists e.
    split; [|done]. symmetry. by apply relink_log_entry_spec.
  - intros i e Hi Heq. exists (relink_log_entry pk new_pk e).
    pose proof (relink_log_entry_spec pk new_pk e) as (_ & ? & ? & ? & ? & _ & H).
    destruct (H Heq). split; [|done].
    rewrite list_lookup_fmap_Some. by exists e.
Qed.

(** X7. The grant view changes nothing unless it is asked by a permitted
    POST with a valid form for an owner in the store: an unknown owner, a GET,
    a user without [coop.manage] or an invalid form leave the whole world as
    it was. *)
Theorem create_user_dispatch_no_effect (request : Request) (pk : Z)
    (form : CreateUserFromShareOwnerView.Form) (w : World) :
  share_owners (db w) !! pk = None ∨ method request = GET ∨
  has_perm (user request) "coop.manage" = false ∨
  CreateUserFromShareOwnerView.is_valid form = false →
  (CreateUserFromShareOwnerView.dispatch request pk form w).2 = w.
Proof.
  intros H.
  unfold CreateUserFromShareOwnerView.dispatch,
    CreateUserFromShareOwnerView.get_form_kwargs,
    CreateUserFromShareOwnerView.get_shareowner, get_object_or_404,
    PermissionRequiredMixin_dispatch,
    CreateUserFromShareOwnerView.permission_required.
  run. destruct (share_owners (db w) !! pk) as [o|] eqn:Ho; [|done]. cbn.
  destruct (bool_decide (so_user o ≠ None)); [done|].
  destruct (is_company o); [done|].
  destruct (has_perm (user request) "coop.manage") eqn:Hp.
  - rewrite Ho. cbn.
    destruct (method request) eqn:Hm; [done|].
    destruct (CreateUserFromShareOwnerView.is_valid form) eqn:Hv; [|done].
    destruct H as [|[|[|]]]; discriminate.
  - by destruct (is_authenticated (user request)).
Qed.

Lemma grant_all_or_nothing_witness :
  let o := Sample.person "Ada" "Smith" "ada@example.org" in
  let w := Sample.world [false; true] in
  share_owners (db w) !! 2 = Some o ∧
  let r := CreateUserFromShareOwnerView.form_valid
             (Sample.request POST ["coop.manage"] []) 2
             CreateUserFromShareOwnerView.TapirUser_new w in
  (r.1 = inl DatabaseError ∨ r.1 = inl SMTPException) ∧
  db r.2 = db w ∧ outbox r.2 = outbox w.
Proof.
  split; [reflexivity|].
  exact (grant_all_or_nothing
           (Sample.request POST ["coop.manage"] []) 2
           (Sample.person "Ada" "Smith" "ada@example.org")
           CreateUserFromShareOwnerView.TapirUser_new
           (Sample.world [false; true]) eq_refl).
Defined.

(** ** Confirmation documents, continued *)

Lemma document_view_read_only (kind : DocumentKind) (view : View) :
  (view = shareowner_membership_confirmation ∧ kind = MembershipConfirmation) ∨
  (view = shareowner_extra_shares_confirmation ∧ kind = ExtraSharesConfirmation) →
  ∀ request pk w,
    let r := view request pk w in
    db r.2 = db w ∧ outbox r.2 = outbox w ∧ faults r.2 = faults w ∧
    today r.2 = today w ∧
    ((rendered r.2 = rendered w ∧
      ∀ filename pdf, r.1 ≠ inr (HttpResponsePdf filename pdf)) ∨
     ∃ filename doc,
       r.1 = inr (HttpResponsePdf filename doc) ∧
       rendered r.2 = (rendered w ++ [doc])%list ∧
       doc_kind doc = kind ∧ doc_owner doc = pk ∧
       is_Some (share_owners (db w) !! pk)).
Proof.
  intros [[-> ->]|[-> ->]] request pk w r; subst r;
    unfold shareowner_membership_confirmation,
      shareowner_extra_shares_confirmation, require_GET, permission_required,
      get_object_or_404, get_shareowner_membership_confirmation_pdf,
      get_confirmation_extra_shares_pdf, render_pdf, lift.
  all: destruct (method request); run;
    [|by repeat split; try left; try split; intros; try discriminate].
  all: destruct (has_perm (user request) "coop.manage"); run;
    [|by repeat split; try left; try split; intros; try discriminate].
  all: destruct (share_owners (db w) !! pk) as [o|] eqn:Ho; run;
    [|by repeat split; try left; try split; intros; try discriminate].
  all: destruct (query request !! "num_shares") as [n|]; run;
    try (by repeat split; try left; try split; intros; try discriminate).
  all: destruct (query request !! "date") as [v|]; run;
    try (by repeat split; try left; try split; intros; try discriminate).
  all: try destruct (strptime_dmY v) as [e|dt]; run;
    try (by repeat split; try left; try split; intros; try discriminate).
  all: repeat split; right; eexists _, _; repeat split; eauto.
Qed.

(** X8. The two confirmation views only read. Whatever the request, the
    store, the outbox and the clock are untouched; either no document is
    generated and the answer is not a PDF, or exactly one document is
    generated, of the kind of the view and for the owner asked for, who is
    in the store, and that document is the one returned. *)
Theorem confirmation_views_read_only (request : Request) (pk : Z) (w : World) :
  (let r := shareowner_membership_confirmation request pk w in
   db r.2 = db w ∧ outbox r.2 = outbox w ∧ faults r.2 = faults w ∧
   today r.2 = today w ∧
   ((rendered r.2 = rendered w ∧
     ∀ filename pdf, r.1 ≠ inr (HttpResponsePdf filename pdf)) ∨
    ∃ filename doc,
      r.1 = inr (HttpResponsePdf filename doc) ∧
      rendered r.2 = (rendered w ++ [doc])%list ∧
      doc_kind doc = MembershipConfirmation ∧ doc_owner doc = pk ∧
      is_Some (share_owners (db w) !! pk))) ∧
  (let r := shareowner_extra_shares_confirmation request pk w in
   db r.2 = db w ∧ outbox r.2 = outbox w ∧ faults r.2 = faults w ∧
   today r.2 = today w ∧
   ((rendered r.2 = rendered w ∧
     ∀ filename pdf, r.1 ≠ inr (HttpResponsePdf filename pdf)) ∨
    ∃ filename doc,
      r.1 = inr (HttpResponsePdf filename doc) ∧
      rendered r.2 = (rendered w ++ [doc])%list ∧
      doc_kind doc = ExtraSharesConfirmation ∧ doc_owner doc = pk ∧
      is_Some (share_owners (db w) !! pk))).
Proof.
  split.
  - apply (document_view_read_only MembershipConfirmation). by left.
  - apply (document_view_read_only ExtraSharesConfirmation). by right.
Qed.

Lemma is_decimal_digit_value (c : ascii) :
  is_decimal c = true → 0 ≤ digit_value c ≤ 9.
Proof.
  unfold is_decimal, digit_value. rewrite andb_true_iff, !Z.leb_le. lia.
Qed.

Lemma parse_day_range (tok : string) (v : Z) :
  parse_day tok = Some v → 1 ≤ v ≤ 31.
Proof.
  unfold parse_day. destruct tok as [|a [|b [|c tok]]]; try discriminate.
  - destruct (is_decimal a) eqn:Ha; cbn; [|discriminate].
    destruct (Z.leb_spec 1 (digit_value a)); [|discriminate].
    intros [= <-]. apply is_decimal_digit_value in Ha. lia.
  - destruct (is_decimal a) eqn:Ha, (is_decimal b) eqn:Hb; cbn;
      try discriminate.
    + destruct (Z.leb_spec 1 (10 * digit_value a + digit_value b)); cbn;
        [|discriminate].
      destruct (Z.leb_spec (10 * digit_value a + digit_value b) 31);
        [|discriminate].
      intros [= <-]. lia.
    + destruct (code a =? 32); cbn; discriminate.
    + destruct (code a =? 32); cbn; [|discriminate].
      destruct (Z.leb_spec 1 (digit_value b)); [|discriminate].
      intros [= <-]. apply is_decimal_digit_value in Hb. lia.
    + destruct (code a =? 32); cbn; discriminate.
Qed.

Lemma parse_month_range (tok : string) (v : Z) :
  parse_month tok = Some v → 1 ≤ v ≤ 12.
Proof.
  unfold parse_month. destruct tok as [|a [|b [|c tok]]]; try discriminate.
  - destruct (is_decimal a) eqn:Ha; cbn; [|discriminate].
    destruct (Z.leb_spec 1 (digit_value a)); [|discriminate].
    intros [= <-]. apply is_decimal_digit_value in Ha. lia.
  - destruct (is_decimal a) eqn:Ha, (is_decimal b) eqn:Hb; cbn;
      try discriminate.
    destruct (Z.leb_spec 1 (10 * digit_value a + digit_value b)); cbn;
      [|discriminate].
    destruct (Z.leb_spec (10 * digit_value a + digit_value b) 12);
      [|discriminate].
    intros [= <-]. lia.
Qed.

Lemma parse_year_range (tok : string) (v : Z) :
  parse_year tok = Some v → 0 ≤ v ≤ 9999.
Proof.
  unfold parse_year.
  destruct tok as [|a [|b [|c [|d [|e tok]]]]]; cbn; try discriminate.
  destruct (is_decimal a) eqn:Ha, (is_decimal b) eqn:Hb,
    (is_decimal c) eqn:Hc, (is_decimal d) eqn:Hd; cbn; try discriminate.
  intros [= <-]. unfold decimal_value. cbn.
  apply is_decimal_digit_value in Ha, Hb, Hc, Hd. lia.
Qed.

(** X9. Whatever string the date override holds, a date that
    [strptime] returns is a date of the calendar: year from 1 to 9999, month
    from 1 to 12, day from 1 to the length of that month in that year. *)
Theorem strptime_returns_calendar_dates (s : string) (d : date) :
  strptime_dmY s = inr d →
  1 ≤ year d ≤ 9999 ∧ 1 ≤ month d ≤ 12 ∧
  1 ≤ day d ≤ days_in_month (year d) (month d) ∧
  valid_date d = true.
Proof.
  intros H. unfold strptime_dmY in H.
  destruct (split_on "." s) as [|td [|tm [|ty [|? ?]]]]; try discriminate.
  destruct (parse_day td) as [dd|] eqn:Hd; [|discriminate].
  destruct (parse_month tm) as [mm|] eqn:Hm; [|discriminate].
  destruct (parse_year ty) as [yy|] eqn:Hy; [|discriminate].
  apply parse_day_range in Hd. apply parse_month_range in Hm.
  apply parse_year_range in Hy.
  destruct (Z.ltb_spec yy 1); [discriminate|].
  destruct (Z.ltb_spec (days_in_month yy mm) dd); [discriminate|].
  injection H as <-. unfold valid_date. cbn.
  rewrite !andb_true_iff, !Z.leb_le. lia.
Qed.

Lemma strptime_returns_calendar_dates_witness :
  strptime_dmY "29.2.2024" = inr (Date 2024 2 29) ∧
  valid_date (Date 2024 2 29) = true.
Proof.
  split; [reflexivity|].
  exact (proj2 (proj2 (proj2 (strptime_returns_calendar_dates
                                "29.2.2024" (Date 2024 2 29) eq_refl)))).
Defined.

(** ** Roster filters, continued *)

Lemma elem_of_distinct_filter (p : Z * ShareOwner → bool) (qs : QuerySet) o :
  o ∈ distinct (List.filter p qs) ↔ o ∈ qs ∧ p o = true.
Proof.
  unfold distinct. rewrite elem_of_remove_dups, !list_elem_of_In, filter_In.
  tauto.
Qed.

Lemma elem_of_List_filter {A} (p : A → bool) (l : list A) x :
  x ∈ List.filter p l ↔ x ∈ l ∧ p x = true.
Proof. rewrite !list_elem_of_In, filter_In. tauto. Qed.

Lemma NoDup_List_filter {A} (p : A → bool) (l : list A) :
  NoDup l → NoDup (List.filter p l).
Proof.
  induction 1 as [|x l Hx Hnd IH]; cbn; [constructor|].
  destruct (p x); [|done]. constructor; [|done].
  rewrite elem_of_List_filter. tauto.
Qed.

(** X10. The account filter splits the candidates in two: asked for the
    owners with an account it returns exactly the candidates linked to one,
    asked for those without exactly the candidates linked to none, each
    once; every candidate is in one of the two results and in no more than
    one. *)
Theorem has_tapir_account_filter_partitions (qs : QuerySet) :
  NoDup (has_tapir_account_filter qs true) ∧
  NoDup (has_tapir_account_filter qs false) ∧
  (∀ o, o ∈ has_tapir_account_filter qs true ↔ o ∈ qs ∧ so_user o.2 ≠ None) ∧
  (∀ o, o ∈ has_tapir_account_filter qs false ↔ o ∈ qs ∧ so_user o.2 = None) ∧
  (∀ o, o ∈ qs →
     ((o ∈ has_tapir_account_filter qs true) ∧
      (o ∉ has_tapir_account_filter qs false)) ∨
     ((o ∉ has_tapir_account_filter qs true) ∧
      (o ∈ has_tapir_account_filter qs false))).
Proof.
  assert (Ht : ∀ o, o ∈ has_tapir_account_filter qs true
                    ↔ o ∈ qs ∧ so_user o.2 ≠ None).
  { intros o. unfold has_tapir_account_filter.
    rewrite elem_of_distinct_filter.
    destruct (decide (so_user o.2 = None)) as [He|Hne].
    - rewrite (bool_decide_eq_true_2 _ He). cbn. split; intros []; done.
    - rewrite (bool_decide_eq_false_2 _ Hne). cbn. tauto. }
  assert (Hf : ∀ o, o ∈ has_tapir_account_filter qs false
                    ↔ o ∈ qs ∧ so_user o.2 = None).
  { intros o. unfold has_tapir_account_filter.
    rewrite elem_of_distinct_filter.
    destruct (decide (so_user o.2 = None)) as [He|Hne].
    - rewrite (bool_decide_eq_true_2 _ He). cbn. tauto.
    - rewrite (bool_decide_eq_false_2 _ Hne). cbn. split; intros []; done. }
  split; [apply NoDup_remove_dups|]. split; [apply NoDup_remove_dups|].
  split; [exact Ht|]. split; [exact Hf|].
  intros o Ho. rewrite Ht, Hf.
  destruct (decide (so_user o.2 = None)); [right|left]; tauto.
Qed.

Lemma elem_of_join_share_ownerships shares (qs : QuerySet) o :
  o ∈ join_share_ownerships shares qs ↔
  o ∈ qs ∧ ∃ s, s ∈ shares ∧ owner s.2 = o.1.
Proof.
  unfold join_share_ownerships.
  rewrite list_elem_of_In, in_flat_map. split.
  - intros (o' & Ho' & Hin). apply in_map_iff in Hin as (s & <- & Hs).
    apply filter_In in Hs as [Hs Heq]. apply Z.eqb_eq in Heq.
    split; [by apply list_elem_of_In|]. exists s.
    split; [by apply list_elem_of_In|done].
  - intros (Ho & s & Hs & Heq). exists o.
    split; [by apply list_elem_of_In|]. apply in_map_iff. exists s.
    split; [done|]. apply filter_In.
    split; [by apply list_elem_of_In|by apply Z.eqb_eq].
Qed.

Lemma elem_of_exclude_share_ownerships shares (qs : QuerySet) o :
  o ∈ exclude_share_ownerships shares qs ↔
  o ∈ qs ∧ ∀ s, s ∈ shares → owner s.2 ≠ o.1.
Proof.
  unfold exclude_share_ownerships.
  rewrite elem_of_List_filter, negb_true_iff.
  split; intros [Ho H]; (split; [done|]).
  - intros s Hs Heq. apply not_true_iff_false in H. apply H.
    apply existsb_exists. exists s.
    split; [by apply list_elem_of_In|by apply Z.eqb_eq].
  - apply not_true_iff_false. intros He.
    apply existsb_exists in He as (s & Hs & Heq).
    apply (H s); [by apply list_elem_of_In|by apply Z.eqb_eq].
Qed.

(** X11. The unpaid-shares filter, for any share price: asked for the
    owners with unpaid shares it returns exactly the candidates owning a
    share on which less than the price is paid; asked for the others it
    returns exactly the candidates all of whose shares are paid in full,
    among them the candidates without any share. Each result holds an owner
    once, and every candidate is in exactly one of the two. *)
Theorem has_unpaid_shares_filter_partitions (price : Z) (d : Database)
    (qs : QuerySet) :
  let unpaid o :=
    ∃ k s, share_ownerships d !! k = Some s ∧ owner s = o.1 ∧
           amount_paid s < price in
  NoDup (has_unpaid_shares_filter price d qs true) ∧
  NoDup (has_unpaid_shares_filter price d qs false) ∧
  (∀ o, o ∈ has_unpaid_shares_filter price d qs true ↔ o ∈ qs ∧ unpaid o) ∧
  (∀ o, o ∈ has_unpaid_shares_filter price d qs false ↔ o ∈ qs ∧ ¬ unpaid o) ∧
  (∀ o, o ∈ qs →
     (∀ k s, share_ownerships d !! k = Some s → owner s ≠ o.1) →
     o ∈ has_unpaid_shares_filter price d qs false).
Proof.
  intros unpaid.
  assert (Hshares : ∀ o, o ∈ qs →
    ((∃ s, s ∈ List.filter
                 (λ s, (amount_paid s.2 <? price) &&
                       existsb (λ o, o.1 =? owner s.2) qs)
                 (map_to_list (share_ownerships d)) ∧ owner s.2 = o.1)
     ↔ unpaid o)).
  { intros o Ho. split.
    - intros ([k s] & Hs & Heq). apply elem_of_List_filter in Hs as [Hs Hp].
      apply elem_of_map_to_list in Hs. apply andb_true_iff in Hp as [Hp _].
      apply Z.ltb_lt in Hp. exists k, s. done.
    - intros (k & s & Hs & Heq & Hp). exists (k, s). split; [|done].
      apply elem_of_List_filter. split; [by apply elem_of_map_to_list|].
      apply andb_true_iff. split; [by apply Z.ltb_lt|].
      apply existsb_exists. exists o.
      split; [by apply list_elem_of_In|]. apply Z.eqb_eq. cbn. congruence. }
  assert (Ht : ∀ o, o ∈ has_unpaid_shares_filter price d qs true
                    ↔ o ∈ qs ∧ unpaid o).
  { intros o. unfold has_unpaid_shares_filter, distinct.
    rewrite elem_of_remove_dups, elem_of_join_share_ownerships.
    split; intros [Ho H]; (split; [done|]); by apply (Hshares o Ho). }
  assert (Hf : ∀ o, o ∈ has_unpaid_shares_filter price d qs false
                    ↔ o ∈ qs ∧ ¬ unpaid o).
  { intros o. unfold has_unpaid_shares_filter, distinct.
    rewrite elem_of_remove_dups, elem_of_exclude_share_ownerships.
    split; intros [Ho H]; (split; [done|]).
    - intros Hu. apply (Hshares o Ho) in Hu as (s & Hs & Heq).
      by apply (H s).
    - intros s Hs Heq. apply H. apply (Hshares o Ho). eauto. }
  split; [apply NoDup_remove_dups|]. split; [apply NoDup_remove_dups|].
  split; [exact Ht|]. split; [exact Hf|].
  intros o Ho Hnone. apply Hf. split; [done|].
  intros (k & s & Hs & Heq & _). by apply (Hnone k s).
Qed.

Lemma distinct_NoDup (l : QuerySet) : NoDup l → distinct l = l.
Proof.
  unfold distinct. induction 1 as [|o l Ho Hnd IH]; [done|].
  cbn. destruct (decide_rel elem_of o l); [done|]. by rewrite IH.
Qed.



(** X13. On a term that is not empty and over candidates without
    repetition, the welcome-desk search and the roster search give the same
    answer. *)
Theorem welcome_desk_search_agrees_with_roster (d : Database) (qs : QuerySet)
    (value : string) :
  value ≠ EmptyString → NoDup qs →
  ShareOwnerFilterWelcomeDesk.display_name_filter d qs value
  = ShareOwnerFilter.display_name_filter d qs value.
Proof.
  intros Hne Hnd. unfold ShareOwnerFilter.display_name_filter,
    ShareOwnerFilterWelcomeDesk.display_name_filter.
  rewrite (bool_decide_eq_false_2 _ Hne).
  destruct (isdigit value); [done|].
  f_equal. symmetry. apply distinct_NoDup. unfold with_name.
  by apply NoDup_List_filter.
Qed.


Lemma filter_id_narrows (n : Z) (qs : QuerySet) :
  filter_id n qs ⊆ qs ∧ (NoDup qs → NoDup (filter_id n qs)).
Proof.
  unfold filter_id. split.
  - intros o Ho. by apply elem_of_List_filter in Ho as [Ho _].
  - apply NoDup_List_filter.
Qed.

Lemma roster_display_name_filter_narrows :
  narrows ShareOwnerFilter.display_name_filter.
Proof.
  intros d qs value qs'. unfold ShareOwnerFilter.display_name_filter.
  destruct (isdigit value).
  - destruct (int value) as [e|n]; [discriminate|].
    intros [= <-]. apply filter_id_narrows.
  - intros [= <-]. split; [|intros _; apply NoDup_remove_dups].
    intros o Ho. unfold distinct, with_name in Ho.
    apply elem_of_remove_dups, elem_of_List_filter in Ho. tauto.
Qed.

Lemma welcome_desk_display_name_filter_narrows :
  narrows ShareOwnerFilterWelcomeDesk.display_name_filter.
Proof.
  intros d qs value qs'. unfold ShareOwnerFilterWelcomeDesk.display_name_filter.
  destruct (bool_decide (value = EmptyString)).
  { intros [= <-]. split; [|intros _; constructor].
    intros o Ho. by apply elem_of_nil in Ho. }
  destruct (isdigit value).
  - destruct (int value) as [e|n]; [discriminate|].
    intros [= <-]. apply filter_id_narrows.
  - intros [= <-]. unfold with_name. split; [|apply NoDup_List_filter].
    intros o Ho. apply elem_of_List_filter in Ho. tauto.
Qed.

Lemma FilterSet_qs_narrows (filters : FilterSet) (d : Database)
    (data : gmap string string) (qs l : QuerySet) :
  Forall (λ f, narrows f.2) filters →
  FilterSet_qs filters d data qs = inr l →
  l ⊆ qs ∧ (NoDup qs → NoDup l).
Proof.
  intros Hall. revert qs. induction Hall as [|[name method] filters Hm Hall IH];
    intros qs; cbn.
  { intros [= <-]. done. }
  destruct (data !! name) as [value|]; [|apply IH].
  destruct (bool_decide (value = EmptyString)); [apply IH|].
  destruct (method d qs value) as [e|qs'] eqn:Hq; [discriminate|].
  intros H. apply IH in H as [Hsub Hnd]. apply Hm in Hq as [Hsub' Hnd'].
  split; [|tauto]. intros o Ho. auto.
Qed.

(** X15. Filters that narrow compose into a filter set that narrows: when
    each declared filter returns only candidates, and without repetition
    when the candidates have none, so does the whole filter set, whatever
    the request parameters. The two name searches are such filters. For the
    roster list this makes the filtered count shown above the table a number
    between zero and the total count, and it makes every listed owner an
    owner of the store, listed once. *)
Theorem filtered_count_at_most_total (filterset_class : FilterSet)
    (request : Request) (d : Database) (object_list : QuerySet) :
  Forall (λ f, narrows f.2) filterset_class →
  FilterSet_qs filterset_class d (query request)
    (ShareOwnerListView.get_queryset d) = inr object_list →
  let context := ShareOwnerListView_get_context_data d object_list in
  (∃ filtered total,
     context !! "filtered_member_count" = Some filtered ∧
     context !! "total_member_count" = Some total ∧
     0 ≤ filtered ≤ total ∧ total = Z.of_nat (size (share_owners d))) ∧
  NoDup object_list ∧
  (∀ o, o ∈ object_list → share_owners d !! o.1 = Some o.2) ∧
  narrows ShareOwnerFilter.display_name_filter ∧
  narrows ShareOwnerFilterWelcomeDesk.display_name_filter.
Proof.
  intros Hall Hqs context.
  apply (FilterSet_qs_narrows _ _ _ _ _ Hall) in Hqs as [Hsub Hnd].
  specialize (Hnd (NoDup_map_to_list _)).
  unfold ShareOwnerListView.get_queryset in Hsub.
  split; [|split; [done|split; [|split]]].
  - exists (count object_list), (count (objects_all d)).
    split; [done|]. split; [done|]. unfold count. split.
    + pose proof (submseteq_length _ _ (NoDup_submseteq _ _ Hnd Hsub)). lia.
    + unfold objects_all. by rewrite length_map_to_list.
  - intros [k o] Ho. apply Hsub in Ho. by apply elem_of_map_to_list in Ho.
  - exact roster_display_name_filter_narrows.
  - exact welcome_desk_display_name_filter_narrows.
Qed.

(** ** The mailing list export *)

Lemma mailchimp_rows_spec (d : Database) (object_list : QuerySet) :
  ShareOwnerExportMailchimpView.rows d object_list
  = map (ShareOwnerExportMailchimpView.row d)
        (List.filter (λ o, negb (bool_decide (email (get_info d o) = EmptyString)))
                     object_list).
Proof.
  induction object_list as [|o rest IH]; [done|]. cbn.
  destruct (bool_decide (email (get_info d o) = EmptyString)); cbn; by rewrite IH.
Qed.

Lemma mailchimp_queryset_spec (d : Database) (now : date) (o : Z * ShareOwner) :
  o ∈ ShareOwnerExportMailchimpView.get_queryset d now ↔
  share_owners d !! o.1 = Some o.2 ∧ is_investing o.2 = false ∧
  ∃ k s, share_ownerships d !! k = Some s ∧ owner s = o.1 ∧
         is_active now s = true.
Proof.
  unfold ShareOwnerExportMailchimpView.get_queryset,
    ShareOwnerExportMailchimpView.CurrentShareOwnerMixin_get_queryset,
    ShareOwnerExportMailchimpView.active_temporal, distinct, objects_all.
  rewrite elem_of_List_filter, elem_of_remove_dups,
    elem_of_join_share_ownerships, negb_true_iff.
  destruct o as [pk o]. rewrite elem_of_map_to_list. cbn. split.
  - intros [[Ho ([k s] & Hs & Heq)] Hi]. split; [done|]. split; [done|].
    apply elem_of_List_filter in Hs as [Hs Ha].
    apply elem_of_map_to_list in Hs. eauto.
  - intros (Ho & Hi & k & s & Hs & Heq & Ha). split; [|done]. split; [done|].
    exists (k, s). split; [|done]. apply elem_of_List_filter.
    split; [by apply elem_of_map_to_list|done].
Qed.

(** X16. The mailing list export writes the header and then one row for
    each owner of its queryset that has an email address, in the order of
    the queryset, and none for the others. Its queryset holds, once each,
    exactly the owners of the store that are not investing and own a share
    active today. So every data row carries a non-empty address in its first
    column and has five columns, and its tag is empty or one of the two
    quoted language names. *)
Theorem mailchimp_export_rows (d : Database) (now : date) :
  let object_list := ShareOwnerExportMailchimpView.get_queryset d now in
  let csv := ShareOwnerExportMailchimpView.render_to_response d object_list in
  NoDup object_list ∧
  (∀ o, o ∈ object_list ↔
        share_owners d !! o.1 = Some o.2 ∧ is_investing o.2 = false ∧
        ∃ k s, share_ownerships d !! k = Some s ∧ owner s = o.1 ∧
               is_active now s = true) ∧
  csv = ShareOwnerExportMailchimpView.header ::
        map (ShareOwnerExportMailchimpView.row d)
            (List.filter
               (λ o, negb (bool_decide (email (get_info d o) = EmptyString)))
               object_list) ∧
  (∀ r, r ∈ tail csv →
        ∃ address first last street tag,
          r = [address; first; last; street; tag] ∧ address ≠ EmptyString ∧
          (tag = EmptyString ∨
           tag = ShareOwnerExportMailchimpView.quote ++ "Deutsch"
                 ++ ShareOwnerExportMailchimpView.quote ∨
           tag = ShareOwnerExportMailchimpView.quote ++ "English"
                 ++ ShareOwnerExportMailchimpView.quote)).
Proof.
  intros object_list csv. split.
  { subst object_list. unfold ShareOwnerExportMailchimpView.get_queryset.
    apply NoDup_List_filter. apply NoDup_remove_dups. }
  split; [intros o; apply mailchimp_queryset_spec|].
  assert (Hcsv : csv = ShareOwnerExportMailchimpView.header ::
            map (ShareOwnerExportMailchimpView.row d)
                (List.filter
                   (λ o, negb (bool_decide (email (get_info d o) = EmptyString)))
                   object_list)).
  { subst csv. unfold ShareOwnerExportMailchimpView.render_to_response.
    by rewrite mailchimp_rows_spec. }
  split; [exact Hcsv|].
  intros r Hr. rewrite Hcsv in Hr. cbn [tail] in Hr.
  apply list_elem_of_In, in_map_iff in Hr as (o & <- & Ho).
  apply filter_In in Ho as [_ He].
  apply negb_true_iff, bool_decide_eq_false in He.
  unfold ShareOwnerExportMailchimpView.row. eexists _, _, _, _, _.
  split; [reflexivity|]. split; [done|].
  unfold ShareOwnerExportMailchimpView.lang_tag. cbn zeta.
  destruct (bool_decide (preferred_language (get_info d o) = "en")); [auto|].
  destruct (bool_decide (preferred_language (get_info d o) = "de")); auto.
Qed.

(** ** The matching program *)

Lemma date_leb_total (a b : date) : date_leb a b = true ∨ date_leb b a = true.
Proof.
  unfold date_leb.
  destruct (Z.ltb_spec (year a) (year b)), (Z.ltb_spec (year b) (year a)),
    (Z.eqb_spec (year a) (year b)), (Z.eqb_spec (year b) (year a)),
    (Z.ltb_spec (month a) (month b)), (Z.ltb_spec (month b) (month a)),
    (Z.eqb_spec (month a) (month b)), (Z.eqb_spec (month b) (month a)),
    (Z.leb_spec (day a) (day b)), (Z.leb_spec (day b) (day a));
    cbn; auto; lia.
Qed.

Lemma gift_le_total : Total MatchingProgram.gift_le.
Proof.
  intros a b. unfold MatchingProgram.gift_le.
  destruct (willing_to_gift_a_share a.2), (willing_to_gift_a_share b.2); auto.
  apply date_leb_total.
Qed.

Lemma date_leb_spec (a b : date) :
  date_leb a b = true ↔
  year a < year b ∨
  (year a = year b ∧ (month a < month b ∨ (month a = month b ∧ day a ≤ day b))).
Proof.
  unfold date_leb.
  rewrite orb_true_iff, andb_true_iff, orb_true_iff, andb_true_iff,
    !Z.ltb_lt, !Z.eqb_eq, Z.leb_le. tauto.
Qed.

Lemma gift_le_trans : Transitive MatchingProgram.gift_le.
Proof.
  intros a b c. unfold MatchingProgram.gift_le.
  destruct (willing_to_gift_a_share a.2), (willing_to_gift_a_share b.2),
    (willing_to_gift_a_share c.2); try done.
  rewrite !date_leb_spec. lia.
Qed.

Lemma StronglySorted_lookup_lt {A} (R : relation A) (l : list A) :
  StronglySorted R l →
  ∀ i j a b, (i < j)%nat → l !! i = Some a → l !! j = Some b → R a b.
Proof.
  induction 1 as [|x l Hs IH Hall]; intros i j a b Hlt Hi Hj.
  - by rewrite lookup_nil in Hi.
  - destruct j as [|j]; [lia|]. cbn in Hj.
    destruct i as [|i]; cbn in Hi.
    + injection Hi as <-. rewrite Forall_forall in Hall. apply Hall.
      apply list_elem_of_lookup. eauto.
    + apply (IH i j); [lia|done|done].
Qed.

(** X17. The matching program lists exactly the owners of the store that
    are willing to gift a share, each once, and lists them by the date since
    which they are willing: of two rows, the earlier one never has the
    later date. *)
Theorem matching_program_sorted_by_date (d : Database) :
  let l := MatchingProgram.get_queryset d in
  NoDup l ∧
  (∀ o, o ∈ l ↔ share_owners d !! o.1 = Some o.2 ∧
                 willing_to_gift_a_share o.2 ≠ None) ∧
  (∀ i j a b, (i < j)%nat → l !! i = Some a → l !! j = Some b →
     ∃ x y, willing_to_gift_a_share a.2 = Some x ∧
            willing_to_gift_a_share b.2 = Some y ∧
            date_leb x y = true).
Proof.
  intros l. subst l. unfold MatchingProgram.get_queryset.
  set (willing := List.filter _ _).
  pose proof (merge_sort_Permutation MatchingProgram.gift_le willing) as Hp.
  assert (Hmem : ∀ o, o ∈ merge_sort MatchingProgram.gift_le willing ↔
                      share_owners d !! o.1 = Some o.2 ∧
                      willing_to_gift_a_share o.2 ≠ None).
  { intros [k o]. rewrite Hp. subst willing.
    rewrite elem_of_List_filter, negb_true_iff, bool_decide_eq_false.
    unfold objects_all. by rewrite elem_of_map_to_list. }
  split.
  { rewrite Hp. subst willing. apply NoDup_List_filter, NoDup_map_to_list. }
  split; [exact Hmem|].
  intros i j a b Hlt Hi Hj.
  pose proof gift_le_total as Htotal. pose proof gift_le_trans as Htrans.
  pose proof (StronglySorted_lookup_lt _ _
                (StronglySorted_merge_sort MatchingProgram.gift_le willing)
                i j a b Hlt Hi Hj) as Hle.
  assert (Ha : a ∈ merge_sort MatchingProgram.gift_le willing)
    by (apply list_elem_of_lookup; eauto).
  assert (Hb : b ∈ merge_sort MatchingProgram.gift_le willing)
    by (apply list_elem_of_lookup; eauto).
  apply Hmem in Ha as [_ Ha]. apply Hmem in Hb as [_ Hb].
  unfold MatchingProgram.gift_le in Hle.
  destruct (willing_to_gift_a_share a.2) as [x|]; [|done].
  destruct (willing_to_gift_a_share b.2) as [y|]; [|done].
  eauto.
Qed.

(** X18. What the matching-program table prints for an owner reads back:
    the text printed for a calendar date from the year 1000 on parses, with
    the parser of the confirmation views, to that very date; the text
    printed for an owner who is not willing to gift a share parses to no
    date at all. *)
Theorem matching_program_date_reads_back (record : Z * ShareOwner) (d : date) :
  willing_to_gift_a_share record.2 = Some d →
  valid_date d = true → 1000 ≤ year d →
  strptime_dmY (MatchingProgram.render_willing_to_gift_a_share record) = inr d ∧
  ∀ other : Z * ShareOwner,
    willing_to_gift_a_share other.2 = None →
    MatchingProgram.render_willing_to_gift_a_share other
    ≠ MatchingProgram.render_willing_to_gift_a_share record ∧
    ∃ e, strptime_dmY (MatchingProgram.render_willing_to_gift_a_share other)
         = inl e.
Proof.
  intros Hw Hv _. unfold MatchingProgram.render_willing_to_gift_a_share.
  rewrite Hw. pose proof (strptime_strftime d Hv) as Hrt.
  split; [exact Hrt|].
  intros other ->. split; [|eexists; reflexivity].
  intros Heq. rewrite <- Heq in Hrt. discriminate.
Qed.

(** X19. A roster search with a single result, followed to where it
    redirects, for any filter set made of filters that narrow: the list view
    answers with the redirect to the detail page of the one owner found, who
    is an owner of the store; the detail view, asked for that owner by a
    user with [coop.manage], leaves the world untouched and answers with the
    owner's page when the owner has no account and with the redirect to the
    account when it has one. *)
Theorem single_result_leads_to_owner_or_account (filterset_class : FilterSet)
    (request : Request) (w : World) (o : Z * ShareOwner) :
  Forall (λ f, narrows f.2) filterset_class →
  has_perm (user request) "coop.manage" = true →
  FilterSet_qs filterset_class (db w) (query request)
    (ShareOwnerListView.get_queryset (db w)) = inr [o] →
  ShareOwnerListView.get filterset_class request w
  = (inr (HttpResponseRedirect (url_shareowner_detail o.1)), w) ∧
  share_owners (db w) !! o.1 = Some o.2 ∧
  ShareOwnerDetailView.get request o.1 w
  = (inr (match so_user o.2 with
          | Some u => HttpResponseRedirect (url_user_detail u)
          | None => TemplateResponse "coop/shareowner_detail.html" [o]
          end), w).
Proof.
  intros Hall Hp Hqs.
  assert (Ho : share_owners (db w) !! o.1 = Some o.2).
  { apply (FilterSet_qs_narrows _ _ _ _ _ Hall) in Hqs as [Hsub _].
    assert (Hin : o ∈ ShareOwnerListView.get_queryset (db w))
      by (apply Hsub; left).
    destruct o as [k o]. by apply elem_of_map_to_list in Hin. }
  split; [|split; [exact Ho|]].
  - unfold ShareOwnerListView.get, lift. run. rewrite Hqs. cbn. done.
  - unfold ShareOwnerDetailView.get, PermissionRequiredMixin_dispatch,
      ShareOwnerDetailView.permission_required, get_object_or_404.
    rewrite Hp. run. rewrite Ho. destruct o as [k o]. cbn.
    by destruct (so_user o).
Qed.

(** ** Further theorems at work on the sample store *)

Lemma grant_relinks_log_entries_witness :
  let o := Sample.person "Ada" "Smith" "ada@example.org" in
  let marked := set_attended_welcome_session true o in
  share_owners (db world_with_log) !! 2 = Some marked ∧
  fault_within 4 world_with_log = false ∧
  let r := CreateUserFromShareOwnerView.form_valid
             (Sample.request POST ["coop.manage"] []) 2
             CreateUserFromShareOwnerView.TapirUser_new world_with_log in
  length (log_entries (db r.2)) = 1%nat ∧
  Forall (λ e, log_share_owner e ≠ Some 2) (log_entries (db r.2)).
Proof.
  split; [reflexivity|]. split; [reflexivity|].
  destruct (grant_relinks_log_entries
              (Sample.request POST ["coop.manage"] []) 2
              (set_attended_welcome_session true
                 (Sample.person "Ada" "Smith" "ada@example.org"))
              CreateUserFromShareOwnerView.TapirUser_new world_with_log
              eq_refl eq_refl) as (H1 & H2 & _).
  split; [exact H1 | exact H2].
Defined.

Lemma create_user_dispatch_no_effect_witness :
  let request := Sample.request GET ["coop.manage"] [] in
  method request = GET ∧
  (CreateUserFromShareOwnerView.dispatch request 2 SampleForms.new_account
     (Sample.world [])).2 = Sample.world [].
Proof.
  split; [reflexivity|].
  exact (create_user_dispatch_no_effect
           (Sample.request GET ["coop.manage"] []) 2 SampleForms.new_account
           (Sample.world []) (or_intror (or_introl eq_refl))).
Defined.

Lemma welcome_desk_search_agrees_with_roster_witness :
  let qs := objects_all Sample.database in
  "Smith" ≠ EmptyString ∧ NoDup qs ∧
  ShareOwnerFilterWelcomeDesk.display_name_filter Sample.database qs "Smith"
  = ShareOwnerFilter.display_name_filter Sample.database qs "Smith".
Proof.
  assert (Hne : "Smith" ≠ EmptyString) by discriminate.
  assert (Hnd : NoDup (objects_all Sample.database)) by apply NoDup_map_to_list.
  split; [exact Hne|]. split; [exact Hnd|].
  exact (welcome_desk_search_agrees_with_roster Sample.database
           (objects_all Sample.database) "Smith" Hne Hnd).
Defined.


Lemma filtered_count_at_most_total_witness :
  let request := Sample.request GET ["coop.manage"] [("display_name", "Smith")] in
  Forall (λ f : string * FilterMethod, narrows f.2)
         ShareOwnerListView.filterset_class ∧
  ∃ object_list,
    FilterSet_qs ShareOwnerListView.filterset_class Sample.database
      (query request) (ShareOwnerListView.get_queryset Sample.database)
    = inr object_list ∧
    length object_list = 3%nat ∧
    NoDup object_list.
Proof.
  assert (Hall : Forall (λ f : string * FilterMethod, narrows f.2)
                        ShareOwnerListView.filterset_class).
  { apply Forall_cons. split; [|constructor].
    exact roster_display_name_filter_narrows. }
  split; [exact Hall|].
  eexists. split; [vm_compute; reflexivity|]. split; [reflexivity|].
  exact (proj1 (proj2 (filtered_count_at_most_total
                         ShareOwnerListView.filterset_class
                         (Sample.request GET ["coop.manage"]
                            [("display_name", "Smith")])
                         Sample.database _ Hall ltac:(vm_compute; reflexivity)))).
Defined.

Lemma single_result_leads_to_owner_or_account_witness :
  let request := Sample.request GET ["coop.manage"] [("display_name", "Cleo")] in
  let w := Sample.world [] in
  FilterSet_qs ShareOwnerListView.filterset_class (db w) (query request)
    (ShareOwnerListView.get_queryset (db w)) = inr [(4, Sample.linked)] ∧
  ShareOwnerListView.get ShareOwnerListView.filterset_class request w
  = (inr (HttpResponseRedirect (url_shareowner_detail 4)), w) ∧
  ShareOwnerDetailView.get request 4 w
  = (inr (HttpResponseRedirect (url_user_detail 5)), w).
Proof.
  split; [vm_compute; reflexivity|].
  assert (Hall : Forall (λ f : string * FilterMethod, narrows f.2)
                        ShareOwnerListView.filterset_class).
  { apply Forall_cons. split; [|constructor].
    exact roster_display_name_filter_narrows. }
  destruct (single_result_leads_to_owner_or_account
              ShareOwnerListView.filterset_class
              (Sample.request GET ["coop.manage"] [("display_name", "Cleo")])
              (Sample.world []) (4, Sample.linked) Hall eq_refl
              ltac:(vm_compute; reflexivity)) as (H1 & _ & H3).
  split; [exact H1 | exact H3].
Defined.

Lemma matching_program_date_reads_back_witness :
  let record := (7, {| so_user := None; so_info := blank_info;
                       company_name := EmptyString; is_company := false;
                       is_investing := false; attended_welcome_session := true;
                       ratenzahlung := false; paid_membership_fee := true;
                       willing_to_gift_a_share := Some (Date 2023 3 9) |}) in
  valid_date (Date 2023 3 9) = true ∧
  MatchingProgram.render_willing_to_gift_a_share record = "09.03.2023" ∧
  strptime_dmY (MatchingProgram.render_willing_to_gift_a_share record)
  = inr (Date 2023 3 9).
Proof.
  split; [reflexivity|]. split; [reflexivity|].
  exact (proj1 (matching_program_date_reads_back
                  (7, {| so_user := None; so_info := blank_info;
                         company_name := EmptyString; is_company := false;
                         is_investing := false; attended_welcome_session := true;
                         ratenzahlung := false; paid_membership_fee := true;
                         willing_to_gift_a_share := Some (Date 2023 3 9) |})
                  (Date 2023 3 9) eq_refl eq_refl ltac:(cbn; lia))).
Defined.

(** ** Routes *)

Lemma fold_decimal_shift (l : list ascii) (a : Z) :
  fold_left (λ acc c, 10 * acc + digit_value c) l a
  = a * 10 ^ Z.of_nat (length l)
    + fold_left (λ acc c, 10 * acc + digit_value c) l 0.
Proof.
  revert a. induction l as [|c l IH]; intros a.
  - cbn. lia.
  - cbn [fold_left length]. rewrite IH, (IH (10 * 0 + digit_value c)).
    rewrite Nat2Z.inj_succ, Z.pow_succ_r by lia. lia.
Qed.

Lemma decimal_value_cons (c : ascii) (s : string) :
  decimal_value (String c s)
  = digit_value c * 10 ^ Z.of_nat (String.length s) + decimal_value s.
Proof.
  unfold decimal_value, chars. cbn [list_ascii_of_string fold_left].
  rewrite fold_decimal_shift. f_equal.
  replace (length (list_ascii_of_string s)) with (String.length s); [lia|].
  clear. induction s as [|c s IH]; cbn; [done|]. by rewrite IH.
Qed.

Lemma digits_of_spec (fuel : nat) (n : Z) (acc : string) :
  0 ≤ n → (Z.to_nat n < fuel)%nat →
  forallb is_decimal (chars acc) = true →
  let ds := digits_of fuel n acc in
  ds ≠ EmptyString ∧
  forallb is_decimal (chars ds) = true ∧
  decimal_value ds = n * 10 ^ Z.of_nat (String.length acc) + decimal_value acc.
Proof.
  revert n acc. induction fuel as [|fuel IH]; intros n acc Hn Hfuel Hacc; [lia|].
  cbn [digits_of].
  assert (Hd : 0 ≤ n mod 10 ≤ 9) by (Z.to_euclidean_division_equations; lia).
  assert (Hacc' : forallb is_decimal (chars (String (digit_char (n mod 10)) acc))
                  = true).
  { unfold chars. cbn. fold (chars acc). by rewrite is_decimal_digit_char, Hacc. }
  assert (Hval : decimal_value (String (digit_char (n mod 10)) acc)
                 = n mod 10 * 10 ^ Z.of_nat (String.length acc) + decimal_value acc).
  { by rewrite decimal_value_cons, digit_value_digit_char. }
  destruct (Z.ltb_spec n 10) as [Hlt|Hge].
  - cbn zeta. split; [done|]. split; [done|].
    rewrite Hval. replace (n mod 10) with n; [done|].
    Z.to_euclidean_division_equations; lia.
  - assert (Hq : 0 ≤ n / 10) by (Z.to_euclidean_division_equations; lia).
    assert (Hf : (Z.to_nat (n / 10) < fuel)%nat).
    { assert (n / 10 < n) by (Z.to_euclidean_division_equations; lia). lia. }
    destruct (IH (n / 10) _ Hq Hf Hacc') as (H1 & H2 & H3).
    cbn zeta. split; [done|]. split; [done|].
    rewrite H3, Hval. cbn [String.length].
    rewrite Nat2Z.inj_succ, Z.pow_succ_r by lia.
    pose proof (Z.div_mod n 10 ltac:(lia)) as Hdm.
    set (p := 10 ^ Z.of_nat (String.length acc)) in *.
    replace (n * p) with ((10 * (n / 10) + n mod 10) * p) by (by rewrite <- Hdm).
    lia.
Qed.

(** The decimal text of a number that is not negative is read back by the
    [int] converter. *)
Lemma int_converter_str (n : Z) : 0 ≤ n → int_converter (str n) = Some n.
Proof.
  intros Hn. unfold str. destruct (Z.ltb_spec n 0); [lia|].
  destruct (digits_of_spec (S (Z.to_nat n)) n EmptyString Hn ltac:(lia) eq_refl)
    as (H1 & H2 & H3).
  unfold int_converter, is_int_literal.
  rewrite (bool_decide_eq_false_2 _ H1), H2. cbn [negb andb].
  f_equal. rewrite H3. change (decimal_value EmptyString) with 0.
  cbn [String.length]. change (10 ^ Z.of_nat 0) with 1. lia.
Qed.

Lemma int_converter_str_neg (n : Z) : n < 0 → int_converter (str n) = None.
Proof.
  intros Hn. unfold str. destruct (Z.ltb_spec n 0); [|lia].
  reflexivity.
Qed.

Lemma int_converter_Some (s : string) (v : Z) :
  int_converter s = Some v → is_int_literal s = true ∧ v = decimal_value s.
Proof.
  unfold int_converter. destruct (is_int_literal s); [|discriminate].
  by intros [= <-].
Qed.

Lemma String_eqb_false_int_literal (a x : string) :
  is_int_literal a = false → is_int_literal x = true → String.eqb a x = false.
Proof.
  intros Ha Hx. apply String.eqb_neq. intros ->. congruence.
Qed.

(** A route that cannot match another route matches no path that the
    other one matches. *)
Lemma may_match_sound (q r : list Segment) (segs : list string) kwargs :
  may_match q r = false → match_route r segs = Some kwargs →
  match_route q segs = None.
Proof.
  revert r segs kwargs.
  induction q as [|[a|na] q IH]; intros [|[b|nb] r] [|x segs] kwargs Hm Hr;
    cbn in *; try discriminate; try done.
  - destruct (String.eqb_spec b x) as [->|]; [|discriminate].
    destruct (String.eqb_spec a x) as [->|]; [|done]. by eapply IH.
  - destruct (int_converter x) as [v|] eqn:Hx; [|discriminate].
    apply int_converter_Some in Hx as [Hx _].
    destruct (match_route r segs) as [kw|] eqn:Hr'; [|discriminate].
    destruct (is_int_literal a) eqn:Ha.
    + destruct (String.eqb a x); [|done]. by eapply IH.
    + by rewrite (String_eqb_false_int_literal a x).
  - destruct (String.eqb_spec b x) as [->|]; [|discriminate].
    unfold int_converter. destruct (is_int_literal x); [|done].
    cbn in Hm. by erewrite IH.
  - destruct (int_converter x) as [v|]; [|done].
    destruct (match_route r segs) as [kw|] eqn:Hr'; [|discriminate].
    by erewrite IH.
Qed.

Lemma split_on_slash_free (s : string) :
  slash_free s → split_on "/" s = [s].
Proof.
  unfold slash_free, chars. induction s as [|c s IH]; intros H; [done|].
  cbn in *. apply not_elem_of_cons in H as [Hc Hs].
  rewrite bool_decide_eq_false_2 by done. by rewrite IH.
Qed.

Lemma split_on_slash_app (s t : string) :
  slash_free s → split_on "/" (s ++ String "/" t) = s :: split_on "/" t.
Proof.
  unfold slash_free, chars. induction s as [|c s IH]; intros H; [done|].
  cbn in H. apply not_elem_of_cons in H as [Hc Hs].
  change (String c s ++ String "/" t) with (String c (s ++ String "/" t)).
  cbn [split_on]. rewrite bool_decide_eq_false_2 by done. by rewrite IH.
Qed.

Lemma split_on_join (segs : list string) :
  segs ≠ [] → Forall slash_free segs → split_on "/" (join segs) = segs.
Proof.
  induction segs as [|s [|s' rest] IH]; intros Hne Hall; [done| |].
  - cbn. apply split_on_slash_free. by apply Forall_inv in Hall.
  - apply Forall_cons in Hall as [Hs Hall].
    change (join (s :: s' :: rest)) with (s ++ String "/" (join (s' :: rest))).
    rewrite split_on_slash_app by done. by rewrite IH.
Qed.

Lemma is_int_literal_slash_free (s : string) :
  is_int_literal s = true → slash_free s.
Proof.
  unfold is_int_literal, slash_free. intros [_ H]%andb_true_iff.
  rewrite forallb_forall in H. intros Hin.
  apply list_elem_of_In, H in Hin. discriminate.
Qed.

Lemma literals_slash_free_cons_Lit (s : string) (r : list Segment) :
  literals_slash_free (Lit s :: r) = true →
  slash_free s ∧ literals_slash_free r = true.
Proof.
  unfold literals_slash_free. cbn. intros [Hs Hr]%andb_true_iff.
  split; [|done]. unfold slash_free. intros Hin.
  apply negb_true_iff, not_true_iff_false in Hs. apply Hs.
  apply existsb_exists. exists "/"%char.
  split; [by apply list_elem_of_In|by apply bool_decide_eq_true].
Qed.

Lemma match_route_slash_free (r : list Segment) (segs : list string) kwargs :
  literals_slash_free r = true → match_route r segs = Some kwargs →
  Forall slash_free segs ∧ (r ≠ [] → segs ≠ []).
Proof.
  revert segs kwargs.
  induction r as [|[s|name] r IH]; intros [|x segs] kwargs Hl Hm;
    cbn in Hm; try discriminate.
  - done.
  - destruct (String.eqb_spec s x) as [->|]; [|discriminate].
    apply literals_slash_free_cons_Lit in Hl as [Hx Hl].
    destruct (IH _ _ Hl Hm) as [Hall _]. split; [by constructor|done].
  - destruct (int_converter x) as [v|] eqn:Hx; [|discriminate].
    destruct (match_route r segs) as [kw|] eqn:Hr; [|discriminate].
    apply int_converter_Some in Hx as [Hx _].
    destruct (IH _ _ Hl Hr) as [Hall _].
    split; [|done]. constructor; [by apply is_int_literal_slash_free|done].
Qed.

Lemma match_fill_args (r : list Segment) (args : list Z) segs kwargs :
  fill r args = Some segs → match_route r segs = Some kwargs →
  kwargs.*2 = args ∧ Forall (λ a, 0 ≤ a) args.
Proof.
  revert args segs kwargs.
  induction r as [|[s|name] r IH]; intros args segs kwargs Hf Hm.
  - destruct args; [|discriminate]. injection Hf as <-.
    cbn in Hm. injection Hm as <-. done.
  - cbn in Hf. destruct (fill r args) as [segs'|] eqn:Hf'; [|discriminate].
    injection Hf as <-. cbn in Hm.
    destruct (String.eqb s s); [|discriminate]. by eapply IH.
  - cbn in Hf. destruct args as [|a args]; [discriminate|].
    destruct (fill r args) as [segs'|] eqn:Hf'; [|discriminate].
    injection Hf as <-. cbn in Hm.
    destruct (int_converter (str a)) as [v|] eqn:Hv; [|discriminate].
    destruct (match_route r segs') as [kw|] eqn:Hr; [|discriminate].
    injection Hm as <-.
    assert (Ha : 0 ≤ a).
    { destruct (Z.lt_ge_cases a 0) as [Hneg|]; [|done].
      by rewrite int_converter_str_neg in Hv. }
    rewrite int_converter_str in Hv by done. injection Hv as <-.
    destruct (IH _ _ _ Hf' Hr) as [Hkw Hall].
    cbn. split; [by rewrite Hkw|by constructor].
Qed.

Lemma fill_match (r : list Segment) (args : list Z) :
  Forall (λ a, 0 ≤ a) args → length args = count_params r →
  ∃ segs kwargs, fill r args = Some segs ∧ match_route r segs = Some kwargs.
Proof.
  revert args. induction r as [|[s|name] r IH]; intros args Hall Hlen.
  - destruct args; [|discriminate]. by exists [], [].
  - destruct (IH args Hall Hlen) as (segs & kw & Hf & Hm).
    exists (s :: segs), kw. cbn. rewrite Hf, Hm. cbn.
    by rewrite String.eqb_refl.
  - destruct args as [|a args]; [discriminate|].
    apply Forall_cons in Hall as [Ha Hall].
    unfold count_params in Hlen. cbn in Hlen. injection Hlen as Hlen.
    destruct (IH args Hall Hlen) as (segs & kw & Hf & Hm).
    exists (str a :: segs), ((name, a) :: kw). cbn.
    by rewrite Hf, Hm, int_converter_str.
Qed.

Lemma unambiguous_cons (p : UrlPattern) (rest : list UrlPattern) :
  unambiguous (p :: rest) = true →
  (∀ q, q ∈ rest → may_match (route p) (route q) = false ∧
                    url_name p ≠ url_name q) ∧
  literals_slash_free (route p) = true ∧ route p ≠ [] ∧
  unambiguous rest = true.
Proof.
  cbn [unambiguous]. rewrite !andb_true_iff.
  intros [[[Hq Hl] Hne] Hrest]. split; [|split; [done|split; [|done]]].
  - intros q Hin. rewrite forallb_forall in Hq.
    apply list_elem_of_In, Hq in Hin.
    apply andb_true_iff in Hin as [H1 H2].
    apply negb_true_iff in H1, H2. split; [done|].
    by apply String.eqb_neq.
  - by apply negb_true_iff, bool_decide_eq_false in Hne.
Qed.

Lemma reverse_in_resolve (ps : list UrlPattern) (name : string)
    (args : list Z) (url : string) :
  unambiguous ps = true → reverse_in ps name args = Some url →
  ∃ p segs kwargs,
    p ∈ ps ∧ url_name p = name ∧ fill (route p) args = Some segs ∧
    match_route (route p) segs = Some kwargs ∧ url = join segs ∧
    literals_slash_free (route p) = true ∧ route p ≠ [] ∧
    resolve_segments ps segs = Some (name, kwargs).
Proof.
  induction ps as [|p rest IH]; intros Hu Hr; [discriminate|].
  apply unambiguous_cons in Hu as (Hq & Hl & Hne & Hrest).
  cbn [reverse_in] in Hr.
  assert (Hrec : reverse_in rest name args = Some url →
    ∃ p0 segs kwargs,
      p0 ∈ p :: rest ∧ url_name p0 = name ∧ fill (route p0) args = Some segs ∧
      match_route (route p0) segs = Some kwargs ∧ url = join segs ∧
      literals_slash_free (route p0) = true ∧ route p0 ≠ [] ∧
      resolve_segments (p :: rest) segs = Some (name, kwargs)).
  { intros Hrest'.
    destruct (IH Hrest Hrest') as (q & segs & kw & Hin & Hn & Hf & Hm & Hu' & ? & ? & Hres).
    exists q, segs, kw. repeat (split; [done || by right|]).
    cbn [resolve_segments].
    destruct (Hq q Hin) as [Hmm _].
    by rewrite (may_match_sound _ _ _ _ Hmm Hm). }
  destruct (String.eqb_spec (url_name p) name) as [Hn|]; [|by apply Hrec].
  destruct (fill (route p) args) as [segs|] eqn:Hf; [|by apply Hrec].
  destruct (match_route (route p) segs) as [kw|] eqn:Hm; [|by apply Hrec].
  injection Hr as <-. exists p, segs, kw.
  repeat (split; [done || by left|]).
  cbn [resolve_segments]. by rewrite Hm, Hn.
Qed.

Lemma decimal_value_nonneg (s : string) :
  forallb is_decimal (chars s) = true → 0 ≤ decimal_value s.
Proof.
  unfold decimal_value. generalize (chars s). intros l.
  assert (H : ∀ a, 0 ≤ a → forallb is_decimal l = true →
              0 ≤ fold_left (λ acc c, 10 * acc + digit_value c) l a);
    [|by apply H].
  induction l as [|c l IH]; intros a Ha Hl; [done|].
  cbn in Hl. apply andb_true_iff in Hl as [Hc Hl]. cbn.
  apply IH; [|done]. apply is_decimal_digit_value in Hc. lia.
Qed.

Lemma match_route_kwargs (r : list Segment) (segs : list string) kwargs :
  match_route r segs = Some kwargs →
  length kwargs = count_params r ∧ Forall (λ kv, 0 ≤ kv.2) kwargs.
Proof.
  revert segs kwargs.
  induction r as [|[s|name] r IH]; intros [|x segs] kwargs Hm;
    cbn in Hm; try discriminate.
  - by injection Hm as <-.
  - destruct (String.eqb s x); [|discriminate]. by eapply IH.
  - destruct (int_converter x) as [v|] eqn:Hx; [|discriminate].
    destruct (match_route r segs) as [kw|] eqn:Hr; [|discriminate].
    injection Hm as <-. destruct (IH _ _ Hr) as [Hlen Hall].
    apply int_converter_Some in Hx as [Hx ->].
    apply andb_true_iff in Hx as [_ Hx].
    split; [unfold count_params in *; cbn; by rewrite Hlen|].
    constructor; [by apply decimal_value_nonneg|done].
Qed.

Lemma resolve_segments_Some (ps : list UrlPattern) (segs : list string)
    name kwargs :
  resolve_segments ps segs = Some (name, kwargs) →
  ∃ p, p ∈ ps ∧ url_name p = name ∧ match_route (route p) segs = Some kwargs.
Proof.
  induction ps as [|p rest IH]; [discriminate|]. cbn.
  destruct (match_route (route p) segs) as [kw|] eqn:Hm.
  - intros [= <- <-]. exists p. split; [left|done].
  - intros H. destruct (IH H) as (q & Hin & Hq). exists q.
    split; [by right|done].
Qed.

Lemma unambiguous_urlpatterns : unambiguous urlpatterns = true.
Proof. vm_compute. reflexivity. Qed.

Lemma reverse_unfold (name : string) (args : list Z) :
  reverse name args = reverse_in urlpatterns name args.
Proof. reflexivity. Qed.

Lemma resolve_unfold (url : string) :
  resolve url = resolve_segments urlpatterns (split_on "/" url).
Proof. reflexivity. Qed.

Lemma reverse_resolves (name : string) (args : list Z) (url : string) :
  reverse name args = Some url →
  ∃ kwargs, resolve url = Some (name, kwargs) ∧ kwargs.*2 = args ∧
            Forall (λ a, 0 ≤ a) args.
Proof.
  intros Hr. rewrite reverse_unfold in Hr.
  apply (reverse_in_resolve urlpatterns name args url unambiguous_urlpatterns)
    in Hr as (p & segs & kw & _ & _ & Hf & Hm & Hu & Hl & Hne & Hres).
  destruct (match_fill_args _ _ _ _ Hf Hm) as [Hkw Hall].
  destruct (match_route_slash_free _ _ _ Hl Hm) as [Hsf Hne'].
  exists kw. split; [|done]. rewrite resolve_unfold, Hu.
  rewrite split_on_join by auto. exact Hres.
Qed.

Lemma reverse_in_found (ps : list UrlPattern) (p : UrlPattern)
    (args : list Z) segs kwargs :
  unambiguous ps = true → p ∈ ps →
  fill (route p) args = Some segs → match_route (route p) segs = Some kwargs →
  reverse_in ps (url_name p) args = Some (join segs).
Proof.
  induction ps as [|p0 rest IH]; intros Hu Hin Hf Hm.
  - by apply elem_of_nil in Hin.
  - apply unambiguous_cons in Hu as (Hq & _ & _ & Hrest).
    cbn [reverse_in]. apply elem_of_cons in Hin as [<-|Hin].
    + by rewrite String.eqb_refl, Hf, Hm.
    + destruct (Hq p Hin) as [_ Hn].
      destruct (String.eqb_spec (url_name p0) (url_name p)); [done|].
      by apply IH.
Qed.

Lemma route_reachable (p : UrlPattern) (args : list Z) :
  p ∈ urlpatterns →
  Forall (λ a, 0 ≤ a) args → length args = count_params (route p) →
  ∃ url kwargs,
    reverse (url_name p) args = Some url ∧
    resolve url = Some (url_name p, kwargs) ∧ kwargs.*2 = args.
Proof.
  intros Hin Hall Hlen.
  destruct (fill_match (route p) args Hall Hlen) as (segs & kw & Hf & Hm).
  assert (Hr : reverse (url_name p) args = Some (join segs)).
  { rewrite reverse_unfold.
    exact (reverse_in_found urlpatterns p args segs kw
             unambiguous_urlpatterns Hin Hf Hm). }
  destruct (reverse_resolves _ _ _ Hr) as (kw' & Hres & Hkw & _).
  eauto.
Qed.

(** X20. Reversing a route name and resolving the path obtained come back
    to where they started: when [reverse] returns a path for a name and
    arguments, the resolver sends that path to the route of that name, with
    those arguments as the values of its parameters. It returns a path only
    for arguments that are not negative. *)
Theorem reverse_then_resolve (name : string) (args : list Z) (url : string) :
  reverse name args = Some url →
  ∃ kwargs, resolve url = Some (name, kwargs) ∧ kwargs.*2 = args ∧
            Forall (λ a, 0 ≤ a) args.
Proof. apply reverse_resolves. Qed.


(** X22. Whatever path the resolver accepts, it hands the view of a route
    of the table one value for each parameter of that route and never a
    negative one; the path that [reverse] builds from these values resolves
    to the same route with the same values, whatever zeros the accepted
    path had in front of its numbers. *)
Theorem resolve_gives_valid_arguments (url name : string)
    (kwargs : list (string * Z)) :
  resolve url = Some (name, kwargs) →
  ∃ p, p ∈ urlpatterns ∧ url_name p = name ∧
       length kwargs = count_params (route p) ∧
       Forall (λ kv, 0 ≤ kv.2) kwargs ∧
       ∃ canonical kwargs',
         reverse name kwargs.*2 = Some canonical ∧
         resolve canonical = Some (name, kwargs') ∧ kwargs'.*2 = kwargs.*2.
Proof.
  intros Hr. rewrite resolve_unfold in Hr.
  apply resolve_segments_Some in Hr as (p & Hin & <- & Hm).
  apply match_route_kwargs in Hm as [Hlen Hall].
  exists p. split; [done|]. split; [done|]. split; [done|]. split; [done|].
  apply route_reachable; [done| |by rewrite length_fmap].
  apply Forall_fmap. by apply (Forall_impl _ _ _ Hall).
Qed.

Lemma reverse_then_resolve_witness :
  reverse "shareowner_detail" [42] = Some "member/42/" ∧
  ∃ kwargs, resolve "member/42/" = Some ("shareowner_detail", kwargs) ∧
            kwargs.*2 = [42] ∧ Forall (λ a, 0 ≤ a) [42].
Proof.
  assert (H : reverse "shareowner_detail" [42] = Some "member/42/")
    by (vm_compute; reflexivity).
  split; [exact H|].
  exact (reverse_then_resolve "shareowner_detail" [42] "member/42/" H).
Defined.


Lemma resolve_gives_valid_arguments_witness :
  resolve "member/007/edit" = Some ("shareowner_update", [("pk", 7)]) ∧
  ∃ p, p ∈ urlpatterns ∧ url_name p = "shareowner_update" ∧
       length [("pk", 7)] = count_params (route p) ∧
       Forall (λ kv : string * Z, 0 ≤ kv.2) [("pk", 7)] ∧
       ∃ canonical kwargs',
         reverse "shareowner_update" [("pk", 7)].*2 = Some canonical ∧
         resolve canonical = Some ("shareowner_update", kwargs') ∧
         kwargs'.*2 = [("pk", 7)].*2.
Proof.
  assert (H : resolve "member/007/edit" = Some ("shareowner_update", [("pk", 7)]))
    by (vm_compute; reflexivity).
  split; [exact H|].
  exact (resolve_gives_valid_arguments "member/007/edit" "shareowner_update"
           [("pk", 7)] H).
Defined.
